(** * docmodule-go: the snapshot pipeline of [main.go] and [settings.go]

    A shallow embedding of the rename-and-relink engine, of the mirroring
    error policy and of the server supervision, followed by the properties
    the specification states about them.

    Strings are byte strings ([string] of [ascii]), exactly as Go's.  The
    file system is passed explicitly; a call of [log.Panic] ends the
    computation with [Panic]. *)

From Stdlib Require Import Bool Arith ZArith List Ascii String Lia.
From Stdlib Require Import Permutation Sorted DecimalString DecimalZ.
Import ListNotations.

Open Scope list_scope.
Open Scope string_scope.

(** ** Outcomes *)

Inductive failure : Type :=
| RemoveError        (* "error removing build directory" *)
| CreateDirError     (* "error creating build dir" *)
| CreateError        (* "could not create dummy index" *)
| RenameEntryError   (* "error while renaming entry file" *)
| GlobError          (* "could not find result files" *)
| RenameError        (* "error renaming %q to %q" *)
| ReadError          (* "error opening file" *)
| ScrapeError        (* "error scraping docs" *)
| KillError          (* "error killing godoc server process" *)
| StartError         (* "error starting godoc server" *)
| ServerTimeout.     (* "timeout checking server." *)

Inductive result (A : Type) : Type :=
| Ok (a : A)
| Panic (why : failure)
| Unmodelled.        (* the step leaves the fragment of Go's libraries modelled here *)

Arguments Ok {A} a.
Arguments Panic {A} why.
Arguments Unmodelled {A}.

Definition bind {A B : Type} (r : result A) (k : A -> result B) : result B :=
  match r with
  | Ok a => k a
  | Panic w => Panic w
  | Unmodelled => Unmodelled
  end.

Notation "x <- r ;; k" := (bind r (fun x => k))
  (at level 61, r at next level, right associativity).

(** ** The pieces of Go's standard library the program calls *)

Module GoStrings.

(** [strings.HasSuffix]. *)
Fixpoint HasSuffix (s suffix : string) : bool :=
  (s =? suffix) ||
  match s with
  | EmptyString => false
  | String _ s' => HasSuffix s' suffix
  end.

(** [strings.HasPrefix] followed by the slice past the prefix. *)
Fixpoint CutPrefix (s prefix : string) {struct prefix} : option string :=
  match prefix with
  | EmptyString => Some s
  | String p prefix' =>
      match s with
      | EmptyString => None
      | String c s' => if Ascii.eqb c p then CutPrefix s' prefix' else None
      end
  end.

(** [strings.TrimPrefix]. *)
Definition TrimPrefix (s prefix : string) : string :=
  match CutPrefix s prefix with
  | Some rest => rest
  | None => s
  end.

(** [strings.Contains s "/"]. *)
Fixpoint ContainsSlash (s : string) : bool :=
  match s with
  | EmptyString => false
  | String c s' => Ascii.eqb c "/" || ContainsSlash s'
  end.

(** [strings.Split s "/"]: never empty, [Split "" = [""]]. *)
Fixpoint Split (s : string) : list string :=
  match s with
  | EmptyString => [EmptyString]
  | String c s' =>
      if Ascii.eqb c "/" then EmptyString :: Split s'
      else match Split s' with
           | seg :: segs => String c seg :: segs
           | [] => [String c EmptyString]
           end
  end.

(** [strconv.Itoa]. *)
Definition Itoa (n : Z) : string := NilEmpty.string_of_int (Z.to_int n).

End GoStrings.

(** A segment that names an entry of a directory, and a path made of
    such segments: it starts at the working directory, is clean, and
    does not go through [.] or [..]. *)
Definition plainSegment (seg : string) : bool :=
  negb (seg =? "") && negb (GoStrings.ContainsSlash seg)
  && negb (seg =? ".") && negb (seg =? "..").

Definition plainPath (path : string) : bool :=
  forallb plainSegment (GoStrings.Split path).

(** A clean path, from the working directory or from the root. *)
Definition cleanPath (path : string) : bool :=
  plainPath path
  || match GoStrings.CutPrefix path "/" with
     | Some rest => plainPath rest
     | None => false
     end.

Module Filepath.

Fixpoint trimTrailingSlashes (s : string) : string :=
  match s with
  | EmptyString => EmptyString
  | String c s' =>
      let r := trimTrailingSlashes s' in
      if Ascii.eqb c "/" && (r =? "") then EmptyString else String c r
  end.

(** [filepath.Base] on a Unix host. *)
Definition Base (path : string) : string :=
  if path =? "" then "."
  else
    let elem := last (GoStrings.Split (trimTrailingSlashes path)) "" in
    if elem =? "" then "/" else elem.

End Filepath.

(** ** The file system

    Regular files only, as a list of (path, content) in directory order:
    the order in which the operating system happens to list them.  Paths
    are compared as written.  The build directory is flat ([wget -nd]). *)

Definition FS : Type := list (string * string).

Module Os.

Definition paths (fs : FS) : list string := map fst fs.

Definition exists_ (path : string) (fs : FS) : bool :=
  existsb (fun e => fst e =? path) fs.

Fixpoint ReadFile (path : string) (fs : FS) : option string :=
  match fs with
  | [] => None
  | (p, data) :: fs' => if p =? path then Some data else ReadFile path fs'
  end.

(** [ioutil.WriteFile]: truncates the file, or creates it. *)
Fixpoint WriteFile (path data : string) (fs : FS) : FS :=
  match fs with
  | [] => [(path, data)]
  | (p, d) :: fs' =>
      if p =? path then (p, data) :: fs' else (p, d) :: WriteFile path data fs'
  end.

(** [os.Create]: an empty file under that name. *)
Definition Create (path : string) (fs : FS) : FS := WriteFile path "" fs.

(** [path] is [dir] or lies below it. *)
Definition below (dir path : string) : bool :=
  (path =? dir) ||
  match GoStrings.CutPrefix path (dir ++ "/") with
  | Some _ => true
  | None => false
  end.

Inductive removed : Type :=
| Removed (dirs : list string) (fs : FS)
| RemoveFailed
| RemoveUnmodelled.

(** [os.RemoveAll] on the directories [dirs] and the files [fs]: the
    path and everything below it go.  For the empty path nothing is
    asked of the host and no error is reported; [fails] says that the
    host reports an error otherwise.  Covered: the empty path and clean
    paths; a path that ends in a dot, which Go refuses, is among those
    left out. *)
Definition RemoveAll (fails : bool) (dir : string) (dirs : list string) (fs : FS)
  : removed :=
  if dir =? "" then Removed dirs fs
  else if fails then RemoveFailed
  else if cleanPath dir
  then Removed (filter (fun d => negb (below dir d)) dirs)
               (filter (fun e => negb (below dir (fst e))) fs)
  else RemoveUnmodelled.

(** [os.Rename]: fails when [oldPath] is absent, replaces [newPath]. *)
Definition Rename (oldPath newPath : string) (fs : FS) : option FS :=
  if exists_ oldPath fs then
    if oldPath =? newPath then Some fs
    else Some (map (fun e => if fst e =? oldPath then (newPath, snd e) else e)
                   (filter (fun e => negb (fst e =? newPath)) fs))
  else None.

(** [Readdirnames] on the opened [dir]: the names of its entries, in
    directory order. *)
Fixpoint Readdirnames (dir : string) (fs : FS) : list string :=
  match fs with
  | [] => []
  | (p, _) :: fs' =>
      match GoStrings.CutPrefix p (dir ++ "/") with
      | Some name =>
          if GoStrings.ContainsSlash name then Readdirnames dir fs'
          else name :: Readdirnames dir fs'
      | None => Readdirnames dir fs'
      end
  end.

(** Directories.  [dirs] names the directories that exist below the
    working directory, each by its path from there, its segments joined
    by single slashes; [fs] holds the regular files as before. *)
Inductive errno : Type :=
| EEXIST      (* "file exists" *)
| ENOENT      (* "no such file or directory" *)
| ENOTDIR.    (* "not a directory" *)

Inductive made : Type :=
| Made (dirs : list string)   (* the directory was created *)
| Errno (e : errno)
| MkdirUnmodelled.

Definition isDir (path : string) (dirs : list string) : bool :=
  existsb (String.eqb path) dirs.

Definition under (at_ seg : string) : string :=
  if at_ =? "" then seg else at_ ++ "/" ++ seg.

(** The walk of the kernel along the segments [segs], standing in the
    directory [at_]: every segment but the last must be a directory that
    exists, the last must be a name not in use.  [slash] says that the
    name ended in a slash; what the call answers then when the last
    segment is a regular file differs between systems. *)
Fixpoint walk (slash : bool) (at_ : string) (segs : list string)
         (dirs : list string) (fs : FS) : made :=
  match segs with
  | [] => Errno EEXIST
  | seg :: segs' =>
      let path := under at_ seg in
      match segs' with
      | [] =>
          if isDir path dirs then Errno EEXIST
          else if exists_ path fs then
            if slash then MkdirUnmodelled else Errno EEXIST
          else Made (dirs ++ [path])%list
      | _ :: _ =>
          if isDir path dirs then walk slash path segs' dirs fs
          else if exists_ path fs then Errno ENOTDIR
          else Errno ENOENT
      end
  end.

(** [os.Mkdir] on a path relative to the working directory.  The empty
    path names nothing; repeated and trailing slashes do not count.  Paths
    from the root and paths through [.] or [..] are not covered. *)
Definition Mkdir (name : string) (dirs : list string) (fs : FS) : made :=
  if name =? "" then Errno ENOENT
  else
    let segs := GoStrings.Split name in
    if (hd "" segs =? "")
       || existsb (fun seg => (seg =? ".") || (seg =? "..")) segs
    then MkdirUnmodelled
    else walk (last segs "" =? "") ""
              (filter (fun seg => negb (seg =? "")) segs) dirs fs.

End Os.

(** [sort.Strings]: the names in increasing byte-wise order.  Whatever the
    algorithm, the result is the one sorted arrangement of the input. *)
Module Sort.

Fixpoint insert (x : string) (l : list string) : list string :=
  match l with
  | [] => [x]
  | y :: l' => if String.leb x y then x :: l else y :: insert x l'
  end.

Fixpoint Strings (l : list string) : list string :=
  match l with
  | [] => []
  | x :: l' => insert x (Strings l')
  end.

End Sort.

(** The unexported [glob] of [path/filepath] with the pattern [*.html],
    on a directory [dir] whose path is clean: it reads the names of the
    directory, sorts them, keeps those that match and joins each with
    [dir], where [filepath.Join] then finds nothing to clean.  A
    directory that is not there has no names.  The names are those of
    regular files: the crawl runs with [-nd] and makes no directories. *)
Definition glob_html (dir : string) (fs : FS) : list string :=
  map (fun name => dir ++ "/" ++ name)
      (filter (fun name => GoStrings.HasSuffix name ".html")
              (Sort.Strings (Os.Readdirnames dir fs))).

(** [hasMeta]: the path holds a character patterns are written with. *)
Fixpoint hasMeta (path : string) : bool :=
  match path with
  | EmptyString => false
  | String c path' =>
      existsb (Ascii.eqb c) ["*"; "?"; "["; "\"]%char || hasMeta path'
  end.

Inductive globbed : Type :=
| Matches (matches : list string)
| ErrBadPattern
| GlobUnmodelled.

(** A pattern with a character class that is opened and never closed:
    it holds a [[], no []] and no backslash, which would take the
    bracket for itself. *)
Definition openClass (pattern : string) : bool :=
  let chars := list_ascii_of_string pattern in
  existsb (Ascii.eqb "[") chars
  && negb (existsb (Ascii.eqb "]") chars)
  && negb (existsb (Ascii.eqb "\") chars).

(** [filepath.Glob (dir ++ "/*.html")], as the releases since Go 1.16
    have it.  The pattern is checked first, and [ErrBadPattern] is the
    answer when it is malformed; the file part [*.html] is well formed,
    so that this is a matter of [dir].  Then the pattern is split at its
    last slash, and a directory part without pattern characters is read
    as it is written.  Covered: a clean [dir] without pattern
    characters, and a [dir] with a class that is never closed.  Any
    other [dir] with pattern characters is matched as a pattern of its
    own, and a [dir] that is not clean comes back cleaned in the
    matches; both are left out. *)
Definition Glob_html (dir : string) (fs : FS) : globbed :=
  if hasMeta dir then
    if openClass dir then ErrBadPattern else GlobUnmodelled
  else if cleanPath dir then Matches (glob_html dir fs)
  else GlobUnmodelled.

(** ** Regular expressions

    [NewDocFileInfo] hands [regexp.Compile] the text made of [href=], a
    double quote, the old name and [#] (or a second double quote) as it
    is.  The fragment of Go's syntax covered here is
    the one such patterns live in when the name is made of ASCII bytes
    none of which is an operator other than the dot: every byte stands
    for itself, and a dot matches any one character but a newline. *)
Module Regexp.

Inductive inst : Type :=
| Lit (c : ascii)       (* this byte *)
| AnyCharNotNL.         (* [.] *)

Definition t : Type := list inst.

Definition byte (c : ascii) : N := N_of_ascii c.

Definition isASCII (c : ascii) : bool := (byte c <? 128)%N.

(** The bytes [regexp.QuoteMeta] escapes. *)
Definition special (c : ascii) : bool :=
  existsb (Ascii.eqb c)
          (list_ascii_of_string "\.+*?()|[]{}^$").

(** [regexp.Compile] on the fragment; [None] outside it, where Go either
    rejects the pattern (and the caller keeps a nil pointer) or builds an
    expression with operators. *)
Fixpoint Compile (pattern : string) : option t :=
  match pattern with
  | EmptyString => Some []
  | String c pattern' =>
      if Ascii.eqb c "." then option_map (cons AnyCharNotNL) (Compile pattern')
      else if special c || negb (isASCII c) then None
      else option_map (cons (Lit c)) (Compile pattern')
  end.

Definition inRange (lo hi : N) (c : ascii) : bool :=
  ((lo <=? byte c) && (byte c <=? hi))%N.

(** The width [utf8.DecodeRune] reports for the character at the head of
    [s]: 1 for an ASCII byte and for every byte that does not start a
    well-formed encoding. *)
Definition runeWidth (s : string) : nat :=
  match s with
  | EmptyString => 0
  | String b0 rest =>
      let x := byte b0 in
      if (x <? 194)%N then 1
      else if (x <? 224)%N then
        match rest with
        | String b1 _ => if inRange 128 191 b1 then 2 else 1
        | _ => 1
        end
      else if (x <? 240)%N then
        let lo := if (x =? 224)%N then 160%N else 128%N in
        let hi := if (x =? 237)%N then 159%N else 191%N in
        match rest with
        | String b1 (String b2 _) =>
            if inRange lo hi b1 && inRange 128 191 b2 then 3 else 1
        | _ => 1
        end
      else if (x <? 245)%N then
        let lo := if (x =? 240)%N then 144%N else 128%N in
        let hi := if (x =? 244)%N then 143%N else 191%N in
        match rest with
        | String b1 (String b2 (String b3 _)) =>
            if inRange lo hi b1 && inRange 128 191 b2 && inRange 128 191 b3
            then 4 else 1
        | _ => 1
        end
      else 1
  end.

Fixpoint dropBytes (n : nat) (s : string) : string :=
  match n, s with
  | S n', String _ s' => dropBytes n' s'
  | _, _ => s
  end.

(** Does [re] match at the head of [s]?  If so, what follows the match. *)
Fixpoint matchPrefix (re : t) (s : string) : option string :=
  match re with
  | [] => Some s
  | Lit c :: re' =>
      match s with
      | String d s' => if Ascii.eqb c d then matchPrefix re' s' else None
      | EmptyString => None
      end
  | AnyCharNotNL :: re' =>
      match s with
      | String d _ =>
          if Ascii.eqb d "010" then None
          else matchPrefix re' (dropBytes (runeWidth s) s)
      | EmptyString => None
      end
  end.

(** The left-to-right scan of [ReplaceAll]: [skip] bytes of a match just
    replaced are still to be passed over. *)
Fixpoint scan (re : t) (repl : string) (skip : nat) (src : string) : string :=
  match src with
  | EmptyString => EmptyString
  | String c src' =>
      match skip with
      | S k => scan re repl k src'
      | O =>
          match matchPrefix re src with
          | Some rest =>
              repl ++ scan re repl (String.length src' - String.length rest) src'
          | None => String c (scan re repl 0 src')
          end
      end
  end.

Fixpoint hasDollar (s : string) : bool :=
  match s with
  | EmptyString => false
  | String c s' => Ascii.eqb c "$" || hasDollar s'
  end.

(** [(re).ReplaceAll(src, repl)]: every leftmost match, none overlapping
    the one before, becomes [repl].  Covered: an expression that begins
    with an ASCII byte (a match then starts at a character boundary
    wherever it starts) and a replacement without [$], which Go copies
    as it is. *)
Definition ReplaceAll (re : t) (src repl : string) : option string :=
  match re with
  | Lit c :: _ =>
      if isASCII c && negb (hasDollar repl) then Some (scan re repl 0 src)
      else None
  | _ => None
  end.

End Regexp.

(** ** [settings.go] *)

Record Settings : Type := {
  GoRootPath : string;
  GoPath : string;
  GoModPath : string;
  ModName : string;
  ModuleRootPath : string;
  ServerHost : string;
  BuildDir : string;
  HTMLBaseName : string
}.

Record DocFileInfo : Type := {
  OldName : string;
  NewName : string;
  HtmlReplaceRegex1 : option Regexp.t;
  HtmlReplaceRegex2 : option Regexp.t;
  HtmlReplaceWith1 : string;
  HtmlReplaceWith2 : string
}.

Record RunInfo : Type := {
  RunInfo_Settings : Settings;
  HtmlFiles : list string;
  RunInfo_DocFileInfo : list DocFileInfo
}.

Definition quote : string := String "034" EmptyString.

Definition NewDocFileInfo (oldPath newPath : string) : DocFileInfo :=
  let oldName := Filepath.Base oldPath in
  let newName := Filepath.Base newPath in
  let regex1 := Regexp.Compile ("href=" ++ quote ++ oldName ++ "#") in
  let regex2 := Regexp.Compile ("href=" ++ quote ++ oldName ++ quote) in
  {| OldName := oldName;
     NewName := newName;
     HtmlReplaceRegex1 := regex1;
     HtmlReplaceRegex2 := regex2;
     HtmlReplaceWith1 := "href=" ++ quote ++ newName ++ "#";
     HtmlReplaceWith2 := "href=" ++ quote ++ newName ++ quote |}.

Definition NewRunInfo (settings : Settings) : RunInfo :=
  {| RunInfo_Settings := settings; HtmlFiles := []; RunInfo_DocFileInfo := [] |}.

(** ** [settings.go]: the command line *)

Record CliArgs : Type := {
  CliArgs_ServerHost : string;
  CliArgs_BuildDir : string;
  CliArgs_HTMLBaseName : string
}.

(** Package [flag], for flags that hold a string. *)
Module Flag.

(** The flags defined so far, in the order of their definition, each
    with the value it holds. *)
Definition FlagSet : Type := list (string * string).

Inductive error : Type :=
| BadName (name : string)          (* "flag %q begins with -", "flag %q contains =" *)
| Redefined (name : string)        (* "flag redefined: %s" *)
| BadSyntax (arg : string)         (* "bad flag syntax: %s" *)
| NotDefined (name : string)       (* "flag provided but not defined: -%s" *)
| Help                             (* [ErrHelp] *)
| NeedsArgument (name : string).   (* "flag needs an argument: -%s" *)

Definition defined (name : string) (f : FlagSet) : bool :=
  existsb (fun e => fst e =? name) f.

Definition beginsWithDash (s : string) : bool :=
  match s with
  | String c _ => Ascii.eqb c "-"
  | EmptyString => false
  end.

Fixpoint containsEq (s : string) : bool :=
  match s with
  | EmptyString => false
  | String c s' => Ascii.eqb c "=" || containsEq s'
  end.

(** [flag.String]: a new flag [name] holding [value].  Since Go 1.17
    [FlagSet.Var] panics on a name that begins with a dash or holds
    an equals sign; [checked] says whether the run is built with such a
    release. *)
Definition String_ (checked : bool) (name value : string) (f : FlagSet)
  : error + FlagSet :=
  if checked && beginsWithDash name then inl (BadName name)
  else if checked && containsEq name then inl (BadName name)
  else if defined name f then inl (Redefined name)
  else inr (f ++ [(name, value)])%list.

(** What the pointer returned by [flag.String] points to. *)
Fixpoint value (name : string) (f : FlagSet) : string :=
  match f with
  | [] => ""
  | (n, v) :: f' => if n =? name then v else value name f'
  end.

Definition set (name v : string) (f : FlagSet) : FlagSet :=
  map (fun e => if fst e =? name then (name, v) else e) f.

(** The text up to the first equals sign, and the text behind it. *)
Fixpoint cutEq (s : string) : string * option string :=
  match s with
  | EmptyString => (EmptyString, None)
  | String c s' =>
      if Ascii.eqb c "=" then (EmptyString, Some s')
      else let '(n, v) := cutEq s' in (String c n, v)
  end.

Inductive parsed : Type :=
| Seen (f : FlagSet) (args : list string)    (* [true, nil] *)
| Done (args : list string)                  (* [false, nil] *)
| Failed (e : error).                        (* [false, err] *)

(** [FlagSet.parseOne]. *)
Definition parseOne (f : FlagSet) (args : list string) : parsed :=
  match args with
  | [] => Done []
  | s :: rest =>
      match s with
      | String c0 (String c1 s2) =>
          if negb (Ascii.eqb c0 "-") then Done args
          else if Ascii.eqb c1 "-" && (s2 =? "") then Done rest
          else
            let name := if Ascii.eqb c1 "-" then s2 else String c1 s2 in
            match name with
            | EmptyString => Failed (BadSyntax s)
            | String n0 name' =>
                if Ascii.eqb n0 "-" || Ascii.eqb n0 "=" then Failed (BadSyntax s)
                else
                  let '(name', v) := cutEq name' in
                  let name := String n0 name' in
                  if defined name f then
                    match v, rest with
                    | Some v, _ => Seen (set name v f) rest
                    | None, v :: rest' => Seen (set name v f) rest'
                    | None, [] => Failed (NeedsArgument name)
                    end
                  else if (name =? "help") || (name =? "h") then Failed Help
                  else Failed (NotDefined name)
            end
      | _ => Done args
      end
  end.

(** The loop of [FlagSet.Parse]; every flag seen takes an argument
    away, so one round more than there are arguments is enough. *)
Fixpoint parseLoop (rounds : nat) (f : FlagSet) (args : list string)
  : option (error + FlagSet * list string) :=
  match rounds with
  | O => None
  | S rounds' =>
      match parseOne f args with
      | Seen f' args' => parseLoop rounds' f' args'
      | Done args' => Some (inr (f, args'))
      | Failed e => Some (inl e)
      end
  end.

Definition Parse (f : FlagSet) (args : list string)
  : option (error + FlagSet * list string) :=
  parseLoop (S (List.length args)) f args.

End Flag.

(** How the set-up of a run ends when it does not hand over settings:
    the flag package stops the program, or [log.Fatal] does. *)
Inductive fatal : Type :=
| FlagError (e : Flag.error)
| GoModReadError       (* "error reading go mod" *)
| NoModuleName.        (* "could not find module name in go.mod" *)

(** [parseCmdArgs] on the arguments [os.Args[1:]].  [None] only if the
    rounds of [Flag.Parse] ran out. *)
Definition parseCmdArgs (checked : bool) (args : list string)
  : option (fatal + CliArgs) :=
  match Flag.String_ checked "--build-path" "zdocs/source/_static" [] with
  | inl e => Some (inl (FlagError e))
  | inr f =>
      match Flag.String_ checked "--godoc-host" "localhost:6161" f with
      | inl e => Some (inl (FlagError e))
      | inr f =>
          match Flag.String_ checked "--html-file-name" "godoc" f with
          | inl e => Some (inl (FlagError e))
          | inr f =>
              match Flag.Parse f args with
              | None => None
              | Some (inl e) => Some (inl (FlagError e))
              | Some (inr (f, _)) =>
                  Some (inr {| CliArgs_ServerHost := Flag.value "--godoc-host" f;
                               CliArgs_BuildDir := Flag.value "--build-path" f;
                               CliArgs_HTMLBaseName :=
                                 Flag.value "--html-file-name" f |})
              end
          end
      end
  end.

Definition applyCliArgs (settings : Settings) (args : CliArgs) : Settings :=
  {| GoRootPath := GoRootPath settings;
     GoPath := GoPath settings;
     GoModPath := GoModPath settings;
     ModName := ModName settings;
     ModuleRootPath := ModuleRootPath settings;
     ServerHost := CliArgs_ServerHost args;
     BuildDir := CliArgs_BuildDir args;
     HTMLBaseName := CliArgs_HTMLBaseName args |}.

(** ** [settings.go]: the module name

    [modNameRegex] is the expression made of the word [module], one or
    more characters of the class [\s], and a group of one or more
    characters of the class [\S].  Both repetitions are greedy, and a
    character is in one class or in the other, so a match takes all the
    white space there is and then everything up to the next white space.
    The characters of [\s] are ASCII, so reading the text byte by byte
    finds the same matches as reading it character by character. *)
Module ModNameRegex.

(** The class [\s]: tab, newline, form feed, carriage return, space. *)
Definition isSpace (c : ascii) : bool :=
  existsb (Ascii.eqb c) ["009"; "010"; "012"; "013"; " "]%char.

(** The longest run of bytes at the head of [s] that are in the class
    ([space] true) or out of it, and what follows the run. *)
Fixpoint run (space : bool) (s : string) : string * string :=
  match s with
  | EmptyString => (EmptyString, EmptyString)
  | String c s' =>
      if Bool.eqb (isSpace c) space
      then let '(r, rest) := run space s' in (String c r, rest)
      else (EmptyString, s)
  end.

(** A match that starts at the head of [s]: what the group holds. *)
Definition matchHere (s : string) : option string :=
  match GoStrings.CutPrefix s "module" with
  | None => None
  | Some rest =>
      let '(spaces, rest) := run true rest in
      if spaces =? "" then None
      else
        let '(modName, _) := run false rest in
        if modName =? "" then None else Some modName
  end.

(** [modNameRegex.FindSubmatch]: the leftmost match; of its two
    elements, the group. *)
Fixpoint FindSubmatch (s : string) : option string :=
  match matchHere s with
  | Some modName => Some modName
  | None =>
      match s with
      | EmptyString => None
      | String _ s' => FindSubmatch s'
      end
  end.

End ModNameRegex.

Definition withModName (settings : Settings) (modName : string) : Settings :=
  {| GoRootPath := GoRootPath settings;
     GoPath := GoPath settings;
     GoModPath := GoModPath settings;
     ModName := modName;
     ModuleRootPath := ModuleRootPath settings;
     ServerHost := ServerHost settings;
     BuildDir := BuildDir settings;
     HTMLBaseName := HTMLBaseName settings |}.

Definition getGoModName (settings : Settings) (fs : FS) : fatal + Settings :=
  match Os.ReadFile (GoModPath settings) fs with
  | None => inl GoModReadError
  | Some goModContent =>
      match ModNameRegex.FindSubmatch goModContent with
      | None => inl NoModuleName
      | Some modName => inr (withModName settings modName)
      end
  end.

(** ** [main.go]: the build directory, renaming, link rewriting *)

(** What the host answers is collected in a [World]. *)

Inductive GetResult : Type :=
| GetError                   (* [err != nil] *)
| GetStatus (code : Z).      (* a response with this [StatusCode] *)

Record World : Type := {
  startFails : bool;              (* [command.Start] returns an error *)
  probe : nat -> Z * GetResult;   (* the k-th GET: how long the server takes, and its answer *)
  wget : FS -> FS * bool;         (* the files after the crawl; did [CombinedOutput] return an error *)
  statFails : bool;               (* [os.Stat] fails for another reason than absence *)
  killFails : bool;               (* [process.Kill] returns an error *)
  removeFails : bool;             (* [os.RemoveAll] returns an error *)
  createFails : bool              (* [os.Create] returns an error *)
}.

(** [createBuildDir], on the directories.  It panics on every error of
    [os.Mkdir] but the one that says the name is in use. *)
Inductive built : Type :=
| Built (dirs : list string)
| BuildPanic (makeDir : string) (e : Os.errno)   (* "error creating build dir: %v" *)
| BuildUnmodelled.

(** The body of [for _, subdir := range strings.Split(path, "/")]. *)
Fixpoint createLoop (subdirs : list string) (makeDir : string)
         (dirs : list string) (fs : FS) : built :=
  match subdirs with
  | [] => Built dirs
  | subdir :: subdirs' =>
      let makeDir := makeDir ++ "/" ++ subdir in
      let makeDir := GoStrings.TrimPrefix makeDir "/" in
      match Os.Mkdir makeDir dirs fs with
      | Os.Made dirs' => createLoop subdirs' makeDir dirs' fs
      | Os.Errno Os.EEXIST => createLoop subdirs' makeDir dirs fs
      | Os.Errno e => BuildPanic makeDir e
      | Os.MkdirUnmodelled => BuildUnmodelled
      end
  end.

Definition createBuildDir (path : string) (dirs : list string) (fs : FS) : built :=
  createLoop (GoStrings.Split path) "" dirs fs.

(** [setupBuildDir], on the directories and the files. *)
Definition setupBuildDir (w : World) (settings : Settings)
           (dirs : list string) (fs : FS) : result (list string * FS) :=
  match Os.RemoveAll (removeFails w) (BuildDir settings) dirs fs with
  | Os.RemoveFailed => Panic RemoveError
  | Os.RemoveUnmodelled => Unmodelled
  | Os.Removed dirs fs =>
      match createBuildDir (BuildDir settings) dirs fs with
      | BuildPanic _ _ => Panic CreateDirError
      | BuildUnmodelled => Unmodelled
      | Built dirs =>
          if createFails w then Panic CreateError
          else Ok (dirs, Os.Create (BuildDir settings ++ "/index.html") fs)
      end
  end.

Definition withEntry (runInfo : RunInfo) (newPath : string) : RunInfo :=
  {| RunInfo_Settings := RunInfo_Settings runInfo;
     HtmlFiles := (HtmlFiles runInfo ++ [newPath])%list;
     RunInfo_DocFileInfo := RunInfo_DocFileInfo runInfo |}.

Definition withRenamed (runInfo : RunInfo) (oldPath newPath : string) : RunInfo :=
  {| RunInfo_Settings := RunInfo_Settings runInfo;
     HtmlFiles := (HtmlFiles runInfo ++ [newPath])%list;
     RunInfo_DocFileInfo :=
       (RunInfo_DocFileInfo runInfo ++ [NewDocFileInfo oldPath newPath])%list |}.

Definition goDocBaseName (settings : Settings) : string :=
  last (GoStrings.Split (ModName settings)) "".

Definition entryOldPath (settings : Settings) : string :=
  BuildDir settings ++ "/" ++ goDocBaseName settings ++ ".html".

Definition entryNewPath (settings : Settings) : string :=
  BuildDir settings ++ "/" ++ HTMLBaseName settings ++ "-root.html".

Definition renameEntryPoint (runInfo : RunInfo) (fs : FS)
  : result (string * RunInfo * FS) :=
  let settings := RunInfo_Settings runInfo in
  let oldPath := entryOldPath settings in
  let newPath := entryNewPath settings in
  match Os.Rename oldPath newPath fs with
  | None => Panic RenameEntryError
  | Some fs' => Ok (newPath, withEntry runInfo newPath, fs')
  end.

(** The new path the loop of [renameOutputFiles] gives the match at
    position [i] of the glob result. *)
Definition numberedPath (settings : Settings) (i : nat) : string :=
  let index := (Z.of_nat i + 1)%Z in
  let newPath := HTMLBaseName settings ++ "." ++ GoStrings.Itoa index ++ ".html" in
  BuildDir settings ++ "/" ++ newPath.

(** The body of [for i, oldPath := range matches], from position [i] on. *)
Fixpoint renameLoop (entryPoint : string) (i : nat) (matches : list string)
         (runInfo : RunInfo) (fs : FS) : result (RunInfo * FS) :=
  match matches with
  | [] => Ok (runInfo, fs)
  | oldPath :: matches' =>
      if oldPath =? entryPoint then
        renameLoop entryPoint (S i) matches' runInfo fs
      else
        let newPath := numberedPath (RunInfo_Settings runInfo) i in
        match Os.Rename oldPath newPath fs with
        | None => Panic RenameError
        | Some fs' =>
            renameLoop entryPoint (S i) matches'
                       (withRenamed runInfo oldPath newPath) fs'
        end
  end.

Definition renameOutputFiles (runInfo : RunInfo) (fs : FS)
  : result (RunInfo * FS) :=
  let settings := RunInfo_Settings runInfo in
  r <- renameEntryPoint runInfo fs ;;
  let '(entryPoint, runInfo, fs) := r in
  match Glob_html (BuildDir settings) fs with
  | Matches matches => renameLoop entryPoint 0 matches runInfo fs
  | ErrBadPattern => Panic GlobError
  | GlobUnmodelled => Unmodelled
  end.

(** The two [ReplaceAll] calls of [rewriteHTMLLinks] for one record. *)
Definition replaceBoth (info : DocFileInfo) (data : string) : result string :=
  match HtmlReplaceRegex1 info, HtmlReplaceRegex2 info with
  | Some regex1, Some regex2 =>
      match Regexp.ReplaceAll regex1 data (HtmlReplaceWith1 info) with
      | Some data =>
          match Regexp.ReplaceAll regex2 data (HtmlReplaceWith2 info) with
          | Some data => Ok data
          | None => Unmodelled
          end
      | None => Unmodelled
      end
  | _, _ => Unmodelled
  end.

(** The inner loop: read, replace, write back, once per record. *)
Fixpoint rewriteFile (filePath : string) (infos : list DocFileInfo) (fs : FS)
  : result FS :=
  match infos with
  | [] => Ok fs
  | info :: infos' =>
      match Os.ReadFile filePath fs with
      | None => Panic ReadError
      | Some data =>
          data <- replaceBoth info data ;;
          rewriteFile filePath infos' (Os.WriteFile filePath data fs)
      end
  end.

Fixpoint rewriteFiles (files : list string) (infos : list DocFileInfo) (fs : FS)
  : result FS :=
  match files with
  | [] => Ok fs
  | filePath :: files' =>
      fs <- rewriteFile filePath infos fs ;;
      rewriteFiles files' infos fs
  end.

Definition rewriteHTMLLinks (runInfo : RunInfo) (fs : FS) : result FS :=
  rewriteFiles (HtmlFiles runInfo) (RunInfo_DocFileInfo runInfo) fs.

(** ** [main.go]: the server, the readiness probe, the crawl *)

(** [fileExists]: the pair [(exists, err != nil)]. *)
Definition fileExists (w : World) (path : string) (fs : FS) : bool * bool :=
  if statFails w then (true, true)
  else if Os.exists_ path fs then (true, false)
  else (false, false).

Definition scrapeModulePages (w : World) (settings : Settings) (fs : FS)
  : result FS :=
  let '(fs, err) := wget w fs in
  if err then
    let '(exists_, err) := fileExists w (BuildDir settings ++ "/style.css") fs in
    if negb exists_ || err then Panic ScrapeError else Ok fs
  else Ok fs.

(** Time in nanoseconds, as [time.Duration] counts it, on a clock that
    starts when [waitForServer] is entered and that only requests and
    sleeps advance. *)
Definition second : Z := 1000000000.
Definition deadline : Z := 10 * second.

Arguments second : simpl never.
Arguments deadline : simpl never.

(** [client.Get] under [http.Client{Timeout: 1 * time.Second}]. *)
Definition clientGet (answer : Z * GetResult) : Z * GetResult :=
  let '(took, got) := answer in
  if (took <? 0)%Z then (0%Z, got)
  else if (1 * second <=? took)%Z then ((1 * second)%Z, GetError)
  else (took, got).

Record attempt : Type := {
  started : Z;
  finished : Z;
  got : GetResult
}.

(** [err != nil || resp == nil || resp.StatusCode != 200]. *)
Definition notReady (r : GetResult) : bool :=
  match r with
  | GetError => true
  | GetStatus code => negb (code =? 200)%Z
  end.

Inductive waitOutcome : Type :=
| Ready (at_ : Z)     (* [timer.Stop(); break] at this instant *)
| TimedOut            (* the function armed by [time.AfterFunc] ran *)
| Unfinished.         (* the rounds allotted to the model ran out *)

(** The loop of [waitForServer] from its k-th round on.  The function
    armed by [time.AfterFunc] runs once the clock reaches [deadline],
    whatever the loop is doing then. *)
Fixpoint waitLoop (rounds : nat) (w : World) (k : nat) (now : Z)
         (log : list attempt) : list attempt * waitOutcome :=
  match rounds with
  | O => (log, Unfinished)
  | S rounds' =>
      let '(took, got) := clientGet (probe w k) in
      let finished := (now + took)%Z in
      if (deadline <=? finished)%Z then (log, TimedOut)
      else
        let log := (log ++ [{| started := now; finished := finished; got := got |}])%list in
        if notReady got then
          let now := (finished + second)%Z in       (* [time.Sleep(time.Second)] *)
          if (deadline <=? now)%Z then (log, TimedOut)
          else waitLoop rounds' w (S k) now log
        else (log, Ready finished)
  end.

(** Eleven rounds are more than the ten seconds leave room for. *)
Definition waitForServer (w : World) : list attempt * waitOutcome :=
  waitLoop 11 w 0 0%Z [].

(** What can be observed of a run of [runServerAndScrapeDocs]. *)
Inductive event : Type :=
| Killall               (* [exec.Command("killall", "godoc").Run()] *)
| ServerStarted         (* [command.Start()] returned nil *)
| Probed (a : attempt)
| TimerFired
| Crawled               (* [wgetCommand.CombinedOutput()] returned *)
| ShutdownRequested     (* [shutDownSignal.Done()] *)
| Kill (ok : bool)      (* [process.Kill()], and whether it returned nil *)
| ShutdownCompleted     (* [shutdownComplete.Done()] *)
| ShutdownObserved.     (* [shutDownComplete.Wait()] returned *)

(** How the call ends.  A panic in the goroutine that runs the pipeline
    unwinds it: its deferred calls run and the panic goes on to the
    caller.  A panic in any other goroutine is nobody's to recover: the
    Go runtime ends the program on the spot, and no deferred call of the
    pipeline's goroutine runs. *)
Inductive exit : Type :=
| Returned
| Unwound (why : failure)
| Crashed (why : failure).

(** [killDeferred]: its events, and whether it panicked. *)
Definition killDeferred (w : World) : list event * bool :=
  if killFails w then ([Kill false; ShutdownCompleted], true)
  else ([Kill true; ShutdownCompleted], false).

(** [runDocServer] runs in a goroutine of its own: it starts the server,
    defers [killDeferred] and blocks in [shutdownSignal.Wait()].  What it
    does once released is [killDeferred]. *)
Definition runDocServer_start (w : World) : list event * option failure :=
  if startFails w then ([], Some StartError) else ([ServerStarted], None).

(** [runServerAndScrapeDocs].  The two goroutines meet only at the two
    wait groups, so the events of the supervisor are placed where those
    force them to be. *)
Definition runServerAndScrapeDocs (w : World) (settings : Settings) (fs : FS)
  : list event * exit * FS :=
  match runDocServer_start w with
  | (evs, Some why) => ((Killall :: evs)%list, Crashed why, fs)
  | (evs, None) =>
      let '(log, outcome) := waitForServer w in
      let evs := (Killall :: evs ++ map Probed log)%list in
      match outcome with
      | Ready _ =>
          let body := scrapeModulePages w settings fs in
          let evs := (evs ++ [Crawled])%list in
          (* the deferred function: it runs on return and on panic alike *)
          let '(kevs, kpanic) := killDeferred w in
          let evs := (evs ++ ShutdownRequested :: kevs)%list in
          if kpanic then (evs, Crashed KillError, fs)
          else
            let evs := (evs ++ [ShutdownObserved])%list in
            match body with
            | Ok fs' => (evs, Returned, fs')
            | Panic why => (evs, Unwound why, fs)
            | Unmodelled => (evs, Unwound ScrapeError, fs)
            end
      | _ => ((evs ++ [TimerFired])%list, Crashed ServerTimeout, fs)
      end
  end.

(** Calls of [process.Kill] in a run, and whether the server it started
    is still alive when the run is over. *)
Definition kills (evs : list event) : nat :=
  List.length (filter (fun e => match e with Kill _ => true | _ => false end) evs).

Definition serverAlive (evs : list event) : bool :=
  existsb (fun e => match e with ServerStarted => true | _ => false end) evs
  && negb (existsb (fun e => match e with Kill true => true | _ => false end) evs).

(** [main], after [setupRunInfo] has filled in the settings. *)
Definition main (w : World) (settings : Settings) (dirs : list string) (fs : FS)
  : result FS :=
  let runInfo := NewRunInfo settings in
  r <- setupBuildDir w settings dirs fs ;;
  match runServerAndScrapeDocs w settings (snd r) with
  | (_, Returned, fs) =>
      r <- renameOutputFiles runInfo fs ;;
      rewriteHTMLLinks (fst r) (snd r)
  | (_, Unwound why, _) => Panic why
  | (_, Crashed why, _) => Panic why
  end.

(** * The vocabulary of the properties

    What the statements below are written with: the checks on records
    and expressions, the shapes of runs, and the directories, records
    and worlds of the examples. *)

(** ** Orders and runs *)

(** The byte-wise order of [sort.Strings]. *)
Definition le (x y : string) : Prop := String.leb x y = true.

(** Two runs agree: the same record of the run, the same files. *)
Definition sameRun (r1 r2 : result (RunInfo * FS)) : Prop :=
  match r1, r2 with
  | Ok (runInfo1, fs1), Ok (runInfo2, fs2) =>
      runInfo1 = runInfo2 /\ Permutation fs1 fs2
  | Panic why1, Panic why2 => why1 = why2
  | Unmodelled, Unmodelled => True
  | _, _ => False
  end.

(** ** The numbered files *)

(** The records the loop adds for the paths [olds], none of them the
    entry point, met from position [i] of the listing on. *)
Fixpoint recordsFrom (settings : Settings) (i : nat) (olds : list string)
  : list DocFileInfo :=
  match olds with
  | [] => []
  | old :: olds' =>
      NewDocFileInfo old (numberedPath settings i) :: recordsFrom settings (S i) olds'
  end.

(** The paths they are renamed to. *)
Fixpoint pathsFrom (settings : Settings) (i : nat) (olds : list string)
  : list string :=
  match olds with
  | [] => []
  | _ :: olds' => numberedPath settings i :: pathsFrom settings (S i) olds'
  end.

(** [<base>.<index>.html] *)
Definition numberedName (settings : Settings) (index : nat) : string :=
  HTMLBaseName settings ++ "." ++ GoStrings.Itoa (Z.of_nat index) ++ ".html".

(** The files left when a path and what is below it are gone. *)
Definition cleared (dir : string) (fs : FS) : FS :=
  filter (fun e => negb (Os.below dir (fst e))) fs.

(** The file [setupBuildDir] reserves. *)
Definition indexPath (settings : Settings) : string :=
  BuildDir settings ++ "/index.html".

(** ** The log of the probe *)

(** Attempts made one after the other from the k-th on, the first
    starting at [now]: each is the world's answer to that request, ends
    before the deadline, and the next starts one second after it ends. *)
Fixpoint chain (w : World) (k : nat) (now : Z) (log : list attempt) : Prop :=
  match log with
  | [] => True
  | a :: log' =>
      started a = now
      /\ finished a = (now + fst (clientGet (probe w k)))%Z
      /\ got a = snd (clientGet (probe w k))
      /\ (finished a < deadline)%Z
      /\ chain w (S k) (finished a + second)%Z log'
  end.

(** When the loop is free to send its next request. *)
Definition resume (now : Z) (log : list attempt) : Z :=
  fold_left (fun _ a => (finished a + second)%Z) log now.

(** An attempt after which the loop sleeps and tries again. *)
Definition failed (a : attempt) : Prop := notReady (got a) = true.

(** What the outcome says about the attempts logged from the k-th on. *)
Definition verdict (w : World) (k : nat) (now : Z) (log : list attempt)
           (outcome : waitOutcome) : Prop :=
  match outcome with
  | Ready t =>
      exists earlier a,
        log = (earlier ++ [a])%list /\ Forall failed earlier
        /\ got a = GetStatus 200 /\ finished a = t /\ (t < deadline)%Z
  | TimedOut =>
      Forall failed log
      /\ (deadline <= resume now log
                      + fst (clientGet (probe w (k + List.length log))))%Z
  | Unfinished => False
  end.

(** ** Texts and expressions *)

(** The text is empty or starts with an ASCII byte. *)
Definition asciiHead (v : string) : bool :=
  match v with
  | EmptyString => true
  | String a _ => Regexp.isASCII a
  end.

(** Every byte of the text is ASCII. *)
Fixpoint allASCII (s : string) : bool :=
  match s with
  | EmptyString => true
  | String a s' => Regexp.isASCII a && allASCII s'
  end.

(** Some byte of the text is ASCII; none is. *)
Fixpoint hasASCII (s : string) : bool :=
  match s with
  | EmptyString => false
  | String a s' => Regexp.isASCII a || hasASCII s'
  end.

Fixpoint noASCII (s : string) : bool :=
  match s with
  | EmptyString => true
  | String a s' => negb (Regexp.isASCII a) && noASCII s'
  end.

(** [re] and the text [x] agree as far as the shorter of them goes. *)
Fixpoint startsMatch (re : Regexp.t) (x : string) : bool :=
  match re, x with
  | [], _ => true
  | _, EmptyString => true
  | Regexp.Lit c :: re', String d x' => Ascii.eqb c d && startsMatch re' x'
  | Regexp.AnyCharNotNL :: re', String d x' =>
      negb (Ascii.eqb d "010") && startsMatch re' x'
  end.

(** The non-empty tails of a text. *)
Fixpoint tails (s : string) : list string :=
  match s with
  | EmptyString => []
  | String _ s' => s :: tails s'
  end.

(** No match of [re] occurs anywhere in [s]. *)
Fixpoint free (re : Regexp.t) (s : string) : bool :=
  match s with
  | EmptyString => true
  | String _ s' =>
      match Regexp.matchPrefix re s with
      | Some _ => false
      | None => free re s'
      end
  end.

(** The expression begins with an ASCII byte. *)
Definition asciiLed (re : Regexp.t) : bool :=
  match re with
  | Regexp.Lit c :: _ => Regexp.isASCII c
  | _ => false
  end.

(** Every literal of the expression is an ASCII byte. *)
Fixpoint pure (re : Regexp.t) : bool :=
  match re with
  | [] => true
  | Regexp.Lit c :: re' => Regexp.isASCII c && pure re'
  | Regexp.AnyCharNotNL :: re' => pure re'
  end.

(** The expression ends with a literal. *)
Fixpoint closed (re : Regexp.t) : bool :=
  match re with
  | [] => false
  | e :: re' =>
      match re' with
      | [] => match e with Regexp.Lit _ => true | Regexp.AnyCharNotNL => false end
      | _ :: _ => closed re'
      end
  end.

(** Some text is matched by both expressions, as far as the shorter
    goes. *)
Fixpoint compatible (q p : Regexp.t) : bool :=
  match q, p with
  | [], _ => true
  | _, [] => true
  | Regexp.Lit a :: q', Regexp.Lit b :: p' => Ascii.eqb a b && compatible q' p'
  | Regexp.Lit a :: q', Regexp.AnyCharNotNL :: p' =>
      negb (Ascii.eqb a "010") && compatible q' p'
  | Regexp.AnyCharNotNL :: q', Regexp.Lit b :: p' =>
      negb (Ascii.eqb b "010") && compatible q' p'
  | Regexp.AnyCharNotNL :: q', Regexp.AnyCharNotNL :: p' => compatible q' p'
  end.

(** ** Checks on an expression and a text *)

(** No part of [q] but its beginning agrees with the beginning of [r]: a
    match of [q] that starts before an occurrence of [r] ends before it. *)
Definition noRunInto (q : Regexp.t) (r : string) : bool :=
  forallb (fun k => negb (startsMatch (skipn k q) r)) (seq 1 (List.length q - 1)).

(** [q] agrees with no tail of [r]: no match of [q] starts inside an
    occurrence of [r], at its first byte or later. *)
Definition noStartIn (q : Regexp.t) (r : string) : bool :=
  forallb (fun x => negb (startsMatch q x)) (tails r).

(** No match of [q] starts where [p] is matching, at its start or
    later. *)
Definition apart (q p : Regexp.t) : bool :=
  forallb (fun k => negb (compatible q (skipn k p))) (seq 0 (List.length p)).

(** A pattern and its replacement as the proofs below need them. *)
Definition plain (re : Regexp.t) (repl : string) : bool :=
  asciiLed re && pure re && closed re && allASCII repl && negb (repl =? "").

(** [p] with its replacement [r] and [q] with its replacement [s] keep
    out of each other's way. *)
Definition cross (p : Regexp.t) (r : string) (q : Regexp.t) (s : string) : bool :=
  apart q p && apart p q
  && noRunInto q r && noRunInto p s
  && noStartIn q r && noStartIn p s.

(** ** References and records *)

(** A reference to [name] as the records look for it, and a link that
    holds one. *)
Definition hrefQuoted (name : string) : string := "href=" ++ quote ++ name ++ quote.
Definition hrefAnchor (name : string) : string := "href=" ++ quote ++ name ++ "#".
Definition linkTo (target : string) : string := "<a " ++ hrefQuoted target ++ ">".

(** The two forms of a reference the records rewrite. *)
Inductive form : Type :=
| Quoted      (* the name, then the closing double quote *)
| Anchored.   (* the name, then [#] *)

Definition reference (f : form) (name : string) : string :=
  match f with
  | Quoted => hrefQuoted name
  | Anchored => hrefAnchor name
  end.

(** A record inside the fragment covered: [ReplaceAll] answers. *)
Definition supported (info : DocFileInfo) : bool :=
  match HtmlReplaceRegex1 info, HtmlReplaceRegex2 info with
  | Some regex1, Some regex2 =>
      asciiLed regex1 && asciiLed regex2
      && negb (Regexp.hasDollar (HtmlReplaceWith1 info))
      && negb (Regexp.hasDollar (HtmlReplaceWith2 info))
  | _, _ => false
  end.

(** What a supported record makes of a content. *)
Definition rewritten (info : DocFileInfo) (data : string) : string :=
  match HtmlReplaceRegex1 info, HtmlReplaceRegex2 info with
  | Some regex1, Some regex2 =>
      Regexp.scan regex2 (HtmlReplaceWith2 info) 0
                  (Regexp.scan regex1 (HtmlReplaceWith1 info) 0 data)
  | _, _ => data
  end.

(** What the records of a list, applied in its order, make of it. *)
Definition rewrittenBy (infos : list DocFileInfo) (data : string) : string :=
  fold_left (fun data info => rewritten info data) infos data.

(** A record whose patterns find nothing to match in, or across, its own
    replacement texts. *)
Definition settles (info : DocFileInfo) : bool :=
  match HtmlReplaceRegex1 info, HtmlReplaceRegex2 info with
  | Some regex1, Some regex2 =>
      let with1 := HtmlReplaceWith1 info in
      let with2 := HtmlReplaceWith2 info in
      asciiLed regex1 && asciiLed regex2
      && allASCII with1 && allASCII with2
      && negb (with1 =? "") && negb (with2 =? "")
      && negb (Regexp.hasDollar with1) && negb (Regexp.hasDollar with2)
      && noRunInto regex1 with1 && noStartIn regex1 with1
      && noRunInto regex1 with2 && noStartIn regex1 with2
      && noRunInto regex2 with2 && noStartIn regex2 with2
  | _, _ => false
  end.

(** The record's patterns match nothing in or across the text [block]. *)
Definition leaves (info : DocFileInfo) (block : string) : bool :=
  match HtmlReplaceRegex1 info, HtmlReplaceRegex2 info with
  | Some regex1, Some regex2 =>
      allASCII block
      && noRunInto regex1 block && noStartIn regex1 block
      && noRunInto regex2 block && noStartIn regex2 block
  | _, _ => false
  end.

(** The record turns a reference to its old name, in the form [f], into
    that reference to its new name, wherever it stands. *)
Definition relinks (info : DocFileInfo) (f : form) : bool :=
  match HtmlReplaceRegex1 info, HtmlReplaceRegex2 info with
  | Some regex1, Some regex2 =>
      allASCII (reference f (OldName info))
      && allASCII (reference f (NewName info))
      && match f with
         | Quoted =>
             noRunInto regex1 (hrefQuoted (OldName info))
             && noStartIn regex1 (hrefQuoted (OldName info))
             && noRunInto regex2 (hrefQuoted (OldName info))
         | Anchored =>
             noRunInto regex1 (hrefAnchor (OldName info))
             && noRunInto regex2 (hrefAnchor (NewName info))
             && noStartIn regex2 (hrefAnchor (NewName info))
         end
  | _, _ => false
  end.

(** Two records whose four rewritings commute with one another. *)
Definition unrelated (a b : DocFileInfo) : bool :=
  match HtmlReplaceRegex1 a, HtmlReplaceRegex2 a,
        HtmlReplaceRegex1 b, HtmlReplaceRegex2 b with
  | Some a1, Some a2, Some b1, Some b2 =>
      plain a1 (HtmlReplaceWith1 a) && plain a2 (HtmlReplaceWith2 a)
      && plain b1 (HtmlReplaceWith1 b) && plain b2 (HtmlReplaceWith2 b)
      && cross a1 (HtmlReplaceWith1 a) b1 (HtmlReplaceWith1 b)
      && cross a1 (HtmlReplaceWith1 a) b2 (HtmlReplaceWith2 b)
      && cross a2 (HtmlReplaceWith2 a) b1 (HtmlReplaceWith1 b)
      && cross a2 (HtmlReplaceWith2 a) b2 (HtmlReplaceWith2 b)
  | _, _, _, _ => false
  end.

(** Every two records of the list are the same record or unrelated. *)
Definition pairwiseUnrelated (infos : list DocFileInfo) : Prop :=
  forall a b, In a infos -> In b infos -> a = b \/ unrelated a b = true.

(** ** The command line *)

(** What the three flags hold when no argument sets them. *)
Definition defaultCliArgs : CliArgs :=
  {| CliArgs_ServerHost := "localhost:6161";
     CliArgs_BuildDir := "zdocs/source/_static";
     CliArgs_HTMLBaseName := "godoc" |}.

(** The argument is taken for a flag: two bytes or more, the first a
    dash, and not the two dashes that end the flags. *)
Definition flagLike (s : string) : bool :=
  match s with
  | String c0 (String c1 s2) =>
      Ascii.eqb c0 "-" && negb (Ascii.eqb c1 "-" && (s2 =? ""))
  | _ => false
  end.

Definition dashed (f : Flag.FlagSet) : Prop :=
  Forall (fun e => Flag.beginsWithDash (fst e) = true) f.

(** ** The module name *)

(** Every byte of the text is white space ([space] true), or none is. *)
Fixpoint inClass (space : bool) (s : string) : bool :=
  match s with
  | EmptyString => true
  | String c s' => Bool.eqb (ModNameRegex.isSpace c) space && inClass space s'
  end.

(** The text is over, or goes on with white space. *)
Definition wordEnds (rest : string) : bool :=
  match rest with
  | EmptyString => true
  | String c _ => ModNameRegex.isSpace c
  end.

(** The two texts agree as far as the shorter of them goes. *)
Fixpoint agrees (s w : string) : bool :=
  match s, w with
  | String a s', String b w' => Ascii.eqb a b && agrees s' w'
  | _, _ => true
  end.

(** The word [module] starts nowhere in the text, not even cut short by
    its end. *)
Definition noModuleIn (pre : string) : bool :=
  forallb (fun t => negb (agrees t "module")) (tails pre).

Definition newline : string := String "010" EmptyString.

(** ** Directories *)

(** The path made of the segments, and the paths of the directories on
    the way to it, itself the last. *)
Definition joinPath (segs : list string) : string := fold_left Os.under segs "".

Fixpoint prefixesFrom (at_ : string) (segs : list string) : list string :=
  match segs with
  | [] => []
  | seg :: segs' => Os.under at_ seg :: prefixesFrom (Os.under at_ seg) segs'
  end.

(** What the walk and the loop know about the directory they stand
    in: it is the working directory, or its path splits into plain
    segments. *)
Definition standsAt (at_ : string) (done : list string) : Prop :=
  (done = [] /\ at_ = "")
  \/ (done <> [] /\ at_ <> "" /\ GoStrings.Split at_ = done
      /\ forallb plainSegment done = true).

(** ** Texts *)

(** [strings.Contains]. *)
Fixpoint contains (s substr : string) : bool :=
  match GoStrings.CutPrefix s substr with
  | Some _ => true
  | None =>
      match s with
      | EmptyString => false
      | String _ s' => contains s' substr
      end
  end.

(** ** Settings, directories, records and worlds of the examples *)

(** The settings of a run with the default flags. *)
Definition exampleSettings (modName : string) : Settings :=
  {| GoRootPath := "/usr/local/go"; GoPath := "/home/dev/go";
     GoModPath := "/home/dev/pkg/go.mod"; ModName := modName;
     ModuleRootPath := "/home/dev/pkg"; ServerHost := "localhost:6161";
     BuildDir := "zdocs/source/_static"; HTMLBaseName := "godoc" |}.

Definition runABC : RunInfo := NewRunInfo (exampleSettings "a/b/c").

(** The default build directory, as a prefix of paths. *)
Definition staticDir : string := "zdocs/source/_static/".

(** Build directories after a crawl. *)
Definition entryExampleFS : FS :=
  [ ("zdocs/source/_static/c.html", "<html>c</html>");
    ("zdocs/source/_static/style.css", "") ].

Definition pagesA : FS :=
  [ ("zdocs/source/_static/sub.html", "<html>sub</html>");
    ("zdocs/source/_static/style.css", "body {}");
    ("zdocs/source/_static/c.html", "<html>c</html>");
    ("zdocs/source/_static/api.html", "<html>api</html>");
    ("zdocs/source/_static/index.html", "") ].

Definition pagesDots : FS :=
  [ (staticDir ++ "c.html", linkTo "a.b.html" ++ linkTo "axb.html");
    (staticDir ++ "a.b.html", "<html>a.b</html>");
    (staticDir ++ "axb.html", "<html>axb</html>");
    (staticDir ++ "style.css", "body {}") ].

(** A crawl that adds an entry page with three links, two more pages
    and the stylesheet, and reports success. *)
Definition crawledPages : FS :=
  [ (staticDir ++ "c.html",
     linkTo "api.html" ++ linkTo "index.html" ++ linkTo "sub.html#Types");
    (staticDir ++ "api.html", "<html>api</html>");
    (staticDir ++ "sub.html", "<html>sub</html>");
    (staticDir ++ "style.css", "body {}") ].

(** Output files before the rewriting. *)
Definition threePages : FS :=
  [ (staticDir ++ "godoc-root.html",
     linkTo "api.html" ++ linkTo "index.html" ++ linkTo "sub.html#Types");
    (staticDir ++ "godoc.1.html", linkTo "sub.html");
    (staticDir ++ "godoc.4.html", linkTo "api.html#Client") ].

Definition twoPages : FS :=
  [ (staticDir ++ "godoc-root.html", linkTo "axb.html");
    (staticDir ++ "godoc.1.html", linkTo "a.b.html") ].

(** Records as the run makes them. *)
Definition apiRecord : DocFileInfo :=
  NewDocFileInfo (staticDir ++ "api.html") (staticDir ++ "godoc.1.html").

Definition subRecord : DocFileInfo :=
  NewDocFileInfo (staticDir ++ "sub.html") (staticDir ++ "godoc.4.html").

Definition indexRecord : DocFileInfo :=
  NewDocFileInfo (staticDir ++ "index.html") (staticDir ++ "godoc.3.html").

Definition pkgRecord : DocFileInfo :=
  NewDocFileInfo (staticDir ++ "pkg.html") (staticDir ++ "godoc-root.html").

(** The record of a page [godoc.2.html.x.html], which the run numbers 2
    when it sorts right behind [godoc-root.html]. *)
Definition nestedRecord : DocFileInfo :=
  NewDocFileInfo (staticDir ++ "godoc.2.html.x.html") (staticDir ++ "godoc.2.html").

(** The record of a page whose name holds a [#]. *)
Definition anchorRecord : DocFileInfo :=
  NewDocFileInfo (staticDir ++ "godoc.2.html#x.html") (staticDir ++ "godoc.2.html").

(** A crawl with a page that bears a numbered name, [godoc.3.html], and
    sorts ahead of the page that is given that name. *)
Definition pagesChained : FS :=
  [ (staticDir ++ "c.html", linkTo "m.html" ++ linkTo "godoc.3.html#Index");
    (staticDir ++ "godoc.3.html", "<html>three</html>");
    (staticDir ++ "m.html", "<html>m</html>") ].

(** Two pages whose names differ in one byte, a dot in the first. *)
Definition dotRecord : DocFileInfo :=
  NewDocFileInfo (staticDir ++ "a.b.html") (staticDir ++ "godoc.1.html").

Definition axbRecord : DocFileInfo :=
  NewDocFileInfo (staticDir ++ "axb.html") (staticDir ++ "godoc.2.html").

(** The crawl reports an error, the stylesheet is in place, and looking
    for it fails (an I/O error, a permission lost). *)
Definition statErrorWorld : World :=
  {| startFails := false;
     probe := fun _ => (1000000%Z, GetStatus 200);
     wget := fun fs => (Os.WriteFile "zdocs/source/_static/style.css" "body {}" fs, true);
     statFails := true;
     killFails := false;
     removeFails := false;
     createFails := false |}.

(** The test of the specification: no status 200 during the first three
    seconds, then 200.  Requests take 0.2 s; the fourth is the first to
    succeed, 3.8 s after the start, and the probe returns there. *)
Definition slowStartWorld : World :=
  {| startFails := false;
     probe := fun k => (200000000%Z, if (k <? 3)%nat then GetStatus 503 else GetStatus 200);
     wget := fun fs => (fs, false);
     statFails := false;
     killFails := false;
     removeFails := false;
     createFails := false |}.

(** A server that never answers with status 200. *)
Definition deafWorld : World :=
  {| startFails := false;
     probe := fun _ => (200000000%Z, GetStatus 503);
     wget := fun fs => (fs, false);
     statFails := false;
     killFails := false;
     removeFails := false;
     createFails := false |}.

Definition crawlWorld : World :=
  {| startFails := false;
     probe := fun _ => (1000000%Z, GetStatus 200);
     wget := fun fs => ((fs ++ crawledPages)%list, false);
     statFails := false;
     killFails := false;
     removeFails := false;
     createFails := false |}.

(** A [go.mod] with a comment ahead of the directive. *)
Definition goModExample : string :=
  "// docs" ++ newline ++ "module example.com/kit/v2" ++ newline ++ newline
  ++ "go 1.13" ++ newline.

(** A crawl with a page that bears a name the renaming hands out. *)
Definition pagesNumbered : FS :=
  [ (staticDir ++ "c.html", "<html>c</html>");
    (staticDir ++ "api.html", "<html>api</html>");
    (staticDir ++ "godoc.1.html", "<html>one</html>") ].

(** The output files of the example, their records, and the run that
    holds them. *)
Definition runThreePages : RunInfo :=
  {| RunInfo_Settings := exampleSettings "a/b/c";
     HtmlFiles := map fst threePages;
     RunInfo_DocFileInfo := [apiRecord; indexRecord; subRecord] |}.

Definition threePagesRelinked : FS :=
  Eval vm_compute in
    match rewriteHTMLLinks runThreePages threePages with
    | Ok fs => fs
    | _ => []
    end.

(** The settings with another build directory. *)
Definition withBuildDir (settings : Settings) (buildDir : string) : Settings :=
  {| GoRootPath := GoRootPath settings;
     GoPath := GoPath settings;
     GoModPath := GoModPath settings;
     ModName := ModName settings;
     ModuleRootPath := ModuleRootPath settings;
     ServerHost := ServerHost settings;
     BuildDir := buildDir;
     HTMLBaseName := HTMLBaseName settings |}.

(** The directories and the files the setup leaves on an empty disk,
    with the default build directory. *)
Definition staticDirs : list string :=
  ["zdocs"; "zdocs/source"; "zdocs/source/_static"].

Definition crawlSetup : FS := [(staticDir ++ "index.html", "")].

(** What the run on the crawl of [crawlWorld] leaves. *)
Definition crawlFinal : FS :=
  Eval vm_compute in
    match main crawlWorld (exampleSettings "a/b/c") [] [] with
    | Ok fs => fs
    | _ => []
    end.

(** * Properties *)

(** ** Strings and their order *)

Section StringFacts.

Lemma eqb_true (a b : string) : (a =? b) = true -> a = b.
Proof. apply String.eqb_eq. Qed.

Lemma append_nil_r (s : string) : s ++ "" = s.
Proof. induction s as [|c s IH]; simpl; [reflexivity | now rewrite IH]. Qed.

Lemma append_assoc (a b c : string) : (a ++ b) ++ c = a ++ (b ++ c).
Proof. induction a as [|x a IH]; simpl; [reflexivity | now rewrite IH]. Qed.

Lemma append_length (a b : string) :
  String.length (a ++ b) = String.length a + String.length b.
Proof. induction a as [|x a IH]; simpl; [reflexivity | now rewrite IH]. Qed.

Lemma append_inj_l (p a b : string) : p ++ a = p ++ b -> a = b.
Proof.
  induction p as [|x p IH]; simpl; intro H; [assumption |].
  injection H as H. now apply IH.
Qed.

Lemma join_inj (dir a b : string) : dir ++ "/" ++ a = dir ++ "/" ++ b -> a = b.
Proof. intro H. apply append_inj_l in H. now injection H. Qed.

Lemma CutPrefix_append (p s : string) : GoStrings.CutPrefix (p ++ s) p = Some s.
Proof.
  induction p as [|x p IH]; simpl; [reflexivity |].
  now rewrite Ascii.eqb_refl.
Qed.

Lemma CutPrefix_join (dir name : string) :
  GoStrings.CutPrefix (dir ++ "/" ++ name) (dir ++ "/") = Some name.
Proof. rewrite <- append_assoc. apply CutPrefix_append. Qed.

Lemma CutPrefix_Some (s p r : string) :
  GoStrings.CutPrefix s p = Some r -> s = p ++ r.
Proof.
  revert s; induction p as [|x p IH]; simpl; intros s H.
  - now injection H as ->.
  - destruct s as [|c s]; [discriminate |].
    destruct (Ascii.eqb c x) eqn:E; [| discriminate].
    apply Ascii.eqb_eq in E; subst c. f_equal. now apply IH.
Qed.

Lemma ascii_compare_trans (a b c : ascii) :
  Ascii.compare a b <> Gt -> Ascii.compare b c <> Gt -> Ascii.compare a c <> Gt.
Proof.
  unfold Ascii.compare. rewrite !N.compare_le_iff. intros; etransitivity; eassumption.
Qed.

Lemma ascii_compare_lt_trans (a b c : ascii) :
  Ascii.compare a b = Lt -> Ascii.compare b c = Lt -> Ascii.compare a c = Lt.
Proof. unfold Ascii.compare. rewrite !N.compare_lt_iff. apply N.lt_trans. Qed.

Lemma compare_trans_le (x y z : string) :
  String.compare x y <> Gt -> String.compare y z <> Gt -> String.compare x z <> Gt.
Proof.
  revert y z; induction x as [|a x IH]; intros [|b y] [|c z]; simpl;
    try congruence.
  destruct (Ascii.compare a b) eqn:Eab; try congruence;
    destruct (Ascii.compare b c) eqn:Ebc; try congruence; intros Hxy Hyz.
  - apply Ascii.compare_eq_iff in Eab, Ebc; subst.
    assert (E : Ascii.compare c c = Eq) by (unfold Ascii.compare; apply N.compare_refl).
    rewrite E. eauto.
  - apply Ascii.compare_eq_iff in Eab; subst. now rewrite Ebc.
  - apply Ascii.compare_eq_iff in Ebc; subst. now rewrite Eab.
  - now rewrite (ascii_compare_lt_trans _ _ _ Eab Ebc).
Qed.

Lemma leb_trans (x y z : string) :
  String.leb x y = true -> String.leb y z = true -> String.leb x z = true.
Proof.
  unfold String.leb. intros Hxy Hyz.
  assert (H : String.compare x z <> Gt).
  { apply (compare_trans_le x y z).
    - destruct (String.compare x y); congruence.
    - destruct (String.compare y z); congruence. }
  destruct (String.compare x z); congruence.
Qed.

End StringFacts.

(** ** [sort.Strings] yields the one sorted arrangement *)

Section Sorting.

Lemma insert_perm (x : string) (l : list string) :
  Permutation (Sort.insert x l) (x :: l).
Proof.
  induction l as [|y l IH]; simpl; [reflexivity |].
  destruct (String.leb x y); [reflexivity |].
  rewrite IH. apply perm_swap.
Qed.

Lemma Strings_perm (l : list string) : Permutation (Sort.Strings l) l.
Proof.
  induction l as [|x l IH]; simpl; [reflexivity |].
  rewrite insert_perm. now constructor.
Qed.

Lemma insert_sorted (x : string) (l : list string) :
  StronglySorted le l -> StronglySorted le (Sort.insert x l).
Proof.
  induction 1 as [|y l Hs IH Hall]; simpl.
  - repeat constructor.
  - destruct (String.leb x y) eqn:E.
    + constructor; [now constructor |].
      constructor; [exact E |].
      eapply Forall_impl; [| exact Hall].
      intros z Hz. exact (leb_trans _ _ _ E Hz).
    + constructor; [exact IH |].
      assert (Hyx : le y x).
      { destruct (String.leb_total x y) as [H | H]; [congruence | exact H]. }
      eapply Permutation_Forall; [symmetry; apply insert_perm |].
      now constructor.
Qed.

Lemma Strings_sorted (l : list string) : StronglySorted le (Sort.Strings l).
Proof.
  induction l as [|x l IH]; simpl; [constructor | now apply insert_sorted].
Qed.

Lemma sorted_perm_eq (l1 l2 : list string) :
  StronglySorted le l1 -> StronglySorted le l2 -> Permutation l1 l2 -> l1 = l2.
Proof.
  intros H1; revert l2.
  induction H1 as [|x l1 Hs1 IH Hall1]; intros l2 H2 HP.
  - apply Permutation_nil in HP. now subst.
  - destruct H2 as [|y l2 Hs2 Hall2].
    + symmetry in HP. now apply Permutation_nil in HP.
    + assert (Hxy : x = y).
      { assert (Hx : In x (y :: l2)) by (eapply Permutation_in; [exact HP | now left]).
        assert (Hy : In y (x :: l1))
          by (eapply Permutation_in; [symmetry; exact HP | now left]).
        destruct Hx as [-> | Hx]; [reflexivity |].
        destruct Hy as [-> | Hy]; [reflexivity |].
        apply String.leb_antisym.
        - rewrite Forall_forall in Hall1. now apply Hall1.
        - rewrite Forall_forall in Hall2. now apply Hall2. }
      subst y. f_equal. apply IH; [exact Hs2 |].
      eapply Permutation_cons_inv; exact HP.
Qed.

Lemma Strings_perm_eq (l1 l2 : list string) :
  Permutation l1 l2 -> Sort.Strings l1 = Sort.Strings l2.
Proof.
  intro HP. apply sorted_perm_eq; try apply Strings_sorted.
  rewrite !Strings_perm. exact HP.
Qed.

End Sorting.

(** ** The file system *)

Section FileSystem.

Lemma exists_In (path : string) (fs : FS) :
  Os.exists_ path fs = true <-> In path (Os.paths fs).
Proof.
  unfold Os.exists_, Os.paths. rewrite existsb_exists, in_map_iff.
  split.
  - intros [e [He Hp]]. exists e. split; [now apply String.eqb_eq | exact He].
  - intros [e [Hp He]]. exists e. split; [exact He | now apply String.eqb_eq].
Qed.

Lemma ReadFile_exists (path : string) (fs : FS) :
  Os.exists_ path fs = true <-> exists data, Os.ReadFile path fs = Some data.
Proof.
  induction fs as [|[p d] fs IH]; simpl.
  - split; [discriminate | intros [? ?]; discriminate].
  - destruct (p =? path); simpl; [| exact IH].
    split; [intros _; now exists d | reflexivity].
Qed.

Lemma exists_perm (path : string) (fs1 fs2 : FS) :
  Permutation fs1 fs2 -> Os.exists_ path fs1 = Os.exists_ path fs2.
Proof.
  intro HP. apply eq_true_iff_eq. rewrite !exists_In.
  unfold Os.paths. split; apply Permutation_in; [| symmetry];
    now apply Permutation_map.
Qed.

Lemma filter_perm {A : Type} (f : A -> bool) (l1 l2 : list A) :
  Permutation l1 l2 -> Permutation (filter f l1) (filter f l2).
Proof.
  induction 1 as [| x l1 l2 _ IH | x y l | l1 l2 l3 _ IH1 _ IH2]; simpl.
  - constructor.
  - destruct (f x); [now constructor | exact IH].
  - destruct (f x), (f y); try reflexivity. apply perm_swap.
  - now transitivity (filter f l2).
Qed.

Lemma Rename_perm (oldPath newPath : string) (fs1 fs2 : FS) :
  Permutation fs1 fs2 ->
  match Os.Rename oldPath newPath fs1, Os.Rename oldPath newPath fs2 with
  | Some a, Some b => Permutation a b
  | None, None => True
  | _, _ => False
  end.
Proof.
  intro HP. unfold Os.Rename. rewrite (exists_perm oldPath fs1 fs2 HP).
  destruct (Os.exists_ oldPath fs2); [| exact I].
  destruct (oldPath =? newPath); [exact HP |].
  apply Permutation_map. now apply filter_perm.
Qed.

Lemma Readdirnames_perm (dir : string) (fs1 fs2 : FS) :
  Permutation fs1 fs2 ->
  Permutation (Os.Readdirnames dir fs1) (Os.Readdirnames dir fs2).
Proof.
  induction 1 as [| [p d] l1 l2 _ IH | [p d] [q e] l | l1 l2 l3 _ IH1 _ IH2]; simpl.
  - constructor.
  - destruct (GoStrings.CutPrefix p (dir ++ "/")) as [n|]; [| exact IH].
    destruct (GoStrings.ContainsSlash n); [exact IH | now constructor].
  - destruct (GoStrings.CutPrefix p (dir ++ "/")) as [n|];
      destruct (GoStrings.CutPrefix q (dir ++ "/")) as [m|];
      try destruct (GoStrings.ContainsSlash n);
      try destruct (GoStrings.ContainsSlash m); try reflexivity.
    apply perm_swap.
  - now transitivity (Os.Readdirnames dir l2).
Qed.

(** The listing does not depend on the order of the directory. *)
Lemma glob_html_perm (dir : string) (fs1 fs2 : FS) :
  Permutation fs1 fs2 -> glob_html dir fs1 = glob_html dir fs2.
Proof.
  intro HP. unfold glob_html.
  now rewrite (Strings_perm_eq _ _ (Readdirnames_perm dir fs1 fs2 HP)).
Qed.

Lemma Readdirnames_In (dir name : string) (fs : FS) :
  In name (Os.Readdirnames dir fs) <->
  In (dir ++ "/" ++ name) (Os.paths fs) /\ GoStrings.ContainsSlash name = false.
Proof.
  induction fs as [|[p d] fs IH]; simpl; [tauto |].
  destruct (GoStrings.CutPrefix p (dir ++ "/")) as [n|] eqn:E.
  - apply CutPrefix_Some in E. rewrite append_assoc in E. subst p.
    destruct (GoStrings.ContainsSlash n) eqn:S.
    + rewrite IH. split; [tauto |]. intros [[H | H] Hs]; [| tauto].
      apply join_inj in H. congruence.
    + simpl. rewrite IH. split.
      * intros [-> | [H1 H2]]; [split; [now left | exact S] | tauto].
      * intros [[H | H] Hs]; [| tauto]. left. now apply join_inj in H.
  - rewrite IH. split; [tauto |]. intros [[H | H] Hs]; [| tauto].
    subst p. pose proof (CutPrefix_join dir name) as C. simpl in C. congruence.
Qed.

Lemma Readdirnames_NoDup (dir : string) (fs : FS) :
  NoDup (Os.paths fs) -> NoDup (Os.Readdirnames dir fs).
Proof.
  induction fs as [|[p d] fs IH]; simpl; intro H; [constructor |].
  inversion H as [|? ? Hnin Hnd]; subst.
  destruct (GoStrings.CutPrefix p (dir ++ "/")) as [n|] eqn:E; [| now apply IH].
  destruct (GoStrings.ContainsSlash n); [now apply IH |].
  constructor; [| now apply IH].
  intro Hin. apply Readdirnames_In in Hin. destruct Hin as [Hin _].
  apply CutPrefix_Some in E. rewrite append_assoc in E. now subst p.
Qed.

(** On a plain directory [filepath.Glob] is the listing; whatever it
    returns as matches is the listing. *)
Lemma Glob_html_plain (dir : string) (fs : FS) :
  hasMeta dir = false -> cleanPath dir = true ->
  Glob_html dir fs = Matches (glob_html dir fs).
Proof. intros H1 H2. unfold Glob_html. now rewrite H1, H2. Qed.

Lemma Glob_html_Matches (dir : string) (fs : FS) (matches : list string) :
  Glob_html dir fs = Matches matches -> matches = glob_html dir fs.
Proof.
  unfold Glob_html. destruct (hasMeta dir).
  - destruct (openClass dir); discriminate.
  - destruct (cleanPath dir); [| discriminate]. now intros [= <-].
Qed.

Lemma Glob_html_perm (dir : string) (fs1 fs2 : FS) :
  Permutation fs1 fs2 -> Glob_html dir fs1 = Glob_html dir fs2.
Proof.
  intro HP. unfold Glob_html. now rewrite (glob_html_perm dir fs1 fs2 HP).
Qed.

Lemma glob_html_In (dir path : string) (fs : FS) :
  In path (glob_html dir fs) <->
  exists name, path = dir ++ "/" ++ name /\ In path (Os.paths fs) /\
               GoStrings.ContainsSlash name = false /\
               GoStrings.HasSuffix name ".html" = true.
Proof.
  unfold glob_html. rewrite in_map_iff. split.
  - intros [name [<- H]]. apply filter_In in H. destruct H as [H Hs].
    apply (Permutation_in _ (Strings_perm _)) in H.
    apply Readdirnames_In in H. exists name. tauto.
  - intros [name [-> [Hin [Hs Hh]]]]. exists name. split; [reflexivity |].
    apply filter_In. split; [| exact Hh].
    apply (Permutation_in _ (Permutation_sym (Strings_perm _))).
    apply Readdirnames_In. tauto.
Qed.

Lemma glob_html_NoDup (dir : string) (fs : FS) :
  NoDup (Os.paths fs) -> NoDup (glob_html dir fs).
Proof.
  intro H. unfold glob_html.
  apply Finite.Injective_map_NoDup.
  - intros a b Hab. now apply join_inj in Hab.
  - apply NoDup_filter.
    eapply Permutation_NoDup; [symmetry; apply Strings_perm |].
    now apply Readdirnames_NoDup.
Qed.

End FileSystem.

(** ** [os.Rename] *)

Section Renaming.

Variables oldPath newPath : string.

Let moved (fs : FS) : FS :=
  map (fun e : string * string => if fst e =? oldPath then (newPath, snd e) else e)
      (filter (fun e : string * string => negb (fst e =? newPath)) fs).

Lemma moved_read_new (fs : FS) :
  oldPath <> newPath -> Os.ReadFile newPath (moved fs) = Os.ReadFile oldPath fs.
Proof.
  intro Hne. unfold moved. induction fs as [|[p d] fs IH]; simpl; [reflexivity |].
  destruct (p =? newPath) eqn:En; simpl.
  - apply String.eqb_eq in En. subst p.
    destruct (newPath =? oldPath) eqn:E; [| exact IH].
    apply String.eqb_eq in E. congruence.
  - destruct (p =? oldPath) eqn:Eo; simpl.
    + now rewrite String.eqb_refl.
    + rewrite En. exact IH.
Qed.

Lemma moved_read_old (fs : FS) :
  oldPath <> newPath -> Os.ReadFile oldPath (moved fs) = None.
Proof.
  intro Hne. unfold moved. induction fs as [|[p d] fs IH]; simpl; [reflexivity |].
  destruct (p =? newPath) eqn:En; simpl; [exact IH |].
  destruct (p =? oldPath) eqn:Eo; simpl.
  - destruct (newPath =? oldPath) eqn:E; [| exact IH].
    apply String.eqb_eq in E. congruence.
  - rewrite Eo. exact IH.
Qed.

Lemma moved_read_other (path : string) (fs : FS) :
  path <> oldPath -> path <> newPath ->
  Os.ReadFile path (moved fs) = Os.ReadFile path fs.
Proof.
  intros Ho Hn. unfold moved. induction fs as [|[p d] fs IH]; simpl; [reflexivity |].
  destruct (p =? newPath) eqn:En; simpl.
  - apply String.eqb_eq in En. subst p.
    destruct (newPath =? path) eqn:E; [| exact IH].
    apply String.eqb_eq in E. congruence.
  - destruct (p =? oldPath) eqn:Eo; simpl.
    + apply String.eqb_eq in Eo. subst p.
      destruct (newPath =? path) eqn:E1; [apply String.eqb_eq in E1; congruence |].
      destruct (oldPath =? path) eqn:E2; [apply String.eqb_eq in E2; congruence |].
      exact IH.
    + destruct (p =? path); [reflexivity | exact IH].
Qed.

Lemma Rename_Some (fs : FS) :
  Os.exists_ oldPath fs = true -> exists fs', Os.Rename oldPath newPath fs = Some fs'.
Proof.
  intro H. unfold Os.Rename. rewrite H.
  destruct (oldPath =? newPath); eexists; reflexivity.
Qed.

Lemma Rename_exists (fs fs' : FS) :
  Os.Rename oldPath newPath fs = Some fs' -> Os.exists_ oldPath fs = true.
Proof. unfold Os.Rename. now destruct (Os.exists_ oldPath fs). Qed.

Lemma Rename_read_new (fs fs' : FS) :
  Os.Rename oldPath newPath fs = Some fs' ->
  Os.ReadFile newPath fs' = Os.ReadFile oldPath fs.
Proof.
  unfold Os.Rename. destruct (Os.exists_ oldPath fs); [| discriminate].
  destruct (oldPath =? newPath) eqn:E; intros [= <-].
  - apply String.eqb_eq in E. now subst.
  - apply moved_read_new. now apply String.eqb_neq.
Qed.

Lemma Rename_read_old (fs fs' : FS) :
  Os.Rename oldPath newPath fs = Some fs' -> oldPath <> newPath ->
  Os.ReadFile oldPath fs' = None.
Proof.
  unfold Os.Rename. destruct (Os.exists_ oldPath fs); [| discriminate].
  destruct (oldPath =? newPath) eqn:E; intros [= <-] Hne.
  - apply String.eqb_eq in E. contradiction.
  - now apply moved_read_old.
Qed.

Lemma Rename_read_other (path : string) (fs fs' : FS) :
  Os.Rename oldPath newPath fs = Some fs' ->
  path <> oldPath -> path <> newPath ->
  Os.ReadFile path fs' = Os.ReadFile path fs.
Proof.
  unfold Os.Rename. destruct (Os.exists_ oldPath fs); [| discriminate].
  destruct (oldPath =? newPath) eqn:E; intros [= <-] Ho Hn.
  - reflexivity.
  - now apply moved_read_other.
Qed.

(** A file other than the one moved is still there afterwards. *)
Lemma Rename_keeps (path : string) (fs fs' : FS) :
  Os.Rename oldPath newPath fs = Some fs' ->
  path <> oldPath -> Os.exists_ path fs = true -> Os.exists_ path fs' = true.
Proof.
  intros HR Ho Hex.
  destruct (string_dec path newPath) as [-> | Hn].
  - apply ReadFile_exists. rewrite (Rename_read_new _ _ HR).
    apply ReadFile_exists. exact (Rename_exists _ _ HR).
  - apply ReadFile_exists. rewrite (Rename_read_other _ _ _ HR Ho Hn).
    now apply ReadFile_exists.
Qed.

End Renaming.

(** ** The entry point *)

Section EntryPoint.

Lemma Split_nonempty (s : string) : GoStrings.Split s <> [].
Proof.
  destruct s as [|c s]; simpl; [discriminate |].
  destruct (Ascii.eqb c "/"); [discriminate |].
  destruct (GoStrings.Split s); discriminate.
Qed.

Lemma Split_no_slash (s : string) :
  GoStrings.ContainsSlash s = false -> GoStrings.Split s = [s].
Proof.
  induction s as [|c s IH]; simpl; [reflexivity |].
  destruct (Ascii.eqb c "/"); simpl; [discriminate |].
  intro H. now rewrite (IH H).
Qed.

Lemma Split_join (p s : string) :
  GoStrings.Split (p ++ "/" ++ s) = (GoStrings.Split p ++ GoStrings.Split s)%list.
Proof.
  induction p as [|c p IH]; simpl; [reflexivity |].
  destruct (Ascii.eqb c "/"); simpl in *; rewrite IH; [reflexivity |].
  pose proof (Split_nonempty p) as Hne.
  destruct (GoStrings.Split p); [contradiction | reflexivity].
Qed.

Lemma last_app_nonempty {A : Type} (l1 l2 : list A) (d : A) :
  l2 <> [] -> last (l1 ++ l2) d = last l2 d.
Proof.
  intro H. induction l1 as [|x l1 IH]; simpl; [reflexivity |].
  rewrite <- IH. destruct (l1 ++ l2)%list eqn:E; [| reflexivity].
  apply app_eq_nil in E. tauto.
Qed.

(** The name the entry page is looked up under is the last segment of
    the module path. *)
Lemma goDocBaseName_last_segment (settings : Settings) (prefix seg : string) :
  ModName settings = seg \/ ModName settings = prefix ++ "/" ++ seg ->
  GoStrings.ContainsSlash seg = false ->
  goDocBaseName settings = seg.
Proof.
  unfold goDocBaseName. intros [-> | ->] Hs.
  - now rewrite Split_no_slash.
  - rewrite Split_join, last_app_nonempty by apply Split_nonempty.
    now rewrite Split_no_slash.
Qed.

End EntryPoint.

(** C7. For every module name and base name, renaming the entry point
    depends on the module name through its last path segment only: the
    file [<buildDir>/<lastSegment>.html], when it is there, becomes
    [<buildDir>/<baseName>-root.html] with its content, that path is
    returned and recorded among the HTML files, and no other file
    changes. *)
Theorem renameEntryPoint_last_segment :
  forall (runInfo : RunInfo) (fs : FS) (prefix seg data : string),
    ModName (RunInfo_Settings runInfo) = seg \/
    ModName (RunInfo_Settings runInfo) = prefix ++ "/" ++ seg ->
    GoStrings.ContainsSlash seg = false ->
    Os.ReadFile (BuildDir (RunInfo_Settings runInfo) ++ "/" ++ seg ++ ".html") fs
      = Some data ->
    exists fs',
      renameEntryPoint runInfo fs =
        Ok (BuildDir (RunInfo_Settings runInfo) ++ "/"
              ++ HTMLBaseName (RunInfo_Settings runInfo) ++ "-root.html",
            withEntry runInfo
              (BuildDir (RunInfo_Settings runInfo) ++ "/"
                 ++ HTMLBaseName (RunInfo_Settings runInfo) ++ "-root.html"),
            fs')
      /\ Os.ReadFile (BuildDir (RunInfo_Settings runInfo) ++ "/"
                        ++ HTMLBaseName (RunInfo_Settings runInfo) ++ "-root.html") fs'
         = Some data
      /\ (seg ++ ".html" <> HTMLBaseName (RunInfo_Settings runInfo) ++ "-root.html" ->
          Os.ReadFile (BuildDir (RunInfo_Settings runInfo) ++ "/" ++ seg ++ ".html") fs'
          = None)
      /\ (forall path,
             path <> BuildDir (RunInfo_Settings runInfo) ++ "/" ++ seg ++ ".html" ->
             path <> BuildDir (RunInfo_Settings runInfo) ++ "/"
                       ++ HTMLBaseName (RunInfo_Settings runInfo) ++ "-root.html" ->
             Os.ReadFile path fs' = Os.ReadFile path fs).
Proof.
  intros runInfo fs prefix seg data Hmod Hseg Hread.
  unfold renameEntryPoint, entryOldPath, entryNewPath.
  rewrite (goDocBaseName_last_segment _ prefix seg Hmod Hseg).
  set (old := BuildDir (RunInfo_Settings runInfo) ++ "/" ++ seg ++ ".html") in *.
  set (new := BuildDir (RunInfo_Settings runInfo) ++ "/"
                ++ HTMLBaseName (RunInfo_Settings runInfo) ++ "-root.html").
  assert (Hex : Os.exists_ old fs = true) by (apply ReadFile_exists; eauto).
  destruct (Rename_Some old new fs Hex) as [fs' HR].
  rewrite HR. exists fs'. split; [reflexivity |]. split; [| split].
  - now rewrite (Rename_read_new _ _ _ _ HR).
  - intro Hne. apply (Rename_read_old _ _ _ _ HR).
    intro E. apply Hne. unfold old, new in E. now apply join_inj in E.
  - intros path Ho Hn. now apply (Rename_read_other _ _ _ _ _ HR).
Qed.

Lemma renameEntryPoint_last_segment_witness :
  exists fs',
    renameEntryPoint (NewRunInfo (exampleSettings "a/b/c")) entryExampleFS =
      Ok ("zdocs/source/_static/godoc-root.html",
          withEntry (NewRunInfo (exampleSettings "a/b/c"))
                    "zdocs/source/_static/godoc-root.html",
          fs')
    /\ Os.ReadFile "zdocs/source/_static/godoc-root.html" fs' = Some "<html>c</html>"
    /\ ("c.html" <> "godoc-root.html" ->
        Os.ReadFile "zdocs/source/_static/c.html" fs' = None)
    /\ (forall path,
           path <> "zdocs/source/_static/c.html" ->
           path <> "zdocs/source/_static/godoc-root.html" ->
           Os.ReadFile path fs' = Os.ReadFile path entryExampleFS).
Proof.
  exact (renameEntryPoint_last_segment
           (NewRunInfo (exampleSettings "a/b/c")) entryExampleFS
           "a/b" "c" "<html>c</html>" (or_intror eq_refl) eq_refl eq_refl).
Defined.

(** ** Renaming does not depend on the order of the directory *)

Section Determinism.

Lemma renameLoop_perm (entryPoint : string) (matches : list string) :
  forall (i : nat) (runInfo : RunInfo) (fs1 fs2 : FS),
    Permutation fs1 fs2 ->
    sameRun (renameLoop entryPoint i matches runInfo fs1)
            (renameLoop entryPoint i matches runInfo fs2).
Proof.
  induction matches as [|oldPath matches IH]; intros i runInfo fs1 fs2 HP; simpl.
  - now split.
  - destruct (oldPath =? entryPoint); [now apply IH |].
    pose proof (Rename_perm oldPath (numberedPath (RunInfo_Settings runInfo) i)
                            fs1 fs2 HP) as HR.
    destruct (Os.Rename oldPath _ fs1) as [a|], (Os.Rename oldPath _ fs2) as [b|];
      try contradiction; [now apply IH | reflexivity].
Qed.

Lemma leb_cons (c : ascii) (a b : string) :
  String.leb (String c a) (String c b) = String.leb a b.
Proof.
  unfold String.leb. simpl.
  assert (E : Ascii.compare c c = Eq) by (unfold Ascii.compare; apply N.compare_refl).
  now rewrite E.
Qed.

Lemma leb_append (p a b : string) : String.leb (p ++ a) (p ++ b) = String.leb a b.
Proof. induction p as [|c p IH]; simpl; [reflexivity | now rewrite leb_cons]. Qed.

Lemma StronglySorted_filter (f : string -> bool) (l : list string) :
  StronglySorted le l -> StronglySorted le (filter f l).
Proof.
  induction 1 as [|x l Hs IH Hall]; simpl; [constructor |].
  destruct (f x); [| exact IH].
  constructor; [exact IH |].
  rewrite Forall_forall in *. intros y Hy. apply filter_In in Hy. now apply Hall.
Qed.

Lemma glob_html_sorted (dir : string) (fs : FS) :
  StronglySorted le (glob_html dir fs).
Proof.
  unfold glob_html.
  generalize (StronglySorted_filter (fun name => GoStrings.HasSuffix name ".html") _
                (Strings_sorted (Os.Readdirnames dir fs))).
  generalize (filter (fun name => GoStrings.HasSuffix name ".html")
                     (Sort.Strings (Os.Readdirnames dir fs))).
  induction 1 as [|x l Hs IH Hall]; simpl; constructor; [exact IH |].
  rewrite Forall_forall in *. intros y Hy. apply in_map_iff in Hy.
  destruct Hy as [z [<- Hz]]. unfold le.
  rewrite leb_append. simpl. rewrite leb_cons. now apply Hall.
Qed.

End Determinism.

(** C4. Renaming is reproducible: the HTML files of the build directory
    are enumerated in lexical order of their paths, so two runs on the
    same files, in whatever order the directory holds them, produce the
    same records, the same list of output files and the same renamed
    files. *)
Theorem renameOutputFiles_deterministic :
  forall (runInfo : RunInfo) (fs1 fs2 : FS),
    Permutation fs1 fs2 ->
    (forall matches,
        Glob_html (BuildDir (RunInfo_Settings runInfo)) fs1 = Matches matches ->
        StronglySorted le matches)
    /\ Glob_html (BuildDir (RunInfo_Settings runInfo)) fs1
       = Glob_html (BuildDir (RunInfo_Settings runInfo)) fs2
    /\ sameRun (renameOutputFiles runInfo fs1) (renameOutputFiles runInfo fs2).
Proof.
  intros runInfo fs1 fs2 HP.
  split; [intros matches H; apply Glob_html_Matches in H; subst matches;
          apply glob_html_sorted |].
  split; [now apply Glob_html_perm |].
  unfold renameOutputFiles, renameEntryPoint.
  pose proof (Rename_perm (entryOldPath (RunInfo_Settings runInfo))
                          (entryNewPath (RunInfo_Settings runInfo)) fs1 fs2 HP) as HR.
  destruct (Os.Rename _ _ fs1) as [a|], (Os.Rename _ _ fs2) as [b|];
    try contradiction; simpl; [| reflexivity].
  rewrite (Glob_html_perm _ a b HR).
  destruct (Glob_html _ b); simpl; [now apply renameLoop_perm | reflexivity | exact I].
Qed.

Lemma renameOutputFiles_deterministic_witness :
  (forall matches,
      Glob_html "zdocs/source/_static" pagesA = Matches matches ->
      StronglySorted le matches)
  /\ Glob_html "zdocs/source/_static" pagesA
     = Glob_html "zdocs/source/_static" (rev pagesA)
  /\ sameRun (renameOutputFiles (NewRunInfo (exampleSettings "a/b/c")) pagesA)
             (renameOutputFiles (NewRunInfo (exampleSettings "a/b/c")) (rev pagesA)).
Proof.
  exact (renameOutputFiles_deterministic
           (NewRunInfo (exampleSettings "a/b/c")) pagesA (rev pagesA)
           (Permutation_rev pagesA)).
Defined.

(** ** The numbers the remaining files get *)

Section Numbering.

Lemma ContainsSlash_append (a b : string) :
  GoStrings.ContainsSlash (a ++ b)
  = GoStrings.ContainsSlash a || GoStrings.ContainsSlash b.
Proof.
  induction a as [|c a IH]; simpl; [reflexivity |].
  now rewrite IH, orb_assoc.
Qed.

Lemma HasSuffix_append (a b : string) : GoStrings.HasSuffix (a ++ b) b = true.
Proof.
  induction a as [|c a IH]; simpl.
  - destruct b; simpl; [reflexivity |]. now rewrite Ascii.eqb_refl, String.eqb_refl.
  - rewrite IH. apply orb_true_r.
Qed.

Lemma uint_no_slash (d : Decimal.uint) :
  GoStrings.ContainsSlash (NilEmpty.string_of_uint d) = false.
Proof. induction d; simpl; auto. Qed.

Lemma Itoa_no_slash (n : Z) : GoStrings.ContainsSlash (GoStrings.Itoa n) = false.
Proof.
  unfold GoStrings.Itoa. destruct (Z.to_int n); simpl; apply uint_no_slash.
Qed.

Lemma trim_no_slash (s : string) :
  GoStrings.ContainsSlash s = false -> Filepath.trimTrailingSlashes s = s.
Proof.
  induction s as [|c s IH]; simpl; [reflexivity |].
  destruct (Ascii.eqb c "/"); simpl; [discriminate |].
  intro H. now rewrite (IH H).
Qed.

Lemma trim_append (a b : string) :
  b <> "" -> GoStrings.ContainsSlash b = false ->
  Filepath.trimTrailingSlashes (a ++ b) = a ++ b.
Proof.
  intros Hb Hs. induction a as [|c a IH]; simpl; [now apply trim_no_slash |].
  rewrite IH. destruct (a ++ b) eqn:E.
  - destruct a; simpl in E; [contradiction | discriminate].
  - simpl. now rewrite andb_false_r.
Qed.

(** [filepath.Base] gives back the name a path of the build directory
    was made from. *)
Lemma Base_join (dir name : string) :
  name <> "" -> GoStrings.ContainsSlash name = false ->
  Filepath.Base (dir ++ "/" ++ name) = name.
Proof.
  intros Hn Hs. unfold Filepath.Base.
  destruct (dir ++ "/" ++ name =? "") eqn:E.
  - apply String.eqb_eq in E. destruct dir; discriminate.
  - replace (dir ++ "/" ++ name) with ((dir ++ "/") ++ name)
      by (now rewrite append_assoc).
    rewrite trim_append by assumption.
    rewrite append_assoc, Split_join, last_app_nonempty by apply Split_nonempty.
    rewrite Split_no_slash by assumption. simpl.
    destruct (name =? "") eqn:E'; [| reflexivity].
    apply String.eqb_eq in E'. contradiction.
Qed.

End Numbering.

Section RenameLoop.

Variable entryPoint : string.

Lemma renameLoop_app (l1 l2 : list string) :
  forall (i : nat) (runInfo : RunInfo) (fs : FS),
    renameLoop entryPoint i (l1 ++ l2) runInfo fs =
    (r <- renameLoop entryPoint i l1 runInfo fs ;;
     renameLoop entryPoint (i + List.length l1) l2 (fst r) (snd r)).
Proof.
  induction l1 as [|p l1 IH]; intros i runInfo fs; simpl.
  - now rewrite Nat.add_0_r.
  - rewrite <- Nat.add_succ_comm.
    destruct (p =? entryPoint); [apply IH |].
    destruct (Os.Rename p _ fs); [apply IH | reflexivity].
Qed.

(** Paths that are not the entry point are all renamed, whatever the
    renamings before them did. *)
Lemma renameLoop_others (olds : list string) :
  forall (i : nat) (runInfo : RunInfo) (fs : FS),
    ~ In entryPoint olds -> NoDup olds ->
    (forall p, In p olds -> Os.exists_ p fs = true) ->
    exists fs',
      renameLoop entryPoint i olds runInfo fs =
        Ok ({| RunInfo_Settings := RunInfo_Settings runInfo;
               HtmlFiles := (HtmlFiles runInfo
                             ++ pathsFrom (RunInfo_Settings runInfo) i olds)%list;
               RunInfo_DocFileInfo :=
                 (RunInfo_DocFileInfo runInfo
                  ++ recordsFrom (RunInfo_Settings runInfo) i olds)%list |}, fs')
      /\ (forall p, ~ In p olds -> Os.exists_ p fs = true -> Os.exists_ p fs' = true).
Proof.
  induction olds as [|old olds IH]; intros i runInfo fs Hent Hnd Hex; simpl.
  - exists fs. rewrite !app_nil_r. split; [now destruct runInfo | auto].
  - destruct (old =? entryPoint) eqn:E.
    { apply String.eqb_eq in E. exfalso. apply Hent. now left. }
    inversion Hnd as [|? ? Hnin Hnd']; subst.
    destruct (Rename_Some old (numberedPath (RunInfo_Settings runInfo) i) fs)
      as [fs1 HR]; [apply Hex; now left |].
    rewrite HR.
    destruct (IH (S i) (withRenamed runInfo old
                          (numberedPath (RunInfo_Settings runInfo) i)) fs1)
      as [fs' [Hrun Hkeep]].
    + intro H. apply Hent. now right.
    + exact Hnd'.
    + intros p Hp. apply (Rename_keeps _ _ _ _ _ HR).
      * intro; subst. contradiction.
      * apply Hex. now right.
    + exists fs'. split.
      * rewrite Hrun. simpl. now rewrite <- !app_assoc.
      * intros p Hp Hpe. apply Hkeep; [tauto |].
        apply (Rename_keeps _ _ _ _ _ HR); [| exact Hpe].
        intro; subst. apply Hp. now left.
Qed.

End RenameLoop.

Section NumberedNames.

Variable settings : Settings.
Hypothesis base_flat : GoStrings.ContainsSlash (HTMLBaseName settings) = false.

Lemma numberedName_flat (index : nat) :
  numberedName settings index <> ""
  /\ GoStrings.ContainsSlash (numberedName settings index) = false.
Proof.
  unfold numberedName. split.
  - destruct (HTMLBaseName settings); discriminate.
  - rewrite !ContainsSlash_append, base_flat, Itoa_no_slash. reflexivity.
Qed.

Lemma numberedPath_name (i : nat) :
  numberedPath settings i = BuildDir settings ++ "/" ++ numberedName settings (S i).
Proof.
  unfold numberedPath, numberedName.
  now replace (Z.of_nat i + 1)%Z with (Z.of_nat (S i)) by lia.
Qed.

Lemma recordsFrom_NewName (olds : list string) :
  forall i, map NewName (recordsFrom settings i olds)
            = map (numberedName settings) (seq (S i) (List.length olds)).
Proof.
  induction olds as [|old olds IH]; intro i; simpl; [reflexivity |].
  rewrite IH, numberedPath_name. f_equal.
  apply Base_join; apply numberedName_flat.
Qed.

Lemma recordsFrom_OldName (olds : list string) :
  forall i, map OldName (recordsFrom settings i olds) = map Filepath.Base olds.
Proof. induction olds as [|old olds IH]; intro i; simpl; [reflexivity | now rewrite IH]. Qed.

End NumberedNames.

Section Numbered.

Lemma Rename_NoDup (oldPath newPath : string) (fs fs' : FS) :
  Os.Rename oldPath newPath fs = Some fs' ->
  NoDup (Os.paths fs) -> NoDup (Os.paths fs').
Proof.
  unfold Os.Rename. destruct (Os.exists_ oldPath fs); [| discriminate].
  destruct (oldPath =? newPath); intros [= <-] Hnd; [exact Hnd |].
  unfold Os.paths in *.
  set (keep := filter (fun e : string * string => negb (fst e =? newPath)) fs).
  assert (Hk : NoDup (map fst keep)).
  { clear -Hnd. induction fs as [|[p d] fs IH]; simpl; [constructor |].
    inversion Hnd as [|? ? Hnin Hnd']; subst. unfold keep. simpl.
    destruct (negb (p =? newPath)); simpl; [| now apply IH].
    constructor; [| now apply IH].
    intro Hin. apply Hnin. apply in_map_iff in Hin.
    destruct Hin as [e [He Hin]]. apply filter_In in Hin.
    apply in_map_iff. exists e. tauto. }
  assert (Hn : ~ In newPath (map fst keep)).
  { intro Hin. apply in_map_iff in Hin. destruct Hin as [e [He Hin]].
    apply filter_In in Hin. destruct Hin as [_ Hin].
    rewrite He, String.eqb_refl in Hin. discriminate. }
  rewrite map_map.
  replace (map _ keep)
    with (map (fun p => if p =? oldPath then newPath else p) (map fst keep)).
  - apply Finite.Injective_map_NoDup_in; [| exact Hk].
    intros x y Hx Hy.
    destruct (x =? oldPath) eqn:Ex, (y =? oldPath) eqn:Ey; intro E.
    + apply String.eqb_eq in Ex, Ey. congruence.
    + subst y. contradiction.
    + subst x. contradiction.
    + exact E.
  - rewrite map_map. apply map_ext. intros [p d]. simpl.
    now destruct (p =? oldPath).
Qed.

Lemma entryNewPath_listed (settings : Settings) (fs : FS) :
  GoStrings.ContainsSlash (HTMLBaseName settings) = false ->
  Os.exists_ (entryNewPath settings) fs = true ->
  In (entryNewPath settings) (glob_html (BuildDir settings) fs).
Proof.
  intros Hflat Hex. apply glob_html_In.
  exists (HTMLBaseName settings ++ "-root.html"). repeat split.
  - now apply exists_In.
  - now rewrite ContainsSlash_append, Hflat.
  - replace "-root.html" with ("-root" ++ ".html") by reflexivity.
    rewrite <- append_assoc. apply HasSuffix_append.
Qed.

End Numbered.

(** What [renameOutputFiles] does when the entry page is there: the
    listing of the HTML files after the entry point was renamed, split
    around the entry point, and the run that results. *)
Lemma renameOutputFiles_listing (runInfo : RunInfo) (fs : FS) :
  hasMeta (BuildDir (RunInfo_Settings runInfo)) = false ->
  cleanPath (BuildDir (RunInfo_Settings runInfo)) = true ->
  NoDup (Os.paths fs) ->
  Os.exists_ (entryOldPath (RunInfo_Settings runInfo)) fs = true ->
  GoStrings.ContainsSlash (HTMLBaseName (RunInfo_Settings runInfo)) = false ->
  exists (fs1 fs' : FS) (before after : list string),
    Os.Rename (entryOldPath (RunInfo_Settings runInfo))
              (entryNewPath (RunInfo_Settings runInfo)) fs = Some fs1
    /\ glob_html (BuildDir (RunInfo_Settings runInfo)) fs1
       = (before ++ entryNewPath (RunInfo_Settings runInfo) :: after)%list
    /\ ~ In (entryNewPath (RunInfo_Settings runInfo)) (before ++ after)
    /\ renameOutputFiles runInfo fs =
       Ok ({| RunInfo_Settings := RunInfo_Settings runInfo;
              HtmlFiles :=
                ((HtmlFiles runInfo ++ [entryNewPath (RunInfo_Settings runInfo)])
                 ++ pathsFrom (RunInfo_Settings runInfo) 0 before
                 ++ pathsFrom (RunInfo_Settings runInfo) (S (List.length before))
                              after)%list;
              RunInfo_DocFileInfo :=
                (RunInfo_DocFileInfo runInfo
                 ++ recordsFrom (RunInfo_Settings runInfo) 0 before
                 ++ recordsFrom (RunInfo_Settings runInfo) (S (List.length before))
                                after)%list |}, fs').
Proof.
  intros Hmeta Hplain Hnd Hex Hflat.
  set (settings := RunInfo_Settings runInfo) in *.
  destruct (Rename_Some (entryOldPath settings) (entryNewPath settings) fs Hex)
    as [fs1 HR].
  assert (Hnd1 : NoDup (Os.paths fs1)) by (eapply Rename_NoDup; eassumption).
  assert (Hnew : Os.exists_ (entryNewPath settings) fs1 = true).
  { apply ReadFile_exists. rewrite (Rename_read_new _ _ _ _ HR).
    now apply ReadFile_exists. }
  pose proof (entryNewPath_listed settings fs1 Hflat Hnew) as Hin.
  destruct (in_split _ _ Hin) as [before [after Hsplit]].
  pose proof (glob_html_NoDup (BuildDir settings) fs1 Hnd1) as Hgnd.
  rewrite Hsplit in Hgnd.
  pose proof (NoDup_remove_2 _ _ _ Hgnd) as Hnotin.
  pose proof (NoDup_remove_1 _ _ _ Hgnd) as Hnd2.
  assert (Hall : forall p, In p (before ++ after) -> Os.exists_ p fs1 = true).
  { intros p Hp. apply exists_In.
    assert (Hg : In p (glob_html (BuildDir settings) fs1)).
    { rewrite Hsplit. apply in_app_or in Hp. apply in_or_app. simpl. tauto. }
    apply glob_html_In in Hg. destruct Hg as [n [_ [Hg _]]]. exact Hg. }
  assert (Hloop : exists fs',
    renameLoop (entryNewPath settings) 0
               (before ++ entryNewPath settings :: after)
               (withEntry runInfo (entryNewPath settings)) fs1
    = Ok ({| RunInfo_Settings := settings;
             HtmlFiles := ((HtmlFiles runInfo ++ [entryNewPath settings])
                           ++ pathsFrom settings 0 before
                           ++ pathsFrom settings (S (List.length before)) after)%list;
             RunInfo_DocFileInfo :=
               (RunInfo_DocFileInfo runInfo
                ++ recordsFrom settings 0 before
                ++ recordsFrom settings (S (List.length before)) after)%list |}, fs')).
  { rewrite renameLoop_app.
    destruct (renameLoop_others (entryNewPath settings) before 0
                (withEntry runInfo (entryNewPath settings)) fs1)
      as [fs2 [Hrun2 Hkeep2]].
    - intro H. apply Hnotin. apply in_or_app. now left.
    - now apply NoDup_app_remove_r in Hnd2.
    - intros p Hp. apply Hall. apply in_or_app. now left.
    - rewrite Hrun2. simpl. rewrite String.eqb_refl.
      match goal with
      | |- context [renameLoop _ _ after ?ri fs2] =>
          destruct (renameLoop_others (entryNewPath settings) after
                      (S (List.length before)) ri fs2) as [fs3 [Hrun3 _]]
      end.
      + intro H. apply Hnotin. apply in_or_app. now right.
      + now apply NoDup_app_remove_l in Hnd2.
      + intros p Hp. apply Hkeep2.
        * intro Hb. clear -Hnd2 Hp Hb.
          induction before as [|b before IH]; [contradiction |].
          simpl in Hnd2. inversion Hnd2 as [|? ? Hn Hnd']; subst.
          destruct Hb as [-> | Hb]; [| now apply IH].
          apply Hn. apply in_or_app. now right.
        * apply Hall. apply in_or_app. now right.
      + exists fs3. rewrite Hrun3. simpl. now rewrite <- !app_assoc. }
  destruct Hloop as [fs' Hloop].
  exists fs1, fs', before, after.
  split; [exact HR |]. split; [exact Hsplit |]. split; [exact Hnotin |].
  unfold renameOutputFiles, renameEntryPoint. fold settings. rewrite HR. simpl.
  fold settings. rewrite (Glob_html_plain _ _ Hmeta Hplain), Hsplit. exact Hloop.
Qed.


Lemma pagesA_NoDup : NoDup (Os.paths pagesA).
Proof.
  unfold pagesA, Os.paths; simpl.
  repeat (constructor; [simpl; intuition discriminate |]). constructor.
Qed.



(** A build path with a character class that is never closed: the
    entry page is renamed, the listing is refused, and the run panics
    with no other page renamed. *)
Example renameOutputFiles_bad_pattern :
  renameOutputFiles (NewRunInfo (withBuildDir (exampleSettings "a/b/c") "out["))
                    [("out[/c.html", "<html>c</html>");
                     ("out[/api.html", "<html>api</html>")]
  = Panic GlobError.
Proof. reflexivity. Qed.

(** ** The crawl *)

(** C8 (as amended). The mirroring step panics exactly when the crawl
    tool returns an error and the stylesheet cannot be confirmed in the
    build directory afterwards: it is missing, or looking for it fails
    for another reason.  In every other case, a failed crawl with the
    stylesheet found included, the step goes on with the files the crawl
    left. *)
Theorem scrapeModulePages_fatal_iff :
  forall (w : World) (settings : Settings) (fs : FS),
    (scrapeModulePages w settings fs = Panic ScrapeError <->
     snd (wget w fs) = true /\
     (Os.exists_ (BuildDir settings ++ "/style.css") (fst (wget w fs)) = false
      \/ statFails w = true))
    /\ (scrapeModulePages w settings fs = Ok (fst (wget w fs)) <->
        snd (wget w fs) = false \/
        (Os.exists_ (BuildDir settings ++ "/style.css") (fst (wget w fs)) = true
         /\ statFails w = false)).
Proof.
  intros w settings fs. unfold scrapeModulePages, fileExists.
  destruct (wget w fs) as [fs' err]; simpl.
  destruct err, (statFails w), (Os.exists_ _ fs'); simpl;
    (split; split; intro H; try reflexivity; try discriminate; try tauto;
     try (destruct H as [H | H]; try discriminate; destruct H; discriminate);
     try (destruct H as [H1 [H2 | H2]]; discriminate)).
Qed.

(** C8 (as stated) fails: here the crawl tool failed and the stylesheet
    is present, yet the step panics. *)
Lemma scrapeModulePages_fatal_with_stylesheet :
  ~ (scrapeModulePages statErrorWorld (exampleSettings "a/b/c") [] = Panic ScrapeError
     <-> snd (wget statErrorWorld []) = true
         /\ Os.exists_ "zdocs/source/_static/style.css"
                       (fst (wget statErrorWorld [])) = false).
Proof.
  intros [H _]. specialize (H eq_refl). destruct H as [_ H]. discriminate H.
Qed.

(** ** The readiness probe *)

Section Probe.

Variable w : World.

Lemma clientGet_took (answer : Z * GetResult) :
  (0 <= fst (clientGet answer) <= second)%Z.
Proof.
  unfold clientGet. destruct answer as [took r].
  destruct (Z.ltb_spec took 0); [unfold second; simpl; lia |].
  destruct (Z.leb_spec (1 * second) took); unfold second in *; simpl; lia.
Qed.

Lemma notReady_false (r : GetResult) : notReady r = false -> r = GetStatus 200.
Proof.
  destruct r as [|code]; simpl; [discriminate |].
  intro H. apply negb_false_iff, Z.eqb_eq in H. now subst.
Qed.

Lemma waitLoop_spec (rounds : nat) :
  forall (k : nat) (now : Z) (log0 : list attempt),
    (now < deadline)%Z ->
    (deadline - now <= Z.of_nat rounds * second)%Z ->
    exists log outcome,
      waitLoop rounds w k now log0 = ((log0 ++ log)%list, outcome)
      /\ chain w k now log
      /\ verdict w k now log outcome.
Proof.
  induction rounds as [|rounds IH]; intros k now log0 Hnow Hfuel.
  - change (Z.of_nat 0) with 0%Z in Hfuel. lia.
  - cbn [waitLoop]. pose proof (clientGet_took (probe w k)) as Htook.
    destruct (clientGet (probe w k)) as [took r] eqn:Eget. simpl in Htook.
    destruct (deadline <=? now + took)%Z eqn:E1.
    + apply Z.leb_le in E1.
      exists [], TimedOut. rewrite app_nil_r. repeat split.
      * constructor.
      * simpl. rewrite Nat.add_0_r, Eget. simpl. lia.
    + apply Z.leb_gt in E1.
      destruct (notReady r) eqn:Er.
      * destruct (deadline <=? now + took + second)%Z eqn:E2.
        -- apply Z.leb_le in E2.
           exists [{| started := now; finished := (now + took)%Z; got := r |}], TimedOut.
           split; [reflexivity |]. split.
           ++ simpl. rewrite Eget. simpl. tauto.
           ++ split; [repeat constructor; exact Er |].
              simpl. rewrite Nat.add_1_r. pose proof (clientGet_took (probe w (S k))). lia.
        -- apply Z.leb_gt in E2.
           destruct (IH (S k) (now + took + second)%Z
                        (log0 ++ [{| started := now; finished := (now + took)%Z;
                                     got := r |}])%list)
             as [log [outcome [Hrun [Hchain Hverdict]]]]; [lia | |].
           { unfold second in *. lia. }
           exists ({| started := now; finished := (now + took)%Z; got := r |} :: log),
             outcome.
           split; [rewrite Hrun, <- app_assoc; reflexivity |]. split.
           ++ simpl. rewrite Eget. simpl. tauto.
           ++ clear Hfuel. destruct outcome as [t| |]; simpl in Hverdict |- *.
              ** destruct Hverdict as [earlier [a [-> [Hall H]]]].
                 exists ({| started := now; finished := (now + took)%Z; got := r |}
                           :: earlier), a.
                 split; [reflexivity |]. split; [| exact H].
                 constructor; [exact Er | exact Hall].
              ** destruct Hverdict as [Hall H]. split.
                 --- constructor; [exact Er | exact Hall].
                 --- now rewrite Nat.add_succ_r.
              ** exact Hverdict.
      * exists [{| started := now; finished := (now + took)%Z; got := r |}],
          (Ready (now + took)%Z).
        split; [reflexivity |]. split.
        -- simpl. rewrite Eget. simpl. tauto.
        -- exists [], {| started := now; finished := (now + took)%Z; got := r |}.
           simpl. repeat split; [constructor | now apply notReady_false | exact E1].
Qed.

End Probe.


(** The test of the specification: a server that answers 503 during its
    first three seconds and 200 from then on.  The probe makes four
    attempts and returns at the fourth, 3.8 s after it was entered. *)
Example waitForServer_slow_start :
  snd (waitForServer slowStartWorld) = Ready 3800000000%Z
  /\ map got (fst (waitForServer slowStartWorld))
     = [GetStatus 503; GetStatus 503; GetStatus 503; GetStatus 200].
Proof. split; vm_compute; reflexivity. Qed.

(** ** The server's shutdown *)

Section Shutdown.

Lemma kills_app (evs1 evs2 : list event) :
  kills (evs1 ++ evs2) = kills evs1 + kills evs2.
Proof. unfold kills. now rewrite filter_app, length_app. Qed.

Lemma kills_probes (log : list attempt) : kills (map Probed log) = 0.
Proof. induction log as [|a log IH]; [reflexivity | exact IH]. Qed.

Lemma serverAlive_killed (evs1 evs2 : list event) :
  serverAlive (evs1 ++ Kill true :: evs2) = false.
Proof.
  unfold serverAlive. rewrite !existsb_app. simpl.
  rewrite orb_true_r. apply andb_false_r.
Qed.

(** When the pipeline returns, or unwinds with the panic of the crawl,
    the deferred function has asked for the shutdown, [process.Kill] has
    been called once, and the pipeline has seen the shutdown complete
    before it is left. *)
Lemma runServerAndScrapeDocs_shutdown (w : World) (settings : Settings) (fs : FS) :
  forall evs ex fs',
    runServerAndScrapeDocs w settings fs = (evs, ex, fs') ->
    ex = Returned \/ (exists why, ex = Unwound why) ->
    kills evs = 1 /\ serverAlive evs = false
    /\ exists before,
         evs = (before ++ [ShutdownRequested; Kill true; ShutdownCompleted;
                           ShutdownObserved])%list
         /\ kills before = 0.
Proof.
  intros evs ex fs'. unfold runServerAndScrapeDocs, runDocServer_start, killDeferred.
  destruct (startFails w).
  { intros [= <- <- <-] [H | [why H]]; discriminate. }
  destruct (waitForServer w) as [log outcome].
  destruct outcome as [t| |];
    try (intros [= <- <- <-] [H | [why H]]; discriminate).
  destruct (killFails w).
  { intros [= <- <- <-] [H | [why H]]; discriminate. }
  intros Hrun _.
  assert (Hevs : evs = ([Killall; ServerStarted] ++ map Probed log ++ [Crawled]
                        ++ [ShutdownRequested] ++ Kill true
                        :: [ShutdownCompleted; ShutdownObserved])%list).
  { destruct (scrapeModulePages w settings fs); injection Hrun as <- _ _;
      simpl; rewrite <- !app_assoc; reflexivity. }
  clear Hrun. subst evs. split; [| split].
  - rewrite !kills_app, kills_probes. reflexivity.
  - rewrite !app_assoc. apply serverAlive_killed.
  - exists ([Killall; ServerStarted] ++ map Probed log ++ [Crawled])%list.
    split; [now rewrite <- !app_assoc |].
    rewrite !kills_app, kills_probes. reflexivity.
Qed.

(** When the readiness deadline passes, [process.Kill] is never called:
    the run ends in the timer's goroutine with the server it started
    still alive. *)
Lemma runServerAndScrapeDocs_timeout (w : World) (settings : Settings) (fs : FS) :
  startFails w = false ->
  snd (waitForServer w) = TimedOut ->
  snd (fst (runServerAndScrapeDocs w settings fs)) = Crashed ServerTimeout
  /\ kills (fst (fst (runServerAndScrapeDocs w settings fs))) = 0
  /\ serverAlive (fst (fst (runServerAndScrapeDocs w settings fs))) = true.
Proof.
  intros Hstart Hwait. unfold runServerAndScrapeDocs, runDocServer_start.
  rewrite Hstart. destruct (waitForServer w) as [log outcome].
  simpl in Hwait. subst outcome. simpl. repeat split.
  - change (Killall :: ServerStarted :: ?l) with ([Killall; ServerStarted] ++ l)%list.
    rewrite !kills_app, kills_probes. reflexivity.
  - unfold serverAlive. simpl. rewrite !existsb_app. simpl. rewrite orb_false_r.
    induction log as [|a log IH]; [reflexivity | exact IH].
Qed.

End Shutdown.

Lemma runServerAndScrapeDocs_shutdown_witness :
  kills (fst (fst (runServerAndScrapeDocs crawlWorld (exampleSettings "a/b/c") []))) = 1
  /\ serverAlive
       (fst (fst (runServerAndScrapeDocs crawlWorld (exampleSettings "a/b/c") [])))
     = false
  /\ exists before,
       fst (fst (runServerAndScrapeDocs crawlWorld (exampleSettings "a/b/c") []))
       = (before ++ [ShutdownRequested; Kill true; ShutdownCompleted;
                     ShutdownObserved])%list
       /\ kills before = 0.
Proof.
  exact (runServerAndScrapeDocs_shutdown crawlWorld (exampleSettings "a/b/c") []
           (fst (fst (runServerAndScrapeDocs crawlWorld (exampleSettings "a/b/c") [])))
           Returned
           (snd (runServerAndScrapeDocs crawlWorld (exampleSettings "a/b/c") []))
           eq_refl (or_introl eq_refl)).
Defined.

(** C2, at the input where the code departs from it: the server never
    answers with status 200.  The deadline passes, the program ends in
    the timer's goroutine, the deferred shutdown of the pipeline does
    not run: [process.Kill] is called zero times and the server started
    by the run is left alive. *)
Theorem runServerAndScrapeDocs_timeout_leaves_server :
  snd (waitForServer deafWorld) = TimedOut
  /\ snd (fst (runServerAndScrapeDocs deafWorld (exampleSettings "a/b/c") []))
     = Crashed ServerTimeout
  /\ kills (fst (fst (runServerAndScrapeDocs deafWorld (exampleSettings "a/b/c") [])))
     = 0
  /\ serverAlive
       (fst (fst (runServerAndScrapeDocs deafWorld (exampleSettings "a/b/c") [])))
     = true.
Proof.
  assert (H : snd (waitForServer deafWorld) = TimedOut) by (vm_compute; reflexivity).
  split; [exact H |].
  exact (runServerAndScrapeDocs_timeout deafWorld (exampleSettings "a/b/c") []
           eq_refl H).
Qed.

(** ** Matching and scanning *)

Section Widths.

Lemma inRange_ascii (lo hi : N) (a : ascii) :
  Regexp.isASCII a = true -> (128 <= lo)%N -> Regexp.inRange lo hi a = false.
Proof.
  unfold Regexp.isASCII, Regexp.inRange. intros Ha Hlo.
  apply N.ltb_lt in Ha. apply andb_false_iff. left. apply N.leb_gt. lia.
Qed.

Lemma runeWidth_app (x v : string) :
  x <> "" -> asciiHead v = true ->
  Regexp.runeWidth (x ++ v) = Regexp.runeWidth x.
Proof.
  intros Hx Hv. destruct x as [|b0 x1]; [contradiction |]. clear Hx.
  assert (Hr : forall lo hi a v', v = String a v' -> (128 <= lo)%N ->
                                  Regexp.inRange lo hi a = false).
  { intros lo hi a v' -> Hlo. now apply inRange_ascii. }
  unfold Regexp.runeWidth. cbn [append].
  destruct (Regexp.byte b0 <? 194)%N; [reflexivity |].
  destruct (Regexp.byte b0 <? 224)%N.
  { destruct x1 as [|b1 x2]; cbn [append]; [| reflexivity].
    destruct v as [|a v']; [reflexivity |].
    now rewrite (Hr 128%N 191%N a v' eq_refl) by lia. }
  destruct (Regexp.byte b0 <? 240)%N.
  { set (lo := if (Regexp.byte b0 =? 224)%N then 160%N else 128%N).
    set (hi := if (Regexp.byte b0 =? 237)%N then 159%N else 191%N).
    assert (Hlo : (128 <= lo)%N) by (unfold lo; destruct (_ =? _)%N; lia).
    destruct x1 as [|b1 x2]; cbn [append].
    - destruct v as [|a [|a2 v']]; try reflexivity.
      now rewrite (Hr lo hi a _ eq_refl Hlo).
    - destruct x2 as [|b2 x3]; cbn [append]; [| reflexivity].
      destruct v as [|a v']; [reflexivity |].
      rewrite (Hr 128%N 191%N a v' eq_refl) by lia. now rewrite andb_false_r. }
  destruct (Regexp.byte b0 <? 245)%N; [| reflexivity].
  set (lo := if (Regexp.byte b0 =? 240)%N then 144%N else 128%N).
  set (hi := if (Regexp.byte b0 =? 244)%N then 143%N else 191%N).
  assert (Hlo : (128 <= lo)%N) by (unfold lo; destruct (_ =? _)%N; lia).
  destruct x1 as [|b1 x2]; cbn [append].
  - destruct v as [|a [|a2 [|a3 v']]]; try reflexivity.
    now rewrite (Hr lo hi a _ eq_refl Hlo).
  - destruct x2 as [|b2 x3]; cbn [append].
    + destruct v as [|a [|a2 v']]; try reflexivity.
      rewrite (Hr 128%N 191%N a _ eq_refl) by lia. now rewrite andb_false_r.
    + destruct x3 as [|b3 x4]; cbn [append]; [| reflexivity].
      destruct v as [|a v']; [reflexivity |].
      rewrite (Hr 128%N 191%N a v' eq_refl) by lia. now rewrite andb_false_r.
Qed.

Lemma runeWidth_le (x : string) : Regexp.runeWidth x <= String.length x.
Proof.
  unfold Regexp.runeWidth. destruct x as [|b0 x1]; [reflexivity |].
  repeat match goal with
         | |- context [if ?b then _ else _] => destruct b
         | |- context [match ?s with EmptyString => _ | String _ _ => _ end] =>
             destruct s
         end; simpl; lia.
Qed.

Lemma runeWidth_ascii (a : ascii) (s : string) :
  Regexp.isASCII a = true -> Regexp.runeWidth (String a s) = 1.
Proof.
  unfold Regexp.isASCII, Regexp.runeWidth. intro H. apply N.ltb_lt in H.
  destruct (N.ltb_spec (Regexp.byte a) 194); [reflexivity | lia].
Qed.

Lemma dropBytes_app (n : nat) (x v : string) :
  n <= String.length x ->
  Regexp.dropBytes n (x ++ v) = Regexp.dropBytes n x ++ v.
Proof.
  revert x; induction n as [|n IH]; intros x H.
  - destruct x; reflexivity.
  - destruct x as [|c x]; simpl in *; [lia |]. apply IH. lia.
Qed.

Lemma dropBytes_length (n : nat) (x : string) :
  String.length (Regexp.dropBytes n x) = String.length x - n.
Proof.
  revert x; induction n as [|n IH]; intros [|c x]; simpl; auto.
Qed.

End Widths.

Section Matching.

(** A match takes a piece off the front of the text. *)
Lemma matchPrefix_suffix (re : Regexp.t) :
  forall s rest,
    Regexp.matchPrefix re s = Some rest ->
    exists m, s = m ++ rest /\ (re <> [] -> m <> "").
Proof.
  induction re as [|e re IH]; intros s rest H; simpl in H.
  - injection H as <-. exists "". split; [reflexivity | congruence].
  - destruct e as [c|].
    + destruct s as [|d s]; [discriminate |].
      destruct (Ascii.eqb c d); [| discriminate].
      destruct (IH _ _ H) as [m [-> _]].
      exists (String d m). split; [reflexivity | discriminate].
    + destruct s as [|d s]; [discriminate |].
      destruct (Ascii.eqb d "010"); [discriminate |].
      destruct (IH _ _ H) as [m [Hm _]].
      assert (Hw : 1 <= Regexp.runeWidth (String d s) <= String.length (String d s)).
      { split; [| apply runeWidth_le].
        unfold Regexp.runeWidth.
        repeat match goal with
               | |- context [if ?b then _ else _] => destruct b
               | |- context [match ?t with EmptyString => _ | String _ _ => _ end] =>
                   destruct t
               end; lia. }
      destruct (Regexp.runeWidth (String d s)) as [|n]; [lia |].
      simpl in Hm.
      assert (Hcut : forall n t, n <= String.length t ->
                exists u, t = u ++ Regexp.dropBytes n t).
      { clear. induction n as [|n IHn]; intros [|c t] Hn; simpl in *;
          try (exists ""; reflexivity); try lia.
        destruct (IHn t) as [u Hu]; [lia |].
        exists (String c u). simpl. now rewrite <- Hu. }
      destruct (Hcut n s) as [u Hu]; [simpl in Hw; lia |].
      exists (String d (u ++ m)). split; [| discriminate].
      simpl. f_equal. rewrite append_assoc, <- Hm. exact Hu.
Qed.

(** A match found in [x] is found again when a text starting with an
    ASCII byte follows. *)
Lemma matchPrefix_app (re : Regexp.t) :
  forall x v r,
    asciiHead v = true ->
    Regexp.matchPrefix re x = Some r ->
    Regexp.matchPrefix re (x ++ v) = Some (r ++ v).
Proof.
  induction re as [|e re IH]; intros x v r Hv H.
  - simpl in *. now injection H as <-.
  - destruct e as [c|]; destruct x as [|d x]; try discriminate;
      cbn [Regexp.matchPrefix append] in *.
    + destruct (Ascii.eqb c d); [| discriminate]. now apply IH.
    + destruct (Ascii.eqb d "010"); [discriminate |].
      change (String d (x ++ v)) with (String d x ++ v).
      rewrite runeWidth_app by (assumption || discriminate).
      rewrite dropBytes_app by apply runeWidth_le. now apply IH.
Qed.

(** A match in [x ++ v] either ends inside [x], or the expression splits
    in two: one part takes all of [x], the other goes on in [v]. *)
Lemma matchPrefix_app_inv (re : Regexp.t) :
  forall x v rest,
    asciiHead v = true ->
    Regexp.matchPrefix re (x ++ v) = Some rest ->
    (exists r, rest = r ++ v /\ Regexp.matchPrefix re x = Some r)
    \/ (exists re1 re2,
           re = (re1 ++ re2)%list /\ re2 <> []
           /\ Regexp.matchPrefix re1 x = Some ""
           /\ Regexp.matchPrefix re2 v = Some rest).
Proof.
  induction re as [|e re IH]; intros x v rest Hv H.
  - simpl in H. injection H as <-. left. exists x. split; reflexivity.
  - destruct x as [|d x].
    { right. exists [], (e :: re). repeat split; [discriminate | exact H]. }
    cbn [Regexp.matchPrefix append] in H. destruct e as [c|].
    + destruct (Ascii.eqb c d) eqn:E; [| discriminate].
      destruct (IH x v rest Hv H)
        as [[r [Hr Hm]] | [re1 [re2 [-> [Hne [H1 H2]]]]]].
      * left. exists r. split; [exact Hr |].
        cbn [Regexp.matchPrefix]. now rewrite E.
      * right. exists (Regexp.Lit c :: re1), re2. repeat split; try assumption.
        cbn [Regexp.matchPrefix]. now rewrite E.
    + destruct (Ascii.eqb d "010") eqn:E; [discriminate |].
      change (String d (x ++ v)) with (String d x ++ v) in H.
      rewrite runeWidth_app in H by (assumption || discriminate).
      rewrite dropBytes_app in H by apply runeWidth_le.
      destruct (IH _ v rest Hv H)
        as [[r [Hr Hm]] | [re1 [re2 [-> [Hne [H1 H2]]]]]].
      * left. exists r. split; [exact Hr |].
        cbn [Regexp.matchPrefix]. now rewrite E.
      * right. exists (Regexp.AnyCharNotNL :: re1), re2.
        repeat split; try assumption.
        cbn [Regexp.matchPrefix]. now rewrite E.
Qed.

(** On ASCII text a match has agreed with the text all along. *)
Lemma matchPrefix_startsMatch (re : Regexp.t) :
  forall x z rest,
    allASCII x = true ->
    Regexp.matchPrefix re (x ++ z) = Some rest ->
    startsMatch re x = true.
Proof.
  induction re as [|e re IH]; intros x z rest Hx H; [reflexivity |].
  destruct x as [|d x]; [now destruct e |].
  simpl in Hx. apply andb_true_iff in Hx. destruct Hx as [Hd Hx].
  cbn [Regexp.matchPrefix append] in H. cbn [startsMatch]. destruct e as [c|].
  - destruct (Ascii.eqb c d); [| discriminate]. simpl. eapply IH; eassumption.
  - destruct (Ascii.eqb d "010"); [discriminate |]. simpl.
    rewrite runeWidth_ascii in H by exact Hd. simpl in H.
    eapply IH; eassumption.
Qed.

Lemma free_spec (re : Regexp.t) (s : string) :
  free re s = true <->
  forall y x, s = y ++ x -> x <> "" -> Regexp.matchPrefix re x = None.
Proof.
  induction s as [|c s IH].
  - split; [| reflexivity]. intros _ y x H Hx.
    destruct y; simpl in H; [now subst | discriminate].
  - cbn [free]. split.
    + intros H y x Hyx Hx.
      destruct (Regexp.matchPrefix re (String c s)) eqn:E; [discriminate |].
      destruct y as [|d y]; simpl in Hyx.
      * now subst x.
      * injection Hyx as _ Hyx. exact (proj1 IH H y x Hyx Hx).
    + intro H. rewrite (H "" (String c s) eq_refl) by discriminate.
      apply IH. intros y x Hyx Hx. apply (H (String c y) x); [| exact Hx].
      simpl. now rewrite Hyx.
Qed.

End Matching.

Section Scanning.

Variables (re : Regexp.t) (repl : string).

Lemma scan_skip (x rest : string) :
  Regexp.scan re repl (String.length x) (x ++ rest) = Regexp.scan re repl 0 rest.
Proof. induction x as [|c x IH]; simpl; [reflexivity | exact IH]. Qed.

Lemma scan_none (c : ascii) (s : string) :
  Regexp.matchPrefix re (String c s) = None ->
  Regexp.scan re repl 0 (String c s) = String c (Regexp.scan re repl 0 s).
Proof. intro H. cbn [Regexp.scan]. now rewrite H. Qed.

Lemma scan_some (s rest : string) :
  re <> [] -> Regexp.matchPrefix re s = Some rest ->
  Regexp.scan re repl 0 s = repl ++ Regexp.scan re repl 0 rest.
Proof.
  intros Hre H. destruct (matchPrefix_suffix re s rest H) as [m [-> Hm]].
  specialize (Hm Hre). destruct m as [|c m]; [contradiction |].
  cbn [Regexp.scan append] in *. rewrite H. f_equal.
  rewrite append_length, Nat.add_sub. apply scan_skip.
Qed.

Lemma scan_free (s : string) : free re s = true -> Regexp.scan re repl 0 s = s.
Proof.
  induction s as [|c s IH]; [reflexivity |]. cbn [free].
  destruct (Regexp.matchPrefix re (String c s)) eqn:E; [discriminate |].
  intro H. rewrite scan_none by exact E. now rewrite IH.
Qed.

Lemma asciiLed_nonempty : asciiLed re = true -> re <> [].
Proof. destruct re; [discriminate | discriminate]. Qed.

Lemma asciiLed_head (s rest : string) :
  asciiLed re = true -> Regexp.matchPrefix re s = Some rest -> asciiHead s = true.
Proof.
  destruct re as [|[c|] re']; try discriminate. simpl. intros Hc H.
  destruct s as [|d s]; [discriminate |].
  destruct (Ascii.eqb c d) eqn:E; [| discriminate].
  apply Ascii.eqb_eq in E. now subst.
Qed.

End Scanning.

Section Freedom.

Lemma asciiHead_app (r z : string) :
  allASCII r = true -> r <> "" -> asciiHead (r ++ z) = true.
Proof.
  destruct r as [|a r]; [contradiction |]. simpl. intros H _.
  now apply andb_true_iff in H.
Qed.

Lemma noRunInto_split (q q1 q2 : Regexp.t) (r : string) :
  noRunInto q r = true -> q = (q1 ++ q2)%list -> q1 <> [] -> q2 <> [] ->
  startsMatch q2 r = false.
Proof.
  unfold noRunInto. intros H -> H1 H2. rewrite forallb_forall in H.
  specialize (H (List.length q1)).
  rewrite skipn_app, skipn_all, Nat.sub_diag in H. simpl in H.
  apply negb_true_iff, H, in_seq. rewrite length_app.
  destruct q1; [contradiction |]. destruct q2; [contradiction |]. simpl. lia.
Qed.

Lemma free_drop (q : Regexp.t) (m r : string) :
  free q (m ++ r) = true -> free q r = true.
Proof.
  induction m as [|c m IH]; simpl; [auto |].
  destruct (Regexp.matchPrefix q (String c (m ++ r))); [discriminate | exact IH].
Qed.

(** A text in which no match starts stays so behind a replacement text
    in which none can start. *)
Lemma free_behind (q : Regexp.t) (t : string) :
  forall x,
    allASCII x = true ->
    (forall y, In y (tails x) -> startsMatch q y = false) ->
    free q t = true -> free q (x ++ t) = true.
Proof.
  induction x as [|c x IH]; intros Hx Hno Ht; [exact Ht |].
  cbn [append free].
  destruct (Regexp.matchPrefix q (String c (x ++ t))) eqn:E.
  - change (String c (x ++ t)) with (String c x ++ t) in E.
    apply matchPrefix_startsMatch in E; [| exact Hx].
    rewrite Hno in E; [discriminate | now left].
  - apply IH; [| | exact Ht].
    + simpl in Hx. now apply andb_true_iff in Hx.
    + intros y Hy. apply Hno. now right.
Qed.

Variables (q p : Regexp.t) (repl : string).
Hypothesis p_led : asciiLed p = true.
Hypothesis repl_ascii : allASCII repl = true.
Hypothesis repl_nonempty : repl <> "".
Hypothesis q_stops : noRunInto q repl = true.

(** A match of [q] that starts before the rewritten part of a text was
    there before the rewriting. *)
Lemma reflect_match (n : nat) :
  forall s w rest,
    String.length s <= n -> w <> "" ->
    Regexp.matchPrefix q (w ++ Regexp.scan p repl 0 s) = Some rest ->
    exists rest', Regexp.matchPrefix q (w ++ s) = Some rest'.
Proof.
  induction n as [|n IH]; intros s w rest Hn Hw H.
  - destruct s; [| simpl in Hn; lia]. now exists rest.
  - destruct s as [|c s]; [now exists rest |].
    destruct (Regexp.matchPrefix p (String c s)) as [r|] eqn:E.
    + rewrite (scan_some p repl _ r (asciiLed_nonempty p p_led) E) in H.
      apply matchPrefix_app_inv in H;
        [| now apply asciiHead_app].
      destruct H as [[r' [_ Hm]] | [q1 [q2 [Hq [Hne [H1 H2]]]]]].
      * exists (r' ++ String c s). apply matchPrefix_app; [| exact Hm].
        exact (asciiLed_head p _ _ p_led E).
      * exfalso.
        assert (Hq1 : q1 <> []).
        { intros ->. simpl in H1. injection H1 as ->. contradiction. }
        pose proof (noRunInto_split q q1 q2 repl q_stops Hq Hq1 Hne) as Hno.
        apply matchPrefix_startsMatch in H2; [| exact repl_ascii]. congruence.
    + rewrite scan_none in H by exact E.
      replace (w ++ String c (Regexp.scan p repl 0 s))
        with ((w ++ String c "") ++ Regexp.scan p repl 0 s) in H
        by (now rewrite append_assoc).
      apply IH in H.
      * destruct H as [rest' H]. exists rest'. now rewrite append_assoc in H.
      * simpl in Hn. lia.
      * destruct w; discriminate.
Qed.

Hypothesis q_outside : noStartIn q repl = true.

(** Rewriting with [p] leaves no match of [q], when [q] is [p] itself or
    had no match before. *)
Lemma scan_keeps_free (n : nat) :
  forall s,
    String.length s <= n ->
    q = p \/ free q s = true ->
    free q (Regexp.scan p repl 0 s) = true.
Proof.
  induction n as [|n IH]; intros s Hn Hs.
  - destruct s; [reflexivity | simpl in Hn; lia].
  - destruct s as [|c s]; [reflexivity |].
    destruct (Regexp.matchPrefix p (String c s)) as [r|] eqn:E.
    + rewrite (scan_some p repl _ r (asciiLed_nonempty p p_led) E).
      destruct (matchPrefix_suffix p _ _ E) as [m [Hm Hne]].
      specialize (Hne (asciiLed_nonempty p p_led)).
      apply free_behind; [exact repl_ascii | |].
      * intros y Hy. unfold noStartIn in q_outside.
        rewrite forallb_forall in q_outside.
        now apply negb_true_iff, q_outside.
      * apply IH.
        -- apply (f_equal String.length) in Hm. rewrite append_length in Hm.
           destruct m; [contradiction |]. simpl in *. lia.
        -- destruct Hs as [Hs | Hs]; [now left | right].
           rewrite Hm in Hs. exact (free_drop q m r Hs).
    + rewrite scan_none by exact E. cbn [free].
      destruct (Regexp.matchPrefix q (String c (Regexp.scan p repl 0 s))) eqn:Eq.
      * exfalso.
        change (String c (Regexp.scan p repl 0 s))
          with (String c "" ++ Regexp.scan p repl 0 s) in Eq.
        apply (reflect_match n) in Eq; [| simpl in Hn; lia | discriminate].
        destruct Eq as [rest' Eq]. simpl in Eq.
        destruct Hs as [-> | Hs]; [congruence |].
        cbn [free] in Hs. now rewrite Eq in Hs.
      * apply IH; [simpl in Hn; lia |].
        destruct Hs as [Hs | Hs]; [now left | right].
        cbn [free] in Hs.
        destruct (Regexp.matchPrefix q (String c s)); [discriminate | exact Hs].
Qed.

End Freedom.

(** ** Rewriting twice *)

Lemma ReplaceAll_scan (re : Regexp.t) (src repl : string) :
  asciiLed re = true -> Regexp.hasDollar repl = false ->
  Regexp.ReplaceAll re src repl = Some (Regexp.scan re repl 0 src).
Proof.
  unfold Regexp.ReplaceAll, asciiLed. destruct re as [|[c|] re']; try discriminate.
  intros -> ->. reflexivity.
Qed.




(** A page name that holds a [#] itself does not settle either, and
    here no dot is read for another character. *)
Example replaceBoth_twice_anchor :
  replaceBoth anchorRecord (linkTo "godoc.2.html#x.html#x.html#top")
    = Ok (linkTo "godoc.2.html#x.html#top")
  /\ replaceBoth anchorRecord (linkTo "godoc.2.html#x.html#top")
     = Ok (linkTo "godoc.2.html#top").
Proof. split; vm_compute; reflexivity. Qed.

(** ** What the patterns match *)

(** The test of the specification: both forms in one file. *)
Example replaceBoth_both_forms :
  replaceBoth pkgRecord (linkTo "pkg.html#Foo" ++ linkTo "pkg.html")
  = Ok (linkTo "godoc-root.html#Foo" ++ linkTo "godoc-root.html").
Proof. vm_compute. reflexivity. Qed.

(** A reference to another file, [pkgxhtml], is taken for one to
    [pkg.html]. *)
Example replaceBoth_other_name :
  replaceBoth pkgRecord (linkTo "pkgxhtml") = Ok (linkTo "godoc-root.html").
Proof. vm_compute. reflexivity. Qed.

(** C3, at an input where the code departs from it: a module whose
    pages include [a.b.html] and [axb.html].  They are renamed to
    [godoc.1.html] and [godoc.2.html]; the entry page links to both, and
    after the rewriting both links point to [godoc.1.html]: the
    pattern of [a.b.html], its dot standing for any character, has
    rewritten the reference to [axb.html] as well. *)
Theorem rewriteHTMLLinks_dot_matches_any :
  exists (runInfo' : RunInfo) (fs1 fs2 : FS),
    renameOutputFiles runABC pagesDots = Ok (runInfo', fs1)
    /\ map (fun info => (OldName info, NewName info)) (RunInfo_DocFileInfo runInfo')
       = [("a.b.html", "godoc.1.html"); ("axb.html", "godoc.2.html")]
    /\ rewriteHTMLLinks runInfo' fs1 = Ok fs2
    /\ Os.ReadFile (staticDir ++ "godoc-root.html") fs2
       = Some (linkTo "godoc.1.html" ++ linkTo "godoc.1.html").
Proof.
  eexists. eexists. eexists.
  split; [vm_compute; reflexivity |].
  split; [vm_compute; reflexivity |].
  split; vm_compute; reflexivity.
Qed.

(** ** The order of files and of records *)

Section Files.

Lemma replaceBoth_supported (info : DocFileInfo) (data : string) :
  supported info = true -> replaceBoth info data = Ok (rewritten info data).
Proof.
  unfold supported, replaceBoth, rewritten.
  destruct (HtmlReplaceRegex1 info) as [regex1|]; [| discriminate].
  destruct (HtmlReplaceRegex2 info) as [regex2|]; [| discriminate].
  intro H.
  apply andb_true_iff in H; destruct H as [H D2].
  apply andb_true_iff in H; destruct H as [H D1].
  apply andb_true_iff in H; destruct H as [L1 L2].
  apply negb_true_iff in D1, D2.
  now rewrite !ReplaceAll_scan by assumption.
Qed.

Lemma ReadFile_WriteFile (path data : string) (fs : FS) :
  Os.ReadFile path (Os.WriteFile path data fs) = Some data.
Proof.
  induction fs as [|[p d] fs IH]; simpl.
  - now rewrite String.eqb_refl.
  - destruct (p =? path) eqn:E; simpl; rewrite E; [reflexivity | exact IH].
Qed.

Lemma ReadFile_WriteFile_other (path other data : string) (fs : FS) :
  other <> path ->
  Os.ReadFile other (Os.WriteFile path data fs) = Os.ReadFile other fs.
Proof.
  intro Hne. induction fs as [|[p d] fs IH]; simpl.
  - destruct (path =? other) eqn:E; [| reflexivity].
    apply String.eqb_eq in E. congruence.
  - destruct (p =? path) eqn:E; simpl.
    + apply String.eqb_eq in E. subst p.
      destruct (path =? other) eqn:E'; [| reflexivity].
      apply String.eqb_eq in E'. congruence.
    + destruct (p =? other); [reflexivity | exact IH].
Qed.

Lemma WriteFile_twice (path data1 data2 : string) (fs : FS) :
  Os.WriteFile path data2 (Os.WriteFile path data1 fs) = Os.WriteFile path data2 fs.
Proof.
  induction fs as [|[p d] fs IH]; simpl.
  - now rewrite String.eqb_refl.
  - destruct (p =? path) eqn:E; simpl; rewrite E; [reflexivity | now rewrite IH].
Qed.

Lemma WriteFile_swap (f g a b : string) (fs : FS) :
  f <> g -> Os.ReadFile f fs <> None -> Os.ReadFile g fs <> None ->
  Os.WriteFile f a (Os.WriteFile g b fs) = Os.WriteFile g b (Os.WriteFile f a fs).
Proof.
  intros Hne. induction fs as [|[p d] fs IH]; simpl; intros Hf Hg; [contradiction |].
  destruct (p =? g) eqn:Eg, (p =? f) eqn:Ef; simpl; rewrite ?Eg, ?Ef; try reflexivity.
  - apply String.eqb_eq in Eg, Ef. congruence.
  - now rewrite IH.
Qed.

(** What the inner loop does to its file, records supported. *)
Lemma rewriteFile_spec (filePath : string) (infos : list DocFileInfo) :
  Forall (fun info => supported info = true) infos ->
  forall fs,
    rewriteFile filePath infos fs =
    match infos with
    | [] => Ok fs
    | _ :: _ =>
        match Os.ReadFile filePath fs with
        | None => Panic ReadError
        | Some data => Ok (Os.WriteFile filePath (rewrittenBy infos data) fs)
        end
    end.
Proof.
  induction 1 as [|info infos Hinfo Hall IH]; intro fs; [reflexivity |].
  cbn [rewriteFile]. destruct (Os.ReadFile filePath fs) as [data|]; [| reflexivity].
  rewrite (replaceBoth_supported info data Hinfo). cbn [bind]. rewrite IH.
  destruct infos as [|info2 infos]; [reflexivity |].
  rewrite ReadFile_WriteFile, WriteFile_twice. reflexivity.
Qed.

Lemma rewriteFile_swap (f g : string) (infos : list DocFileInfo) (fs : FS) :
  Forall (fun info => supported info = true) infos ->
  (fs1 <- rewriteFile f infos fs ;; rewriteFile g infos fs1)
  = (fs1 <- rewriteFile g infos fs ;; rewriteFile f infos fs1).
Proof.
  intro Hall. destruct (string_dec f g) as [-> | Hne]; [reflexivity |].
  rewrite !(rewriteFile_spec _ infos Hall).
  destruct infos as [|info infos]; [reflexivity |].
  destruct (Os.ReadFile f fs) as [a|] eqn:Ef, (Os.ReadFile g fs) as [b|] eqn:Eg;
    cbn [bind]; rewrite ?(rewriteFile_spec _ _ Hall);
    rewrite ?ReadFile_WriteFile_other by congruence;
    rewrite ?Ef, ?Eg; try reflexivity.
  f_equal. symmetry. apply WriteFile_swap; congruence.
Qed.

End Files.

(** The result of the link rewriting - the content of every file, or
    the panic on a missing file - does not depend on the order in which
    the files are scanned. *)
Lemma rewriteFiles_files_perm :
  forall (files files' : list string) (infos : list DocFileInfo) (fs : FS),
    Forall (fun info => supported info = true) infos ->
    Permutation files files' ->
    rewriteFiles files infos fs = rewriteFiles files' infos fs.
Proof.
  intros files files' infos fs Hall HP. revert fs.
  induction HP as [| f l l' _ IH | f g l | l1 l2 l3 _ IH1 _ IH2]; intro fs.
  - reflexivity.
  - cbn [rewriteFiles]. destruct (rewriteFile f infos fs); cbn [bind]; auto.
  - cbn [rewriteFiles].
    pose proof (rewriteFile_swap g f infos fs Hall) as Hswap.
    destruct (rewriteFile g infos fs) as [fs1| |],
             (rewriteFile f infos fs) as [fs2| |]; cbn [bind] in *;
      try (destruct (rewriteFile f infos fs1)); try (destruct (rewriteFile g infos fs2));
      cbn [bind] in *; congruence.
  - now rewrite IH1.
Qed.

(** ** A reference standing in a text *)

Section Blocks.

Variables (re : Regexp.t) (repl : string).
Hypothesis re_led : asciiLed re = true.

(** Nothing is replaced inside a text no tail of which agrees with the
    expression. *)
Lemma scan_behind (t : string) :
  forall x,
    allASCII x = true ->
    (forall y, In y (tails x) -> startsMatch re y = false) ->
    Regexp.scan re repl 0 (x ++ t) = x ++ Regexp.scan re repl 0 t.
Proof.
  induction x as [|c x IH]; intros Hx Hno; [reflexivity |].
  cbn [append].
  destruct (Regexp.matchPrefix re (String c (x ++ t))) eqn:E.
  - change (String c (x ++ t)) with (String c x ++ t) in E.
    apply matchPrefix_startsMatch in E; [| exact Hx].
    rewrite Hno in E; [discriminate | now left].
  - rewrite scan_none by exact E. f_equal. apply IH.
    + simpl in Hx. now apply andb_true_iff in Hx.
    + intros y Hy. apply Hno. now right.
Qed.

Variable block : string.
Hypothesis block_ascii : allASCII block = true.
Hypothesis block_nonempty : block <> "".
Hypothesis re_stops : noRunInto re block = true.

(** The scan of what precedes the block is not disturbed by it. *)
Lemma scan_before_block (n : nat) :
  forall pre post,
    String.length pre <= n ->
    Regexp.scan re repl 0 (pre ++ block ++ post)
    = Regexp.scan re repl 0 pre ++ Regexp.scan re repl 0 (block ++ post).
Proof.
  induction n as [|n IH]; intros pre post Hn.
  - destruct pre; [reflexivity | simpl in Hn; lia].
  - destruct pre as [|c pre]; [reflexivity |].
    assert (Hv : asciiHead (block ++ post) = true) by now apply asciiHead_app.
    destruct (Regexp.matchPrefix re (String c pre ++ block ++ post)) as [rest|] eqn:E.
    + pose proof E as E'.
      apply matchPrefix_app_inv in E'; [| exact Hv].
      destruct E' as [[r [-> Hm]] | [re1 [re2 [Hre [Hne [H1 H2]]]]]].
      * rewrite (scan_some re repl _ _ (asciiLed_nonempty re re_led) E).
        rewrite (scan_some re repl _ _ (asciiLed_nonempty re re_led) Hm).
        rewrite append_assoc. f_equal. apply IH.
        destruct (matchPrefix_suffix re _ _ Hm) as [m [Hs Hm']].
        specialize (Hm' (asciiLed_nonempty re re_led)).
        apply (f_equal String.length) in Hs. rewrite append_length in Hs.
        destruct m; [contradiction |]. simpl in *. lia.
      * exfalso.
        assert (Hre1 : re1 <> []).
        { intros ->. simpl in H1. discriminate. }
        pose proof (noRunInto_split re re1 re2 block re_stops Hre Hre1 Hne) as Hno.
        apply matchPrefix_startsMatch in H2; [| exact block_ascii]. congruence.
    + assert (E0 : Regexp.matchPrefix re (String c pre) = None).
      { destruct (Regexp.matchPrefix re (String c pre)) as [r|] eqn:E0; [| reflexivity].
        apply (matchPrefix_app re _ (block ++ post)) in E0; [| exact Hv]. congruence. }
      cbn [append] in *. rewrite !scan_none by assumption.
      cbn [append]. f_equal. apply IH. simpl in Hn. lia.
Qed.

(** A block the expression does not match anywhere in stays. *)
Lemma scan_keeps_block (pre post : string) :
  noStartIn re block = true ->
  Regexp.scan re repl 0 (pre ++ block ++ post)
  = Regexp.scan re repl 0 pre ++ block ++ Regexp.scan re repl 0 post.
Proof.
  intro Hout. rewrite (scan_before_block (String.length pre)) by lia.
  f_equal. apply scan_behind; [exact block_ascii |].
  intros y Hy. unfold noStartIn in Hout. rewrite forallb_forall in Hout.
  now apply negb_true_iff, Hout.
Qed.

(** A block the expression matches as a whole is replaced. *)
Lemma scan_replaces_block (pre post : string) :
  (forall z, Regexp.matchPrefix re (block ++ z) = Some z) ->
  Regexp.scan re repl 0 (pre ++ block ++ post)
  = Regexp.scan re repl 0 pre ++ repl ++ Regexp.scan re repl 0 post.
Proof.
  intro Hm. rewrite (scan_before_block (String.length pre)) by lia.
  f_equal. apply scan_some; [exact (asciiLed_nonempty re re_led) | apply Hm].
Qed.

End Blocks.

(** The text a pattern was compiled from is matched by it, whatever
    follows. *)
Lemma Compile_matches (pattern : string) :
  forall re z,
    Regexp.Compile pattern = Some re ->
    Regexp.matchPrefix re (pattern ++ z) = Some z.
Proof.
  induction pattern as [|c pattern IH]; intros re z H; simpl in H.
  - now injection H as <-.
  - destruct (Ascii.eqb c ".") eqn:Edot.
    + apply Ascii.eqb_eq in Edot. subst c.
      destruct (Regexp.Compile pattern) as [re'|]; [| discriminate].
      injection H as <-. cbn [append Regexp.matchPrefix].
      change (Ascii.eqb "." "010") with false. cbv iota.
      rewrite runeWidth_ascii by reflexivity. simpl. now apply IH.
    + destruct (Regexp.special c || negb (Regexp.isASCII c)); [discriminate |].
      destruct (Regexp.Compile pattern) as [re'|]; [| discriminate].
      injection H as <-. cbn [append Regexp.matchPrefix].
      rewrite Ascii.eqb_refl. now apply IH.
Qed.

Section References.

Lemma reference_nonempty (f : form) (name : string) : reference f name <> "".
Proof. destruct f; discriminate. Qed.

Lemma rewritten_leaves (info : DocFileInfo) (block pre post : string) :
  supported info = true -> leaves info block = true -> block <> "" ->
  rewritten info (pre ++ block ++ post)
  = rewritten info pre ++ block ++ rewritten info post.
Proof.
  unfold supported, leaves, rewritten.
  destruct (HtmlReplaceRegex1 info) as [regex1|]; [| discriminate].
  destruct (HtmlReplaceRegex2 info) as [regex2|]; [| discriminate].
  intros Hs H Hne.
  apply andb_true_iff in Hs; destruct Hs as [Hs _].
  apply andb_true_iff in Hs; destruct Hs as [Hs _].
  apply andb_true_iff in Hs; destruct Hs as [L1 L2].
  apply andb_true_iff in H; destruct H as [H S2].
  apply andb_true_iff in H; destruct H as [H R2].
  apply andb_true_iff in H; destruct H as [H S1].
  apply andb_true_iff in H; destruct H as [A R1].
  rewrite (scan_keeps_block regex1 _ L1 block A Hne R1 pre post S1).
  now rewrite (scan_keeps_block regex2 _ L2 block A Hne R2 _ _ S2).
Qed.

Lemma rewrittenBy_leaves (block : string) (infos : list DocFileInfo) :
  block <> "" ->
  Forall (fun info => supported info = true) infos ->
  Forall (fun info => leaves info block = true) infos ->
  forall pre post,
    rewrittenBy infos (pre ++ block ++ post)
    = rewrittenBy infos pre ++ block ++ rewrittenBy infos post.
Proof.
  intros Hne Hs. induction Hs as [|info infos Hinfo _ IH]; intros Hl pre post.
  - reflexivity.
  - inversion Hl as [|? ? Hleaves Hl']; subst. unfold rewrittenBy in *. simpl.
    rewrite rewritten_leaves by assumption. now apply IH.
Qed.

Lemma rewritten_relinks (oldPath newPath : string) (f : form) (pre post : string) :
  supported (NewDocFileInfo oldPath newPath) = true ->
  relinks (NewDocFileInfo oldPath newPath) f = true ->
  rewritten (NewDocFileInfo oldPath newPath)
            (pre ++ reference f (Filepath.Base oldPath) ++ post)
  = rewritten (NewDocFileInfo oldPath newPath) pre
    ++ reference f (Filepath.Base newPath)
    ++ rewritten (NewDocFileInfo oldPath newPath) post.
Proof.
  unfold supported, relinks, rewritten. cbn [NewDocFileInfo HtmlReplaceRegex1
    HtmlReplaceRegex2 HtmlReplaceWith1 HtmlReplaceWith2 OldName NewName].
  set (oldName := Filepath.Base oldPath). set (newName := Filepath.Base newPath).
  destruct (Regexp.Compile ("href=" ++ quote ++ oldName ++ "#")) as [regex1|] eqn:C1;
    [| discriminate].
  destruct (Regexp.Compile ("href=" ++ quote ++ oldName ++ quote)) as [regex2|] eqn:C2;
    [| discriminate].
  intros Hs H.
  apply andb_true_iff in Hs; destruct Hs as [Hs _].
  apply andb_true_iff in Hs; destruct Hs as [Hs _].
  apply andb_true_iff in Hs; destruct Hs as [L1 L2].
  apply andb_true_iff in H; destruct H as [H Hf].
  apply andb_true_iff in H; destruct H as [AO AN].
  destruct f; cbn [reference] in *.
  - apply andb_true_iff in Hf; destruct Hf as [Hf R2].
    apply andb_true_iff in Hf; destruct Hf as [R1 S1].
    rewrite (scan_keeps_block regex1 _ L1 (hrefQuoted oldName) AO
               (reference_nonempty Quoted _) R1 pre post S1).
    apply (scan_replaces_block regex2 _ L2 (hrefQuoted oldName) AO
             (reference_nonempty Quoted _) R2).
    intro z. now apply Compile_matches.
  - apply andb_true_iff in Hf; destruct Hf as [Hf S2].
    apply andb_true_iff in Hf; destruct Hf as [R1 R2].
    rewrite (scan_replaces_block regex1 _ L1 (hrefAnchor oldName) AO
               (reference_nonempty Anchored _) R1 pre post)
      by (intro z; now apply Compile_matches).
    apply (scan_keeps_block regex2 _ L2 (hrefAnchor newName) AN
             (reference_nonempty Anchored _) R2 _ _ S2).
Qed.

Lemma rewrittenBy_app (infos1 infos2 : list DocFileInfo) (data : string) :
  rewrittenBy (infos1 ++ infos2) data = rewrittenBy infos2 (rewrittenBy infos1 data).
Proof. unfold rewrittenBy. apply fold_left_app. Qed.

(** Through a whole list of records: those before leave the reference
    alone, its own record rewrites it, those after leave the result
    alone. *)
Lemma rewrittenBy_relinks (earlier later : list DocFileInfo)
      (oldPath newPath : string) (f : form) (pre post : string) :
  Forall (fun info => supported info = true)
         (earlier ++ NewDocFileInfo oldPath newPath :: later) ->
  Forall (fun info => leaves info (reference f (Filepath.Base oldPath)) = true) earlier ->
  relinks (NewDocFileInfo oldPath newPath) f = true ->
  Forall (fun info => leaves info (reference f (Filepath.Base newPath)) = true) later ->
  rewrittenBy (earlier ++ NewDocFileInfo oldPath newPath :: later)
              (pre ++ reference f (Filepath.Base oldPath) ++ post)
  = rewrittenBy (earlier ++ NewDocFileInfo oldPath newPath :: later) pre
    ++ reference f (Filepath.Base newPath)
    ++ rewrittenBy (earlier ++ NewDocFileInfo oldPath newPath :: later) post.
Proof.
  intros Hs He Hr Hl.
  apply Forall_app in Hs. destruct Hs as [Hs1 Hs2].
  inversion Hs2 as [|? ? Hs Hs3]; subst.
  rewrite !rewrittenBy_app.
  rewrite (rewrittenBy_leaves _ earlier (reference_nonempty f _) Hs1 He).
  change (rewrittenBy (NewDocFileInfo oldPath newPath :: later) ?d)
    with (rewrittenBy later (rewritten (NewDocFileInfo oldPath newPath) d)).
  rewrite rewritten_relinks by assumption.
  now rewrite (rewrittenBy_leaves _ later (reference_nonempty f _) Hs3 Hl).
Qed.

End References.

(** ** The new names are distinct *)

Section Distinct.

Lemma Itoa_inj (a b : Z) : GoStrings.Itoa a = GoStrings.Itoa b -> a = b.
Proof.
  unfold GoStrings.Itoa. intro H. apply DecimalZ.to_int_inj.
  assert (E : Some (Z.to_int a) = Some (Z.to_int b))
    by (rewrite <- !NilEmpty.isi; now rewrite H).
  now injection E.
Qed.

Lemma append_inj_r (s : string) :
  forall x y, x ++ s = y ++ s -> x = y.
Proof.
  induction x as [|c x IH]; intros [|d y] H; simpl in H.
  - reflexivity.
  - apply (f_equal String.length) in H. simpl in H. rewrite append_length in H. lia.
  - apply (f_equal String.length) in H. simpl in H. rewrite append_length in H. lia.
  - injection H as -> H. f_equal. now apply IH.
Qed.

Variable settings : Settings.

Lemma numberedName_inj (i j : nat) :
  numberedName settings i = numberedName settings j -> i = j.
Proof.
  unfold numberedName. intro H. apply append_inj_l in H. simpl in H.
  injection H as H. apply append_inj_r, Itoa_inj in H. lia.
Qed.

Lemma numberedPath_inj (i j : nat) :
  numberedPath settings i = numberedPath settings j -> i = j.
Proof.
  rewrite !numberedPath_name. intro H. apply join_inj, numberedName_inj in H. lia.
Qed.

Lemma numberedPath_not_entry (i : nat) :
  numberedPath settings i <> entryNewPath settings.
Proof.
  rewrite numberedPath_name. unfold entryNewPath, numberedName. intro H.
  apply join_inj, append_inj_l in H. discriminate.
Qed.

Lemma pathsFrom_map (olds : list string) :
  forall i, pathsFrom settings i olds
            = map (numberedPath settings) (seq i (List.length olds)).
Proof. induction olds as [|old olds IH]; intro i; simpl; [reflexivity | now rewrite IH]. Qed.

Lemma outputFiles_NoDup (before after : list string) :
  NoDup (([] ++ [entryNewPath settings])
         ++ pathsFrom settings 0 before
         ++ pathsFrom settings (S (List.length before)) after)%list.
Proof.
  simpl. rewrite !pathsFrom_map, <- map_app. constructor.
  - intro H. apply in_map_iff in H. destruct H as [i [H _]].
    exact (numberedPath_not_entry i H).
  - apply Finite.Injective_map_NoDup; [exact numberedPath_inj |].
    pose proof (seq_NoDup (List.length before + 1 + List.length after) 0) as H.
    rewrite !seq_app in H. simpl in H. rewrite <- app_assoc in H. simpl in H.
    apply NoDup_remove_1 in H. now rewrite Nat.add_1_r in H.
Qed.

End Distinct.



Section Contents.

Variable infos : list DocFileInfo.
Hypothesis infos_supported : Forall (fun info => supported info = true) infos.

Lemma rewriteFile_other (filePath other : string) (fs fs' : FS) :
  rewriteFile filePath infos fs = Ok fs' -> other <> filePath ->
  Os.ReadFile other fs' = Os.ReadFile other fs.
Proof.
  rewrite (rewriteFile_spec _ _ infos_supported). destruct infos; [now intros [= <-] |].
  destruct (Os.ReadFile filePath fs); [| discriminate].
  intros [= <-] Hne. now apply ReadFile_WriteFile_other.
Qed.

Lemma rewriteFile_content (filePath data : string) (fs fs' : FS) :
  rewriteFile filePath infos fs = Ok fs' ->
  Os.ReadFile filePath fs = Some data ->
  Os.ReadFile filePath fs' = Some (rewrittenBy infos data).
Proof.
  rewrite (rewriteFile_spec _ _ infos_supported). destruct infos.
  - intros [= <-] H. exact H.
  - intros H Hr. rewrite Hr in H. injection H as <-. apply ReadFile_WriteFile.
Qed.

Lemma rewriteFiles_other (files : list string) :
  forall fs fs' other,
    rewriteFiles files infos fs = Ok fs' -> ~ In other files ->
    Os.ReadFile other fs' = Os.ReadFile other fs.
Proof.
  induction files as [|f files IH]; intros fs fs' other H Hnin; simpl in H.
  - now injection H as <-.
  - destruct (rewriteFile f infos fs) as [fs1| |] eqn:E; try discriminate.
    simpl in H. rewrite (IH _ _ _ H) by (intro; apply Hnin; now right).
    apply (rewriteFile_other _ _ _ _ E). intros ->. apply Hnin. now left.
Qed.

(** After the rewriting every output file holds what the records, in
    their order, make of its content. *)
Lemma rewriteFiles_content (files : list string) :
  forall fs fs' filePath data,
    NoDup files ->
    rewriteFiles files infos fs = Ok fs' ->
    In filePath files ->
    Os.ReadFile filePath fs = Some data ->
    Os.ReadFile filePath fs' = Some (rewrittenBy infos data).
Proof.
  induction files as [|f files IH]; intros fs fs' filePath data Hnd H Hin Hr;
    [contradiction |].
  simpl in H. inversion Hnd as [|? ? Hnin Hnd']; subst.
  destruct (rewriteFile f infos fs) as [fs1| |] eqn:E; try discriminate.
  simpl in H. destruct (string_dec filePath f) as [-> | Hne].
  - rewrite (rewriteFiles_other _ _ _ _ H Hnin).
    exact (rewriteFile_content _ _ _ _ E Hr).
  - destruct Hin as [-> | Hin]; [contradiction |].
    apply (IH fs1 fs' filePath data Hnd' H Hin).
    now rewrite (rewriteFile_other _ _ _ _ E Hne).
Qed.

End Contents.

(** ** The reserved [index.html] *)

Section Index.

Lemma ReadFile_cleared (dir name : string) (fs : FS) :
  Os.ReadFile (dir ++ "/" ++ name) (cleared dir fs) = None.
Proof.
  unfold cleared, Os.below. induction fs as [|[p d] fs IH]; simpl; [reflexivity |].
  destruct (GoStrings.CutPrefix p (dir ++ "/")) as [n|] eqn:E.
  - rewrite orb_true_r. simpl. exact IH.
  - destruct (p =? dir); simpl; [exact IH |].
    destruct (p =? dir ++ String "/" name) eqn:Ep; [| exact IH].
    apply String.eqb_eq in Ep. subst p.
    pose proof (CutPrefix_join dir name) as C. simpl in C. congruence.
Qed.

(** When [setupBuildDir] returns, the build path is not the empty one
    and the files are those that were outside of it, with the empty
    [index.html]. *)
Lemma setupBuildDir_Ok (w : World) (settings : Settings)
      (dirs0 dirs : list string) (fs0 fs : FS) :
  setupBuildDir w settings dirs0 fs0 = Ok (dirs, fs) ->
  BuildDir settings <> ""
  /\ removeFails w = false /\ createFails w = false
  /\ fs = Os.Create (indexPath settings) (cleared (BuildDir settings) fs0).
Proof.
  unfold setupBuildDir, Os.RemoveAll, indexPath.
  destruct (BuildDir settings =? "") eqn:E.
  - apply String.eqb_eq in E. rewrite E. discriminate.
  - apply String.eqb_neq in E. destruct (removeFails w); [discriminate |].
    match goal with |- context [if ?b then _ else _] => destruct b end;
      [| discriminate].
    destruct (createBuildDir _ _ _); try discriminate.
    destruct (createFails w); [discriminate |].
    intros [= <- <-]. repeat split. exact E.
Qed.

(** [setupBuildDir], when it returns, leaves the build directory with
    the empty [index.html] and nothing else. *)
Lemma setupBuildDir_index (w : World) (settings : Settings)
      (dirs0 dirs : list string) (fs0 fs : FS) :
  setupBuildDir w settings dirs0 fs0 = Ok (dirs, fs) ->
  Os.ReadFile (indexPath settings) fs = Some ""
  /\ forall name,
       name <> "index.html" ->
       Os.ReadFile (BuildDir settings ++ "/" ++ name) fs = None.
Proof.
  intro H. apply setupBuildDir_Ok in H. destruct H as [_ [_ [_ ->]]].
  unfold Os.Create, indexPath. split.
  - apply ReadFile_WriteFile.
  - intros name Hne. rewrite ReadFile_WriteFile_other.
    + apply ReadFile_cleared.
    + intro H. apply Hne. now apply (join_inj (BuildDir settings)).
Qed.

Lemma recordsFrom_In (settings : Settings) (path : string) (olds : list string) :
  forall i,
    In path olds ->
    exists j,
      In (NewDocFileInfo path (numberedPath settings j)) (recordsFrom settings i olds)
      /\ In (numberedPath settings j) (pathsFrom settings i olds).
Proof.
  induction olds as [|old olds IH]; intros i Hin; [contradiction |].
  destruct Hin as [-> | Hin].
  - exists i. split; now left.
  - destruct (IH (S i) Hin) as [j [H1 H2]]. exists j. split; now right.
Qed.

(** A run that ends well went through the setup, the crawl, the
    renaming and the rewriting. *)
Lemma main_steps (w : World) (settings : Settings)
      (dirs0 : list string) (fs0 final : FS) :
  main w settings dirs0 fs0 = Ok final ->
  exists (dirs : list string) (fs : FS),
    setupBuildDir w settings dirs0 fs0 = Ok (dirs, fs)
    /\ (r <- renameOutputFiles (NewRunInfo settings) (fst (wget w fs)) ;;
        rewriteHTMLLinks (fst r) (snd r)) = Ok final.
Proof.
  unfold main.
  destruct (setupBuildDir w settings dirs0 fs0) as [[dirs fs]| |];
    try discriminate.
  intro H. exists dirs, fs. split; [reflexivity |]. revert H.
  cbn [bind snd].
  unfold runServerAndScrapeDocs, runDocServer_start, killDeferred,
    scrapeModulePages, fileExists.
  destruct (startFails w); [discriminate |].
  destruct (waitForServer w) as [log [t| |]]; try discriminate.
  destruct (killFails w); [discriminate |].
  destruct (wget w fs) as [fs1 err]. simpl.
  destruct err; [| exact (fun H => H)].
  destruct (statFails w); simpl; [discriminate |].
  destruct (Os.exists_ _ fs1); simpl; [exact (fun H => H) | discriminate].
Qed.

End Index.


Lemma crawlWorld_keeps (fs : FS) (path : string) :
  Os.exists_ path fs = true -> Os.exists_ path (fst (wget crawlWorld fs)) = true.
Proof. unfold Os.exists_. simpl. intro H. now rewrite existsb_app, H. Qed.

Lemma crawlWorld_setup :
  setupBuildDir crawlWorld (exampleSettings "a/b/c") [] [] = Ok (staticDirs, crawlSetup).
Proof. reflexivity. Qed.

Lemma crawlWorld_NoDup : NoDup (Os.paths (fst (wget crawlWorld crawlSetup))).
Proof.
  vm_compute. repeat (constructor; [simpl; intuition discriminate |]). constructor.
Qed.



(** Setup does not return for a build path from the root, and not for
    the empty one: the first directory [createBuildDir] asks for has the
    empty name. *)
Example setupBuildDir_rooted_panics :
  setupBuildDir crawlWorld (withBuildDir (exampleSettings "a/b/c") "/srv/docs") [] []
  = Panic CreateDirError
  /\ setupBuildDir crawlWorld (withBuildDir (exampleSettings "a/b/c") "") [] []
     = Panic CreateDirError
  /\ main crawlWorld (withBuildDir (exampleSettings "a/b/c") "/srv/docs") [] []
     = Panic CreateDirError.
Proof. repeat split. Qed.

(** ** Two records on one text *)

Section Runes.

Lemma inRange_high (lo hi : N) (a : ascii) :
  Regexp.inRange lo hi a = true -> (128 <= lo)%N -> Regexp.isASCII a = false.
Proof.
  unfold Regexp.isASCII, Regexp.inRange. intros H Hlo.
  apply andb_true_iff in H. destruct H as [H _]. apply N.leb_le in H.
  apply N.ltb_ge. lia.
Qed.

(** The bytes of a character after its first are not ASCII. *)
Lemma runeWidth_split (d : ascii) (rest : string) :
  exists mid,
    rest = mid ++ Regexp.dropBytes (Regexp.runeWidth (String d rest)) (String d rest)
    /\ noASCII mid = true
    /\ Regexp.runeWidth (String d rest) = S (String.length mid).
Proof.
  unfold Regexp.runeWidth.
  destruct (Regexp.byte d <? 194)%N; [exists ""; repeat split; reflexivity |].
  destruct (Regexp.byte d <? 224)%N.
  { destruct rest as [|b1 r1]; [exists ""; repeat split; reflexivity |].
    destruct (Regexp.inRange 128 191 b1) eqn:E1; [| exists ""; repeat split; reflexivity].
    exists (String b1 ""). split; [reflexivity |]. split; [| reflexivity]. simpl.
    rewrite (inRange_high _ _ _ E1) by lia. reflexivity. }
  destruct (Regexp.byte d <? 240)%N.
  { set (lo := if (Regexp.byte d =? 224)%N then 160%N else 128%N).
    set (hi := if (Regexp.byte d =? 237)%N then 159%N else 191%N).
    assert (Hlo : (128 <= lo)%N) by (unfold lo; destruct (_ =? _)%N; lia).
    destruct rest as [|b1 [|b2 r2]]; try (exists ""; repeat split; reflexivity).
    destruct (Regexp.inRange lo hi b1) eqn:E1; [| exists ""; repeat split; reflexivity].
    destruct (Regexp.inRange 128 191 b2) eqn:E2; [| exists ""; repeat split; reflexivity].
    exists (String b1 (String b2 "")). split; [reflexivity |].
    split; [| reflexivity]. simpl.
    rewrite (inRange_high _ _ _ E1 Hlo), (inRange_high _ _ _ E2) by lia.
    reflexivity. }
  destruct (Regexp.byte d <? 245)%N; [| exists ""; repeat split; reflexivity].
  set (lo := if (Regexp.byte d =? 240)%N then 144%N else 128%N).
  set (hi := if (Regexp.byte d =? 244)%N then 143%N else 191%N).
  assert (Hlo : (128 <= lo)%N) by (unfold lo; destruct (_ =? _)%N; lia).
  destruct rest as [|b1 [|b2 [|b3 r3]]]; try (exists ""; repeat split; reflexivity).
  destruct (Regexp.inRange lo hi b1) eqn:E1; [| exists ""; repeat split; reflexivity].
  destruct (Regexp.inRange 128 191 b2) eqn:E2; [| exists ""; repeat split; reflexivity].
  destruct (Regexp.inRange 128 191 b3) eqn:E3; [| exists ""; repeat split; reflexivity].
  exists (String b1 (String b2 (String b3 ""))). split; [reflexivity |].
  split; [| reflexivity]. simpl.
  rewrite (inRange_high _ _ _ E1 Hlo), (inRange_high _ _ _ E2),
    (inRange_high _ _ _ E3) by lia.
  reflexivity.
Qed.

(** Where an ASCII byte follows soon enough, the width of a character
    does not depend on what comes after it. *)
Lemma runeWidth_local (d : ascii) (y z z' : string) :
  hasASCII y = true ->
  Regexp.runeWidth (String d (y ++ z)) = Regexp.runeWidth (String d (y ++ z')).
Proof.
  intro Hy. unfold Regexp.runeWidth.
  destruct (Regexp.byte d <? 194)%N; [reflexivity |].
  destruct y as [|b1 y1]; [discriminate |]. cbn [append].
  destruct (Regexp.byte d <? 224)%N; [reflexivity |].
  destruct (Regexp.byte d <? 240)%N.
  { set (lo := if (Regexp.byte d =? 224)%N then 160%N else 128%N).
    set (hi := if (Regexp.byte d =? 237)%N then 159%N else 191%N).
    assert (Hlo : (128 <= lo)%N) by (unfold lo; destruct (_ =? _)%N; lia).
    destruct (Regexp.isASCII b1) eqn:A1.
    - rewrite (inRange_ascii lo hi b1 A1 Hlo).
      destruct (y1 ++ z), (y1 ++ z'); reflexivity.
    - simpl in Hy. rewrite A1 in Hy. simpl in Hy.
      destruct y1 as [|b2 y2]; [discriminate |]. reflexivity. }
  destruct (Regexp.byte d <? 245)%N; [| reflexivity].
  set (lo := if (Regexp.byte d =? 240)%N then 144%N else 128%N).
  set (hi := if (Regexp.byte d =? 244)%N then 143%N else 191%N).
  assert (Hlo : (128 <= lo)%N) by (unfold lo; destruct (_ =? _)%N; lia).
  destruct (Regexp.isASCII b1) eqn:A1.
  - rewrite (inRange_ascii lo hi b1 A1 Hlo).
    destruct (y1 ++ z) as [|? [|? ?]], (y1 ++ z') as [|? [|? ?]]; reflexivity.
  - simpl in Hy. rewrite A1 in Hy. simpl in Hy.
    destruct y1 as [|b2 y2]; [discriminate |]. cbn [append].
    destruct (Regexp.isASCII b2) eqn:A2.
    + rewrite (inRange_ascii 128 191 b2 A2) by lia. rewrite !andb_false_r.
      destruct (y2 ++ z), (y2 ++ z'); reflexivity.
    + simpl in Hy. rewrite A2 in Hy. simpl in Hy.
      destruct y2 as [|b3 y3]; [discriminate |]. reflexivity.
Qed.

Lemma dropBytes_exact (a b : string) :
  Regexp.dropBytes (String.length a) (a ++ b) = b.
Proof.
  induction a as [|c a IH]; simpl; [now destruct b | exact IH].
Qed.

Lemma hasASCII_app (a b : string) : hasASCII (a ++ b) = hasASCII a || hasASCII b.
Proof. induction a as [|c a IH]; simpl; [reflexivity | now rewrite IH, orb_assoc]. Qed.

End Runes.

Section Apart.

(** Two expressions that match at the same place are compatible. *)
Lemma both_match (q : Regexp.t) :
  forall p text r1 r2,
    pure q = true -> pure p = true ->
    Regexp.matchPrefix q text = Some r1 ->
    Regexp.matchPrefix p text = Some r2 ->
    compatible q p = true.
Proof.
  induction q as [|e1 q IH]; intros p text r1 r2 Hq Hp H1 H2; [reflexivity |].
  destruct p as [|e2 p]; [now destruct e1 |].
  destruct text as [|d text]; [destruct e1; discriminate |].
  destruct e1 as [a|], e2 as [b|]; cbn [Regexp.matchPrefix compatible pure] in *.
  - apply andb_true_iff in Hq, Hp. destruct Hq as [_ Hq], Hp as [_ Hp].
    destruct (Ascii.eqb a d) eqn:Ea; [| discriminate].
    destruct (Ascii.eqb b d) eqn:Eb; [| discriminate].
    apply Ascii.eqb_eq in Ea, Eb. subst. rewrite Ascii.eqb_refl. simpl.
    eapply IH; eassumption.
  - apply andb_true_iff in Hq. destruct Hq as [Ha Hq].
    destruct (Ascii.eqb a d) eqn:Ea; [| discriminate].
    apply Ascii.eqb_eq in Ea. subst d.
    destruct (Ascii.eqb a "010"); [discriminate |]. simpl.
    rewrite runeWidth_ascii in H2 by exact Ha. simpl in H2.
    eapply IH; eassumption.
  - apply andb_true_iff in Hp. destruct Hp as [Hb Hp].
    destruct (Ascii.eqb b d) eqn:Eb; [| discriminate].
    apply Ascii.eqb_eq in Eb. subst d.
    destruct (Ascii.eqb b "010"); [discriminate |]. simpl.
    rewrite runeWidth_ascii in H1 by exact Hb. simpl in H1.
    eapply IH; eassumption.
  - destruct (Ascii.eqb d "010"); [discriminate |].
    eapply IH; eassumption.
Qed.

(** A match is decided by the text it takes. *)
Lemma match_local (p : Regexp.t) :
  forall text u,
    pure p = true -> closed p = true ->
    Regexp.matchPrefix p text = Some u ->
    exists m,
      text = m ++ u /\ hasASCII m = true
      /\ forall z, Regexp.matchPrefix p (m ++ z) = Some z.
Proof.
  induction p as [|e p IH]; intros text u Hp Hc H; [discriminate |].
  destruct p as [|e' p'].
  - destruct e as [c|]; [| discriminate]. simpl in *.
    destruct text as [|d text]; [discriminate |].
    destruct (Ascii.eqb c d) eqn:E; [| discriminate].
    apply Ascii.eqb_eq in E. subst d. injection H as ->.
    exists (String c ""). rewrite andb_true_r in Hp. repeat split.
    + simpl. now rewrite Hp.
    + intro z. simpl. now rewrite Ascii.eqb_refl.
  - assert (Hc' : closed (e' :: p') = true) by exact Hc.
    destruct text as [|d text]; [destruct e; discriminate |].
    destruct e as [c|]; cbn [Regexp.matchPrefix pure] in H, Hp.
    + apply andb_true_iff in Hp. destruct Hp as [_ Hp].
      destruct (Ascii.eqb c d) eqn:E; [| discriminate].
      destruct (IH _ _ Hp Hc' H) as [m [-> [Hm Hz]]].
      exists (String d m). repeat split.
      * simpl. rewrite Hm. apply orb_true_r.
      * intro z. cbn [append Regexp.matchPrefix]. rewrite E. apply Hz.
    + destruct (Ascii.eqb d "010") eqn:E; [discriminate |].
      destruct (runeWidth_split d text) as [mid [Hmid [_ Hw]]].
      destruct (IH _ _ Hp Hc' H) as [m [Hm [Hasc Hz]]].
      rewrite Hm in Hmid.
      exists (String d (mid ++ m)). repeat split.
      * simpl. now rewrite append_assoc, <- Hmid.
      * simpl. rewrite hasASCII_app, Hasc, !orb_true_r. reflexivity.
      * intro z. cbn [append Regexp.matchPrefix]. rewrite E.
        assert (Hy : hasASCII (mid ++ m) = true)
          by (rewrite hasASCII_app, Hasc; apply orb_true_r).
        rewrite (runeWidth_local d (mid ++ m) z u Hy).
        rewrite (append_assoc mid m u), <- Hmid, Hw.
        cbn [Regexp.dropBytes]. rewrite append_assoc, dropBytes_exact. apply Hz.
Qed.

Variables (q : Regexp.t) (s : string).
Hypothesis q_led : asciiLed q = true.
Hypothesis q_pure : pure q = true.

Lemma scan_past_high (mid x : string) :
  noASCII mid = true ->
  Regexp.scan q s 0 (mid ++ x) = mid ++ Regexp.scan q s 0 x.
Proof.
  induction mid as [|b mid IH]; intro H; [reflexivity |].
  simpl in H. apply andb_true_iff in H. destruct H as [Hb H].
  cbn [append]. rewrite scan_none; [now rewrite IH |].
  destruct (Regexp.matchPrefix q (String b (mid ++ x))) eqn:E; [| reflexivity].
  apply (asciiLed_head q _ _ q_led) in E. simpl in E.
  rewrite E in Hb. discriminate.
Qed.

(** No match of [q] starts in the text a match of [p] takes, when [q]
    is apart from [p]: the scan passes over that text. *)
Lemma scan_through_match (p : Regexp.t) :
  forall text u,
    pure p = true ->
    Regexp.matchPrefix p text = Some u ->
    (forall k, k < List.length p -> compatible q (skipn k p) = false) ->
    exists m, text = m ++ u /\ Regexp.scan q s 0 text = m ++ Regexp.scan q s 0 u.
Proof.
  induction p as [|e p IH]; intros text u Hp H Hapart.
  - simpl in H. injection H as ->. now exists "".
  - assert (Hnone : Regexp.matchPrefix q text = None).
    { destruct (Regexp.matchPrefix q text) as [r|] eqn:E; [| reflexivity].
      pose proof (both_match q (e :: p) text r u q_pure Hp E H) as Hc.
      assert (H0 : compatible q (skipn 0 (e :: p)) = false)
        by (apply Hapart; simpl; lia).
      simpl in H0. congruence. }
    assert (Hshift : forall k, k < List.length p -> compatible q (skipn k p) = false).
    { intros k Hk. apply (Hapart (S k)). simpl. lia. }
    destruct text as [|d text]; [destruct e; discriminate |].
    rewrite scan_none by exact Hnone.
    destruct e as [c|]; cbn [Regexp.matchPrefix pure] in H, Hp.
    + apply andb_true_iff in Hp. destruct Hp as [_ Hp].
      destruct (Ascii.eqb c d); [| discriminate].
      destruct (IH _ _ Hp H Hshift) as [m [-> Hm]].
      exists (String d m). split; [reflexivity |]. simpl. now rewrite Hm.
    + destruct (Ascii.eqb d "010"); [discriminate |].
      destruct (runeWidth_split d text) as [mid [Hmid [Hhigh Hw]]].
      destruct (IH _ _ Hp H Hshift) as [m [Hm Hscan]].
      rewrite Hw in Hmid, Hm, Hscan. cbn [Regexp.dropBytes] in *.
      exists (String d (mid ++ m)). split.
      * simpl. rewrite append_assoc, <- Hm. now rewrite <- Hmid.
      * rewrite Hmid at 1. rewrite scan_past_high by exact Hhigh.
        rewrite Hscan. simpl. now rewrite append_assoc.
Qed.

End Apart.

Section Commute.

Variables (p q : Regexp.t) (r s : string).
Hypothesis p_plain : plain p r = true.
Hypothesis q_plain : plain q s = true.
Hypothesis crossing : cross p r q s = true.

Lemma plain_parts (re : Regexp.t) (repl : string) :
  plain re repl = true ->
  asciiLed re = true /\ pure re = true /\ closed re = true
  /\ allASCII repl = true /\ repl <> "".
Proof.
  unfold plain. intro H.
  apply andb_true_iff in H; destruct H as [H N].
  apply andb_true_iff in H; destruct H as [H A].
  apply andb_true_iff in H; destruct H as [H C].
  apply andb_true_iff in H; destruct H as [L P].
  apply negb_true_iff, String.eqb_neq in N. tauto.
Qed.

Lemma apart_spec (a b : Regexp.t) :
  apart a b = true ->
  forall k, k < List.length b -> compatible a (skipn k b) = false.
Proof.
  unfold apart. intros H k Hk. rewrite forallb_forall in H.
  apply negb_true_iff, H, in_seq. lia.
Qed.

Lemma noStartIn_spec (a : Regexp.t) (x : string) :
  noStartIn a x = true -> forall y, In y (tails x) -> startsMatch a y = false.
Proof.
  unfold noStartIn. intros H y Hy. rewrite forallb_forall in H.
  now apply negb_true_iff, H.
Qed.

(** The two rewritings can be done in either order. *)
Lemma scan_commute (n : nat) :
  forall t,
    String.length t <= n ->
    Regexp.scan p r 0 (Regexp.scan q s 0 t) = Regexp.scan q s 0 (Regexp.scan p r 0 t).
Proof.
  destruct (plain_parts p r p_plain) as [Lp [Pp [Cp [Ar Nr]]]].
  destruct (plain_parts q s q_plain) as [Lq [Pq [Cq [As Ns]]]].
  pose proof crossing as X. unfold cross in X.
  apply andb_true_iff in X; destruct X as [X Sp].
  apply andb_true_iff in X; destruct X as [X Sq].
  apply andb_true_iff in X; destruct X as [X Rp].
  apply andb_true_iff in X; destruct X as [X Rq].
  apply andb_true_iff in X; destruct X as [Aq Ap].
  induction n as [|n IH]; intros t Hn.
  - destruct t; [reflexivity | simpl in Hn; lia].
  - destruct t as [|c t]; [reflexivity |].
    destruct (Regexp.matchPrefix p (String c t)) as [u|] eqn:Ep.
    + (* [p] matches here *)
      rewrite (scan_some p r _ u (asciiLed_nonempty p Lp) Ep).
      rewrite (scan_behind q s _ r Ar (noStartIn_spec q r Sq)).
      destruct (scan_through_match q s Lq Pq p _ u Pp Ep (apart_spec q p Aq))
        as [m [Hm Hscan]].
      destruct (match_local p _ u Pp Cp Ep) as [m' [Hm' [_ Hz]]].
      assert (m' = m) by (apply (append_inj_r u); congruence). subst m'.
      rewrite Hscan.
      rewrite (scan_some p r _ _ (asciiLed_nonempty p Lp) (Hz _)).
      f_equal. apply IH.
      destruct (matchPrefix_suffix p _ _ Ep) as [m0 [Hm0 Hne]].
      specialize (Hne (asciiLed_nonempty p Lp)).
      apply (f_equal String.length) in Hm0. rewrite append_length in Hm0.
      destruct m0; [contradiction |]. simpl in *. lia.
    + destruct (Regexp.matchPrefix q (String c t)) as [u|] eqn:Eq.
      * (* [q] matches here *)
        rewrite (scan_some q s _ u (asciiLed_nonempty q Lq) Eq).
        rewrite (scan_behind p r _ s As (noStartIn_spec p s Sp)).
        destruct (scan_through_match p r Lp Pp q _ u Pq Eq (apart_spec p q Ap))
          as [m [Hm Hscan]].
        destruct (match_local q _ u Pq Cq Eq) as [m' [Hm' [_ Hz]]].
        assert (m' = m) by (apply (append_inj_r u); congruence). subst m'.
        rewrite Hscan.
        rewrite (scan_some q s _ _ (asciiLed_nonempty q Lq) (Hz _)).
        f_equal. apply IH.
        destruct (matchPrefix_suffix q _ _ Eq) as [m0 [Hm0 Hne]].
        specialize (Hne (asciiLed_nonempty q Lq)).
        apply (f_equal String.length) in Hm0. rewrite append_length in Hm0.
        destruct m0; [contradiction |]. simpl in *. lia.
      * (* neither matches here *)
        rewrite (scan_none q s _ _ Eq), (scan_none p r _ _ Ep).
        assert (E1 : Regexp.matchPrefix p (String c (Regexp.scan q s 0 t)) = None).
        { destruct (Regexp.matchPrefix p (String c (Regexp.scan q s 0 t))) eqn:E;
            [| reflexivity].
          change (String c (Regexp.scan q s 0 t))
            with (String c "" ++ Regexp.scan q s 0 t) in E.
          apply (reflect_match p q s Lq As Ns Rp (String.length t)) in E;
            [| lia | discriminate].
          destruct E as [rest' E]. simpl in E. congruence. }
        assert (E2 : Regexp.matchPrefix q (String c (Regexp.scan p r 0 t)) = None).
        { destruct (Regexp.matchPrefix q (String c (Regexp.scan p r 0 t))) eqn:E;
            [| reflexivity].
          change (String c (Regexp.scan p r 0 t))
            with (String c "" ++ Regexp.scan p r 0 t) in E.
          apply (reflect_match q p r Lp Ar Nr Rq (String.length t)) in E;
            [| lia | discriminate].
          destruct E as [rest' E]. simpl in E. congruence. }
        rewrite (scan_none p r _ _ E1), (scan_none q s _ _ E2).
        f_equal. apply IH. simpl in Hn. lia.
Qed.

End Commute.

Section RecordOrder.

Lemma rewritten_commute (a b : DocFileInfo) (data : string) :
  unrelated a b = true ->
  rewritten a (rewritten b data) = rewritten b (rewritten a data).
Proof.
  unfold unrelated, rewritten.
  destruct (HtmlReplaceRegex1 a) as [a1|]; [| discriminate].
  destruct (HtmlReplaceRegex2 a) as [a2|]; [| discriminate].
  destruct (HtmlReplaceRegex1 b) as [b1|]; [| discriminate].
  destruct (HtmlReplaceRegex2 b) as [b2|]; [| discriminate].
  set (ra1 := HtmlReplaceWith1 a). set (ra2 := HtmlReplaceWith2 a).
  set (rb1 := HtmlReplaceWith1 b). set (rb2 := HtmlReplaceWith2 b).
  intro H.
  apply andb_true_iff in H; destruct H as [H X22].
  apply andb_true_iff in H; destruct H as [H X21].
  apply andb_true_iff in H; destruct H as [H X12].
  apply andb_true_iff in H; destruct H as [H X11].
  apply andb_true_iff in H; destruct H as [H Pb2].
  apply andb_true_iff in H; destruct H as [H Pb1].
  apply andb_true_iff in H; destruct H as [Pa1 Pa2].
  rewrite (scan_commute a1 b2 ra1 rb2 Pa1 Pb2 X12 _ _ (le_n _)).
  rewrite (scan_commute a2 b2 ra2 rb2 Pa2 Pb2 X22 _ _ (le_n _)).
  rewrite (scan_commute a1 b1 ra1 rb1 Pa1 Pb1 X11 _ _ (le_n _)).
  now rewrite (scan_commute a2 b1 ra2 rb1 Pa2 Pb1 X21 _ _ (le_n _)).
Qed.

Lemma rewrittenBy_perm (infos infos' : list DocFileInfo) :
  Permutation infos infos' ->
  pairwiseUnrelated infos ->
  forall data, rewrittenBy infos data = rewrittenBy infos' data.
Proof.
  unfold pairwiseUnrelated.
  induction 1 as [| x l l' HP IH | x y l | l1 l2 l3 HP1 IH1 HP2 IH2];
    intros Hpair data.
  - reflexivity.
  - unfold rewrittenBy in *. simpl. apply IH.
    intros a b Ha Hb. apply Hpair; now right.
  - unfold rewrittenBy. simpl. f_equal.
    destruct (Hpair x y) as [-> | Hxy]; [right; now left | now left | reflexivity |].
    now apply rewritten_commute.
  - rewrite IH1 by exact Hpair. apply IH2.
    intros a b Ha Hb. apply Hpair; eapply Permutation_in; try eassumption;
      now apply Permutation_sym.
Qed.

Lemma rewriteFiles_records (files : list string) (infos infos' : list DocFileInfo) :
  Forall (fun info => supported info = true) infos ->
  Permutation infos infos' ->
  pairwiseUnrelated infos ->
  forall fs, rewriteFiles files infos fs = rewriteFiles files infos' fs.
Proof.
  intros Hs HP Hpair.
  assert (Hs' : Forall (fun info => supported info = true) infos')
    by (eapply Permutation_Forall; eassumption).
  induction files as [|f files IH]; intro fs; [reflexivity |].
  cbn [rewriteFiles].
  assert (E : rewriteFile f infos fs = rewriteFile f infos' fs).
  { rewrite (rewriteFile_spec f infos Hs), (rewriteFile_spec f infos' Hs').
    destruct infos as [|i l], infos' as [|i' l'].
    - reflexivity.
    - apply Permutation_nil in HP. discriminate.
    - apply Permutation_sym, Permutation_nil in HP. discriminate.
    - destruct (Os.ReadFile f fs); [| reflexivity].
      now rewrite (rewrittenBy_perm _ _ HP Hpair). }
  rewrite E. destruct (rewriteFile f infos' fs); cbn [bind]; auto.
Qed.

End RecordOrder.

(** C5 (as amended). For every list of output files and every list of
    records inside the fragment covered, the result of the link
    rewriting - the content of every file, or the panic on a missing
    file - does not depend on the order in which the files are scanned.
    It does depend on the order of the records: when the rewriting
    succeeds, every output file holds what the records make of its
    content when they are applied one after the other in the order of
    the list, each to what the one before left. *)
Theorem rewriteFiles_file_order :
  forall (files files' : list string) (infos : list DocFileInfo) (fs : FS),
    Forall (fun info => supported info = true) infos ->
    Permutation files files' ->
    rewriteFiles files infos fs = rewriteFiles files' infos fs
    /\ (NoDup files ->
        forall (fs' : FS) (filePath data : string),
          rewriteFiles files' infos fs = Ok fs' ->
          In filePath files ->
          Os.ReadFile filePath fs = Some data ->
          Os.ReadFile filePath fs' = Some (rewrittenBy infos data)).
Proof.
  intros files files' infos fs Hs Hf.
  pose proof (rewriteFiles_files_perm files files' infos fs Hs Hf) as E.
  split; [exact E |].
  intros Hnd fs' filePath data Hrun Hin Hread. rewrite <- E in Hrun.
  exact (rewriteFiles_content infos Hs files fs fs' filePath data Hnd Hrun Hin Hread).
Qed.

Lemma rewriteFiles_file_order_witness :
  rewriteFiles [staticDir ++ "godoc-root.html"; staticDir ++ "godoc.1.html"]
               [apiRecord; indexRecord; subRecord] threePages
  = rewriteFiles [staticDir ++ "godoc.1.html"; staticDir ++ "godoc-root.html"]
                 [apiRecord; indexRecord; subRecord] threePages
  /\ forall fs',
       rewriteFiles [staticDir ++ "godoc.1.html"; staticDir ++ "godoc-root.html"]
                    [apiRecord; indexRecord; subRecord] threePages = Ok fs' ->
       Os.ReadFile (staticDir ++ "godoc-root.html") fs'
       = Some (rewrittenBy [apiRecord; indexRecord; subRecord]
                 (linkTo "api.html" ++ linkTo "index.html" ++ linkTo "sub.html#Types")).
Proof.
  destruct (rewriteFiles_file_order
              [staticDir ++ "godoc-root.html"; staticDir ++ "godoc.1.html"]
              [staticDir ++ "godoc.1.html"; staticDir ++ "godoc-root.html"]
              [apiRecord; indexRecord; subRecord] threePages
              ltac:(repeat constructor) (perm_swap _ _ [])) as [Hfiles Hcontent].
  split; [exact Hfiles |].
  intros fs' Hrun.
  apply (Hcontent ltac:(repeat constructor; simpl; intuition discriminate)
                  fs' _ _ Hrun (or_introl eq_refl) eq_refl).
Defined.

(** C5 (as stated) fails: in the run on a crawl with the pages
    [godoc.3.html] and [m.html] the first is renamed to [godoc.2.html]
    and the second to [godoc.3.html].  Applied in this order, the
    records leave the link of the entry page to [m.html] pointing to
    [godoc.3.html]; applied in the other order they leave it pointing
    to [godoc.2.html], the other page.  No dot is read for another
    character here. *)
Lemma rewriteFile_chained_records :
  exists (runInfo' : RunInfo) (fs' : FS),
    renameOutputFiles runABC pagesChained = Ok (runInfo', fs')
    /\ map (fun info => (OldName info, NewName info)) (RunInfo_DocFileInfo runInfo')
       = [("godoc.3.html", "godoc.2.html"); ("m.html", "godoc.3.html")]
    /\ (exists fs2,
           rewriteFiles (HtmlFiles runInfo') (RunInfo_DocFileInfo runInfo') fs' = Ok fs2
           /\ Os.ReadFile (staticDir ++ "godoc-root.html") fs2
              = Some (linkTo "godoc.3.html" ++ linkTo "godoc.2.html#Index"))
    /\ (exists fs2,
           rewriteFiles (HtmlFiles runInfo') (rev (RunInfo_DocFileInfo runInfo')) fs'
           = Ok fs2
           /\ Os.ReadFile (staticDir ++ "godoc-root.html") fs2
              = Some (linkTo "godoc.2.html" ++ linkTo "godoc.2.html#Index")).
Proof.
  eexists. eexists. split; [vm_compute; reflexivity |].
  split; [vm_compute; reflexivity |].
  split; eexists; split; vm_compute; reflexivity.
Qed.


Lemma threeRecords_unrelated :
  pairwiseUnrelated [apiRecord; indexRecord; subRecord].
Proof.
  intros a b Ha Hb. simpl in Ha, Hb.
  destruct Ha as [<- | [<- | [<- | []]]], Hb as [<- | [<- | [<- | []]]];
    (left; reflexivity) || (right; vm_compute; reflexivity).
Qed.



(** ** The command line *)

Section CommandLine.

Lemma defined_dashed (f : Flag.FlagSet) (name : string) :
  dashed f -> Flag.defined name f = true -> Flag.beginsWithDash name = true.
Proof.
  unfold dashed, Flag.defined. rewrite Forall_forall, existsb_exists.
  intros Hall [e [Hin He]]. apply String.eqb_eq in He. subst name. now apply Hall.
Qed.

(** With names that begin with a dash, no argument is ever taken for one
    of the flags. *)
Lemma parseOne_dashed (f : Flag.FlagSet) (args : list string) :
  dashed f ->
  match args with
  | [] => Flag.parseOne f args = Flag.Done []
  | s :: rest =>
      if flagLike s then exists e, Flag.parseOne f args = Flag.Failed e
      else Flag.parseOne f args = Flag.Done (if s =? "--" then rest else args)
  end.
Proof.
  intro Hf. destruct args as [|s rest]; [reflexivity |].
  unfold flagLike, Flag.parseOne.
  destruct s as [|c0 [|c1 s2]]; [reflexivity | |].
  { simpl. destruct (Ascii.eqb c0 "-"); reflexivity. }
  destruct (Ascii.eqb c0 "-") eqn:E0; simpl.
  2:{ now rewrite E0. }
  apply Ascii.eqb_eq in E0. subst c0.
  destruct (Ascii.eqb c1 "-") eqn:E1; cbn [andb negb orb].
  - apply Ascii.eqb_eq in E1. subst c1.
    destruct (s2 =? "") eqn:E2; simpl.
    + apply String.eqb_eq in E2. subst s2. reflexivity.
    + destruct s2 as [|n0 name']; [discriminate |].
      destruct (Ascii.eqb n0 "-" || Ascii.eqb n0 "=") eqn:En; [eexists; reflexivity |].
      destruct (Flag.cutEq name') as [name'' v].
      destruct (Flag.defined (String n0 name'') f) eqn:Ed.
      * apply (defined_dashed f _ Hf) in Ed. simpl in Ed.
        rewrite Ed in En. discriminate.
      * match goal with
        | |- exists e, (if ?b then _ else _) = _ => destruct b
        end; eexists; reflexivity.
  - rewrite E1. cbn [orb].
    destruct (Ascii.eqb c1 "=") eqn:En; [eexists; reflexivity |].
    destruct (Flag.cutEq s2) as [name'' v].
    destruct (Flag.defined (String c1 name'') f) eqn:Ed.
    + apply (defined_dashed f _ Hf) in Ed. simpl in Ed. congruence.
    + match goal with
      | |- exists e, (if ?b then _ else _) = _ => destruct b
      end; eexists; reflexivity.
Qed.

End CommandLine.

Lemma Parse_dashed (f : Flag.FlagSet) (args : list string) :
  dashed f ->
  match args with
  | [] => Flag.Parse f args = Some (inr (f, []))
  | s :: rest =>
      if flagLike s then exists e, Flag.Parse f args = Some (inl e)
      else Flag.Parse f args = Some (inr (f, if s =? "--" then rest else args))
  end.
Proof.
  intro Hf. pose proof (parseOne_dashed f args Hf) as H.
  unfold Flag.Parse. cbn [Flag.parseLoop].
  destruct args as [|s rest]; [now rewrite H |].
  destruct (flagLike s).
  - destruct H as [e ->]. now exists e.
  - now rewrite H.
Qed.

Lemma parseCmdArgs_outcome (checked : bool) (args : list string) :
  exists r,
    parseCmdArgs checked args = Some r
    /\ match r with
       | inr cliArgs =>
           cliArgs = defaultCliArgs /\ checked = false
           /\ match args with
              | s :: _ => flagLike s = false
              | [] => True
              end
       | inl _ =>
           checked = true
           \/ exists s rest, args = s :: rest /\ flagLike s = true
       end.
Proof.
  unfold parseCmdArgs. destruct checked.
  - eexists. split; [reflexivity |]. now left.
  - cbn [Flag.String_ andb Flag.defined existsb app fst String.eqb Ascii.eqb
         Bool.eqb orb].
    match goal with
    | |- context [Flag.Parse ?f args] =>
        pose proof (Parse_dashed f args) as H
    end.
    assert (Hd : dashed [("--build-path", "zdocs/source/_static");
                         ("--godoc-host", "localhost:6161");
                         ("--html-file-name", "godoc")])
      by (repeat constructor).
    specialize (H Hd). destruct args as [|s rest].
    + rewrite H. eexists. split; [reflexivity |]. repeat split.
    + destruct (flagLike s) eqn:Ef.
      * destruct H as [e ->]. eexists. split; [reflexivity |].
        right. now exists s, rest.
      * rewrite H. eexists. split; [reflexivity |]. repeat split.
Qed.

(** No command line sets the build path, the host or the base name of
    the files: the three flags are defined under names that begin with
    two dashes, which no argument can spell.  The program ends in the
    flag package - always, when it is built with a release that checks
    the names of flags, and otherwise whenever the first argument looks
    like a flag - or it goes on with the three defaults. *)
Theorem parseCmdArgs_flags_never_set :
  forall (checked : bool) (args : list string),
    ((exists e, parseCmdArgs checked args = Some (inl e))
     \/ parseCmdArgs checked args = Some (inr defaultCliArgs))
    /\ (parseCmdArgs checked args = Some (inr defaultCliArgs) <->
        checked = false
        /\ match args with
           | s :: _ => flagLike s = false
           | [] => True
           end).
Proof.
  intros checked args.
  destruct (parseCmdArgs_outcome checked args) as [[e|cliArgs] [Hrun H]].
  - split; [left; now exists e |]. rewrite Hrun. split; [discriminate |].
    intros [Hc Ha]. destruct H as [H | [s [rest [-> H]]]]; congruence.
  - destruct H as [-> [Hc Ha]]. split; [now right |]. now rewrite Hrun.
Qed.

(** The settings of a run always carry the defaults of the three
    flags: whatever [applyCliArgs] finds in them, the host that
    [getEnvSettings] wrote included, is replaced by the default, and
    the other fields stay. *)
Theorem applyCliArgs_defaults :
  forall (checked : bool) (args : list string) (cliArgs : CliArgs)
         (settings : Settings),
    parseCmdArgs checked args = Some (inr cliArgs) ->
    applyCliArgs settings cliArgs
    = {| GoRootPath := GoRootPath settings;
         GoPath := GoPath settings;
         GoModPath := GoModPath settings;
         ModName := ModName settings;
         ModuleRootPath := ModuleRootPath settings;
         ServerHost := "localhost:6161";
         BuildDir := "zdocs/source/_static";
         HTMLBaseName := "godoc" |}.
Proof.
  intros checked args cliArgs settings Hrun.
  destruct (parseCmdArgs_outcome checked args) as [r [Hr H]].
  rewrite Hrun in Hr. injection Hr as <-. destruct H as [-> _]. reflexivity.
Qed.

Lemma applyCliArgs_defaults_witness :
  applyCliArgs (withModName (exampleSettings "") "example.com/kit") defaultCliArgs
  = {| GoRootPath := GoRootPath (withModName (exampleSettings "") "example.com/kit");
       GoPath := GoPath (withModName (exampleSettings "") "example.com/kit");
       GoModPath := GoModPath (withModName (exampleSettings "") "example.com/kit");
       ModName := ModName (withModName (exampleSettings "") "example.com/kit");
       ModuleRootPath :=
         ModuleRootPath (withModName (exampleSettings "") "example.com/kit");
       ServerHost := "localhost:6161";
       BuildDir := "zdocs/source/_static";
       HTMLBaseName := "godoc" |}.
Proof.
  exact (applyCliArgs_defaults false ["docs"; "--build-path"; "out"] defaultCliArgs
           (withModName (exampleSettings "") "example.com/kit") eq_refl).
Defined.

(** The flag spelled with two dashes, then as the help text prints
    it, with three; and a release that checks the names of flags. *)
Example parseCmdArgs_build_path :
  parseCmdArgs false ["--build-path"; "out"]
  = Some (inl (FlagError (Flag.NotDefined "build-path")))
  /\ parseCmdArgs false ["---build-path=out"]
     = Some (inl (FlagError (Flag.BadSyntax "---build-path=out")))
  /\ parseCmdArgs true []
     = Some (inl (FlagError (Flag.BadName "--build-path"))).
Proof. repeat split. Qed.

(** ** The module name *)

Section ModuleName.

Lemma run_exact (space : bool) (r rest : string) :
  inClass space r = true ->
  match rest with
  | EmptyString => True
  | String c _ => ModNameRegex.isSpace c = negb space
  end ->
  ModNameRegex.run space (r ++ rest) = (r, rest).
Proof.
  intros Hr Hrest. induction r as [|c r IH]; simpl in *.
  - destruct rest as [|c rest]; [reflexivity |].
    simpl. rewrite Hrest. now destruct space.
  - apply andb_true_iff in Hr. destruct Hr as [Hc Hr].
    rewrite Hc, (IH Hr). reflexivity.
Qed.

Lemma run_sound (space : bool) (s : string) :
  forall r rest,
    ModNameRegex.run space s = (r, rest) ->
    s = r ++ rest /\ inClass space r = true
    /\ match rest with
       | EmptyString => True
       | String c _ => ModNameRegex.isSpace c = negb space
       end.
Proof.
  induction s as [|c s IH]; intros r rest H; simpl in H.
  - injection H as <- <-. repeat split.
  - destruct (Bool.eqb (ModNameRegex.isSpace c) space) eqn:Ec.
    + destruct (ModNameRegex.run space s) as [r' rest'].
      injection H as <- <-. destruct (IH r' rest' eq_refl) as [-> [Hr Hrest]].
      simpl. rewrite Ec, Hr. repeat split. exact Hrest.
    + injection H as <- <-. repeat split.
      destruct (ModNameRegex.isSpace c), space; simpl in *; congruence.
Qed.

Lemma agrees_CutPrefix (t w z : string) :
  agrees t w = false -> GoStrings.CutPrefix (t ++ z) w = None.
Proof.
  revert t. induction w as [|b w IH]; intros t H.
  - destruct t; discriminate.
  - destruct t as [|a t]; [discriminate |]. simpl in *.
    destruct (Ascii.eqb a b); [now apply IH | reflexivity].
Qed.

Lemma matchHere_directive (spaces modName rest : string) :
  spaces <> "" -> inClass true spaces = true ->
  modName <> "" -> inClass false modName = true ->
  wordEnds rest = true ->
  ModNameRegex.matchHere ("module" ++ spaces ++ modName ++ rest) = Some modName.
Proof.
  intros Hs1 Hs2 Hm1 Hm2 Hrest. unfold ModNameRegex.matchHere.
  rewrite CutPrefix_append.
  rewrite (run_exact true spaces (modName ++ rest) Hs2).
  - destruct spaces as [|c spaces]; [contradiction |].
    change (String c spaces =? "") with false. cbv iota.
    rewrite (run_exact false modName rest Hm2).
    + destruct modName; [contradiction | reflexivity].
    + destruct rest as [|c' rest]; [exact I | exact Hrest].
  - destruct modName as [|c modName]; [contradiction |]. simpl in *.
    apply andb_true_iff in Hm2. destruct Hm2 as [Hc _].
    now destruct (ModNameRegex.isSpace c).
Qed.

Lemma matchHere_sound (s modName : string) :
  ModNameRegex.matchHere s = Some modName ->
  exists spaces rest,
    s = "module" ++ spaces ++ modName ++ rest
    /\ spaces <> "" /\ inClass true spaces = true
    /\ modName <> "" /\ inClass false modName = true
    /\ wordEnds rest = true.
Proof.
  unfold ModNameRegex.matchHere.
  destruct (GoStrings.CutPrefix s "module") as [rest0|] eqn:Ecut; [| discriminate].
  apply CutPrefix_Some in Ecut. subst s.
  destruct (ModNameRegex.run true rest0) as [spaces rest1] eqn:E1.
  destruct (spaces =? "") eqn:Es; [discriminate |].
  destruct (ModNameRegex.run false rest1) as [name rest2] eqn:E2.
  destruct (name =? "") eqn:En; [discriminate |].
  intros [= <-].
  destruct (run_sound _ _ _ _ E1) as [-> [Hs _]].
  destruct (run_sound _ _ _ _ E2) as [-> [Hn Hrest]].
  exists spaces, rest2. split; [reflexivity |].
  apply String.eqb_neq in Es, En. repeat split; try assumption.
  destruct rest2 as [|c rest2]; [reflexivity | exact Hrest].
Qed.

Lemma FindSubmatch_skips (pre s : string) :
  noModuleIn pre = true ->
  ModNameRegex.FindSubmatch (pre ++ s) = ModNameRegex.FindSubmatch s.
Proof.
  unfold noModuleIn. induction pre as [|c pre IH]; [reflexivity |].
  cbn [tails forallb]. intro H. apply andb_true_iff in H. destruct H as [Hc H].
  apply negb_true_iff in Hc.
  cbn [append ModNameRegex.FindSubmatch].
  assert (E : ModNameRegex.matchHere (String c (pre ++ s)) = None).
  { unfold ModNameRegex.matchHere.
    change (String c (pre ++ s)) with (String c pre ++ s).
    now rewrite (agrees_CutPrefix _ _ _ Hc). }
  rewrite E. now apply IH.
Qed.

Lemma FindSubmatch_sound (s modName : string) :
  ModNameRegex.FindSubmatch s = Some modName ->
  exists pre m, s = pre ++ m /\ ModNameRegex.matchHere m = Some modName.
Proof.
  induction s as [|c s IH]; cbn [ModNameRegex.FindSubmatch].
  - destruct (ModNameRegex.matchHere "") eqn:E; [| discriminate].
    intros [= ->]. now exists "", "".
  - destruct (ModNameRegex.matchHere (String c s)) eqn:E.
    + intros [= ->]. now exists "", (String c s).
    + intro H. destruct (IH H) as [pre [m [-> Hm]]].
      now exists (String c pre), m.
Qed.

End ModuleName.

(** The module name is read off the first place in [go.mod] where the
    word [module], white space and a name follow one another. *)
Theorem getGoModName_directive :
  forall (settings : Settings) (fs : FS) (pre spaces modName rest : string),
    Os.ReadFile (GoModPath settings) fs
      = Some (pre ++ "module" ++ spaces ++ modName ++ rest) ->
    noModuleIn pre = true ->
    spaces <> "" -> inClass true spaces = true ->
    modName <> "" -> inClass false modName = true ->
    wordEnds rest = true ->
    getGoModName settings fs = inr (withModName settings modName).
Proof.
  intros settings fs pre spaces modName rest Hread Hpre Hs1 Hs2 Hm1 Hm2 Hrest.
  unfold getGoModName. rewrite Hread, (FindSubmatch_skips _ _ Hpre).
  assert (E : ModNameRegex.FindSubmatch ("module" ++ spaces ++ modName ++ rest)
              = Some modName).
  { pose proof (matchHere_directive spaces modName rest Hs1 Hs2 Hm1 Hm2 Hrest) as E.
    cbn [append ModNameRegex.FindSubmatch] in *. now rewrite E. }
  now rewrite E.
Qed.

Lemma getGoModName_directive_witness :
  getGoModName (exampleSettings "") [("/home/dev/pkg/go.mod", goModExample)]
  = inr (withModName (exampleSettings "") "example.com/kit/v2").
Proof.
  exact (getGoModName_directive (exampleSettings "")
           [("/home/dev/pkg/go.mod", goModExample)]
           ("// docs" ++ newline) " " "example.com/kit/v2"
           (newline ++ newline ++ "go 1.13" ++ newline)
           eq_refl eq_refl ltac:(discriminate) eq_refl ltac:(discriminate)
           eq_refl eq_refl).
Defined.

(** A module name that [getGoModName] hands over is never empty and
    holds no white space; it stands in [go.mod] behind the word
    [module] and white space, and ends where the text or the white
    space after it begins.  Nothing else of the settings changes. *)
Theorem getGoModName_sound :
  forall (settings settings' : Settings) (fs : FS),
    getGoModName settings fs = inr settings' ->
    settings' = withModName settings (ModName settings')
    /\ ModName settings' <> ""
    /\ inClass false (ModName settings') = true
    /\ exists pre spaces rest,
         Os.ReadFile (GoModPath settings) fs
         = Some (pre ++ "module" ++ spaces ++ ModName settings' ++ rest)
         /\ spaces <> "" /\ inClass true spaces = true
         /\ wordEnds rest = true.
Proof.
  intros settings settings' fs. unfold getGoModName.
  destruct (Os.ReadFile (GoModPath settings) fs) as [content|]; [| discriminate].
  destruct (ModNameRegex.FindSubmatch content) as [modName|] eqn:E; [| discriminate].
  intros [= <-]. cbn [ModName withModName].
  destruct (FindSubmatch_sound _ _ E) as [pre [m [-> Hm]]].
  destruct (matchHere_sound _ _ Hm) as [spaces [rest [-> [Hs1 [Hs2 [Hm1 [Hm2 Hrest]]]]]]].
  split; [reflexivity |]. split; [exact Hm1 |]. split; [exact Hm2 |].
  exists pre, spaces, rest. repeat split; assumption.
Qed.

Lemma getGoModName_sound_witness :
  withModName (exampleSettings "") "example.com/kit/v2"
  = withModName (exampleSettings "")
                (ModName (withModName (exampleSettings "") "example.com/kit/v2"))
  /\ ModName (withModName (exampleSettings "") "example.com/kit/v2") <> ""
  /\ inClass false (ModName (withModName (exampleSettings "") "example.com/kit/v2"))
     = true
  /\ exists pre spaces rest,
       Os.ReadFile (GoModPath (exampleSettings ""))
                   [("/home/dev/pkg/go.mod", goModExample)]
       = Some (pre ++ "module" ++ spaces
               ++ ModName (withModName (exampleSettings "") "example.com/kit/v2")
               ++ rest)
       /\ spaces <> "" /\ inClass true spaces = true
       /\ wordEnds rest = true.
Proof.
  exact (getGoModName_sound (exampleSettings "")
           (withModName (exampleSettings "") "example.com/kit/v2")
           [("/home/dev/pkg/go.mod", goModExample)] eq_refl).
Defined.

(** The expression is not tied to the start of a line: the word in a
    comment is taken for the directive. *)
Example getGoModName_in_comment :
  getGoModName (exampleSettings "")
    [("/home/dev/pkg/go.mod",
      "// the module of the kit" ++ newline ++ "module example.com/kit" ++ newline)]
  = inr (withModName (exampleSettings "") "of").
Proof. vm_compute. reflexivity. Qed.

(** ** The build directory *)

Section Directories.

Lemma createBuildDir_first_empty (rest : list string) (dirs : list string) (fs : FS) :
  createLoop ("" :: rest) "" dirs fs = BuildPanic "" Os.ENOENT.
Proof. reflexivity. Qed.

Lemma isDir_In (path : string) (dirs : list string) :
  Os.isDir path dirs = true <-> In path dirs.
Proof.
  unfold Os.isDir. rewrite existsb_exists. split.
  - intros [d [Hin E]]. apply String.eqb_eq in E. now subst.
  - intro H. exists path. split; [exact H | apply String.eqb_refl].
Qed.

Lemma plainSegment_spec (seg : string) :
  plainSegment seg = true ->
  seg <> "" /\ GoStrings.ContainsSlash seg = false /\ seg <> "." /\ seg <> "..".
Proof.
  unfold plainSegment. intro H.
  apply andb_true_iff in H; destruct H as [H H4].
  apply andb_true_iff in H; destruct H as [H H3].
  apply andb_true_iff in H; destruct H as [H1 H2].
  apply negb_true_iff in H1, H2, H3, H4.
  apply String.eqb_neq in H1, H3, H4. tauto.
Qed.

Lemma standsAt_under (at_ seg : string) (done : list string) :
  standsAt at_ done -> plainSegment seg = true ->
  standsAt (Os.under at_ seg) (done ++ [seg])%list.
Proof.
  intros H Hseg. destruct (plainSegment_spec seg Hseg) as [Hne [Hflat _]].
  right. unfold Os.under. destruct H as [[-> ->] | [Hd [Hat [Hsplit Hplain]]]].
  - simpl. repeat split; try assumption; try discriminate.
    + now apply Split_no_slash.
    + now rewrite Hseg.
  - destruct (at_ =? "") eqn:E; [apply String.eqb_eq in E; contradiction |].
    repeat split.
    + intro H. now apply app_eq_nil in H.
    + destruct at_; [contradiction | discriminate].
    + now rewrite Split_join, Hsplit, (Split_no_slash seg Hflat).
    + rewrite forallb_app, Hplain. simpl. now rewrite Hseg.
Qed.

Lemma under_fold (done : list string) :
  forall at_ seg,
    fold_left Os.under (done ++ [seg])%list at_ = Os.under (fold_left Os.under done at_) seg.
Proof. intros. now rewrite fold_left_app. Qed.

Lemma walk_down (slash : bool) (dirs : list string) (fs : FS) (done : list string) :
  forall at_ seg later,
    (forall p, In p (prefixesFrom at_ done) -> In p dirs) ->
    Os.walk slash at_ (done ++ seg :: later)%list dirs fs
    = Os.walk slash (fold_left Os.under done at_) (seg :: later) dirs fs.
Proof.
  induction done as [|d done IH]; intros at_ seg later H; [reflexivity |].
  cbn [app Os.walk fold_left].
  assert (Hd : Os.isDir (Os.under at_ d) dirs = true).
  { apply isDir_In. apply H. now left. }
  rewrite Hd.
  destruct (done ++ seg :: later)%list eqn:E; [now destruct done |].
  rewrite <- E. apply IH. intros p Hp. apply H. now right.
Qed.

Lemma filter_plain (segs : list string) :
  forallb plainSegment segs = true ->
  filter (fun seg => negb (seg =? "")) segs = segs
  /\ existsb (fun seg => (seg =? ".") || (seg =? "..")) segs = false.
Proof.
  induction segs as [|s segs IH]; simpl; [now split |].
  intro H. apply andb_true_iff in H. destruct H as [Hs H].
  destruct (IH H) as [-> ->].
  destruct (plainSegment_spec s Hs) as [H1 [_ [H3 H4]]].
  apply String.eqb_neq in H1, H3, H4. now rewrite H1, H3, H4.
Qed.

(** [os.Mkdir] on the next directory of the way, those before it being
    there. *)
Lemma Mkdir_next (at_ seg : string) (done dirs : list string) (fs : FS) :
  standsAt at_ done -> plainSegment seg = true ->
  at_ = fold_left Os.under done "" ->
  (forall p, In p (prefixesFrom "" done) -> In p dirs) ->
  Os.Mkdir (Os.under at_ seg) dirs fs
  = if Os.isDir (Os.under at_ seg) dirs then Os.Errno Os.EEXIST
    else if Os.exists_ (Os.under at_ seg) fs then Os.Errno Os.EEXIST
    else Os.Made (dirs ++ [Os.under at_ seg])%list.
Proof.
  intros Hat Hseg Hfold Hdirs.
  destruct (standsAt_under at_ seg done Hat Hseg)
    as [[H _] | [Hne [Hname [Hsplit Hplain]]]]; [now apply app_eq_nil in H |].
  unfold Os.Mkdir.
  destruct (Os.under at_ seg =? "") eqn:E; [apply String.eqb_eq in E; contradiction |].
  rewrite Hsplit. destruct (filter_plain _ Hplain) as [-> ->].
  assert (Hhd : (hd "" (done ++ [seg])%list =? "") = false).
  { apply String.eqb_neq. rewrite forallb_forall in Hplain.
    destruct (done ++ [seg])%list as [|h l] eqn:El; [contradiction |]. simpl.
    apply (plainSegment_spec h). apply Hplain. now left. }
  rewrite Hhd. cbn [orb].
  assert (Hlast : (last (done ++ [seg])%list "" =? "") = false).
  { rewrite last_app_nonempty by discriminate. simpl.
    apply String.eqb_neq. apply (plainSegment_spec seg Hseg). }
  rewrite Hlast, (walk_down false dirs fs done "" seg [] Hdirs), <- Hfold.
  reflexivity.
Qed.

Lemma TrimPrefix_under (at_ seg : string) (done : list string) :
  standsAt at_ done ->
  GoStrings.TrimPrefix (at_ ++ "/" ++ seg) "/" = Os.under at_ seg.
Proof.
  unfold Os.under, GoStrings.TrimPrefix.
  intros [[_ ->] | [Hne [Hat [Hsplit Hplain]]]]; [reflexivity |].
  destruct (at_ =? "") eqn:E; [apply String.eqb_eq in E; contradiction |].
  destruct at_ as [|c at_]; [contradiction |]. simpl.
  destruct (Ascii.eqb c "/") eqn:Ec; [| reflexivity].
  exfalso. simpl in Hsplit. rewrite Ec in Hsplit. subst done.
  simpl in Hplain. discriminate.
Qed.

Lemma prefixesFrom_app (l1 l2 : list string) :
  forall at_,
    prefixesFrom at_ (l1 ++ l2)%list
    = (prefixesFrom at_ l1 ++ prefixesFrom (fold_left Os.under l1 at_) l2)%list.
Proof.
  induction l1 as [|s l1 IH]; intro at_; simpl; [reflexivity | now rewrite IH].
Qed.

(** The loop from a directory of the way on. *)
Lemma createLoop_plain (fs : FS) (segs : list string) :
  forall (done dirs : list string) (at_ : string),
    standsAt at_ done -> at_ = fold_left Os.under done "" ->
    forallb plainSegment segs = true ->
    (forall p, In p (prefixesFrom "" done) -> In p dirs) ->
    (forall p, In p (prefixesFrom at_ segs) -> Os.exists_ p fs = false) ->
    exists dirs',
      createLoop segs at_ dirs fs = Built dirs'
      /\ (forall p, In p dirs' <-> In p dirs \/ In p (prefixesFrom at_ segs)).
Proof.
  induction segs as [|seg segs IH]; intros done dirs at_ Hat Hfold Hplain Hdirs Hfs.
  - exists dirs. split; [reflexivity |]. simpl. tauto.
  - simpl in Hplain. apply andb_true_iff in Hplain. destruct Hplain as [Hseg Hplain].
    cbn [createLoop prefixesFrom].
    rewrite (TrimPrefix_under at_ seg done Hat).
    rewrite (Mkdir_next at_ seg done dirs fs Hat Hseg Hfold Hdirs).
    assert (Hnext : Os.under at_ seg = fold_left Os.under (done ++ [seg])%list "").
    { now rewrite under_fold, <- Hfold. }
    destruct (Os.isDir (Os.under at_ seg) dirs) eqn:Ed.
    + destruct (IH (done ++ [seg])%list dirs (Os.under at_ seg)) as [dirs' [Hrun Hin]].
      * now apply standsAt_under.
      * exact Hnext.
      * exact Hplain.
      * intros p Hp. rewrite prefixesFrom_app in Hp. apply in_app_or in Hp.
        destruct Hp as [Hp | Hp]; [now apply Hdirs |].
        simpl in Hp. destruct Hp as [<- | []]. rewrite <- Hfold. now apply isDir_In.
      * intros p Hp. apply Hfs. now right.
      * exists dirs'. split; [exact Hrun |]. intro p. rewrite Hin. simpl.
        apply isDir_In in Ed. split; [tauto |].
        intros [H | [<- | H]]; tauto.
    + rewrite (Hfs (Os.under at_ seg)) by now left.
      destruct (IH (done ++ [seg])%list (dirs ++ [Os.under at_ seg])%list (Os.under at_ seg))
        as [dirs' [Hrun Hin]].
      * now apply standsAt_under.
      * exact Hnext.
      * exact Hplain.
      * intros p Hp. apply in_or_app. rewrite prefixesFrom_app in Hp.
        apply in_app_or in Hp.
        destruct Hp as [Hp | Hp]; [left; now apply Hdirs |].
        simpl in Hp. destruct Hp as [<- | []]. right. rewrite <- Hfold. now left.
      * intros p Hp. apply Hfs. now right.
      * exists dirs'. split; [exact Hrun |]. intro p. rewrite Hin, in_app_iff.
        simpl. tauto.
Qed.

(** When the directories of the way are there already, the loop changes
    nothing. *)
Lemma createLoop_again (fs : FS) (segs : list string) :
  forall (done dirs : list string) (at_ : string),
    standsAt at_ done -> at_ = fold_left Os.under done "" ->
    forallb plainSegment segs = true ->
    (forall p, In p (prefixesFrom "" done) -> In p dirs) ->
    (forall p, In p (prefixesFrom at_ segs) -> In p dirs) ->
    createLoop segs at_ dirs fs = Built dirs.
Proof.
  induction segs as [|seg segs IH]; intros done dirs at_ Hat Hfold Hplain Hdirs Hsegs.
  - reflexivity.
  - simpl in Hplain. apply andb_true_iff in Hplain. destruct Hplain as [Hseg Hplain].
    cbn [createLoop prefixesFrom].
    rewrite (TrimPrefix_under at_ seg done Hat).
    rewrite (Mkdir_next at_ seg done dirs fs Hat Hseg Hfold Hdirs).
    assert (Ed : Os.isDir (Os.under at_ seg) dirs = true).
    { apply isDir_In. apply Hsegs. now left. }
    rewrite Ed. apply (IH (done ++ [seg])%list).
    + now apply standsAt_under.
    + now rewrite under_fold, <- Hfold.
    + exact Hplain.
    + intros p Hp. rewrite prefixesFrom_app in Hp. apply in_app_or in Hp.
      destruct Hp as [Hp | Hp]; [now apply Hdirs |].
      simpl in Hp. destruct Hp as [<- | []]. rewrite <- Hfold. now apply isDir_In.
    + intros p Hp. apply Hsegs. now right.
Qed.

Lemma Split_joinPath (segs : list string) :
  segs <> [] -> forallb plainSegment segs = true ->
  GoStrings.Split (joinPath segs) = segs.
Proof.
  intros Hne Hplain. unfold joinPath.
  assert (H : forall l done at_,
             standsAt at_ done -> forallb plainSegment l = true ->
             standsAt (fold_left Os.under l at_) (done ++ l)%list).
  { induction l as [|s l IH]; intros done at_ Hat Hl.
    - now rewrite app_nil_r.
    - simpl in Hl. apply andb_true_iff in Hl. destruct Hl as [Hs Hl]. simpl.
      replace (done ++ s :: l)%list with ((done ++ [s]) ++ l)%list by now rewrite <- app_assoc.
      apply IH; [now apply standsAt_under | exact Hl]. }
  destruct (H segs [] "" (or_introl (conj eq_refl eq_refl)) Hplain)
    as [[E _] | [_ [_ [E _]]]]; [contradiction | exact E].
Qed.

End Directories.

(** A build path that is empty or starts at the root makes
    [createBuildDir] panic at its first directory, whatever is on the
    disk: the name it asks [os.Mkdir] for is the empty one. *)
Theorem createBuildDir_rooted_panics :
  forall (path : string) (dirs : list string) (fs : FS),
    path = "" \/ (exists rest, path = "/" ++ rest) ->
    createBuildDir path dirs fs = BuildPanic "" Os.ENOENT.
Proof.
  intros path dirs fs [-> | [rest ->]]; reflexivity.
Qed.

Lemma createBuildDir_rooted_panics_witness :
  createBuildDir "/var/www/docs" ["var"; "var/www"] [] = BuildPanic "" Os.ENOENT.
Proof.
  exact (createBuildDir_rooted_panics "/var/www/docs" ["var"; "var/www"] []
           (or_intror (ex_intro _ "var/www/docs" eq_refl))).
Defined.

(** For a build path of plain segments with no regular file on its way,
    [createBuildDir] makes the directories of the way that are missing,
    the build directory the last of them, keeps those that are there,
    adds nothing else, and changes nothing when it is run again. *)
Theorem createBuildDir_makes_path :
  forall (segs dirs : list string) (fs : FS),
    segs <> [] ->
    forallb plainSegment segs = true ->
    (forall p, In p (prefixesFrom "" segs) -> Os.exists_ p fs = false) ->
    exists dirs',
      createBuildDir (joinPath segs) dirs fs = Built dirs'
      /\ In (joinPath segs) dirs'
      /\ (forall p, In p dirs' <-> In p dirs \/ In p (prefixesFrom "" segs))
      /\ createBuildDir (joinPath segs) dirs' fs = Built dirs'.
Proof.
  intros segs dirs fs Hne Hplain Hfs. unfold createBuildDir.
  rewrite (Split_joinPath segs Hne Hplain).
  destruct (createLoop_plain fs segs [] dirs "" (or_introl (conj eq_refl eq_refl))
              eq_refl Hplain (fun p (H : In p []) => match H with end) Hfs)
    as [dirs' [Hrun Hin]].
  exists dirs'. split; [exact Hrun |]. split; [| split; [exact Hin |]].
  - apply Hin. right. clear -Hne. unfold joinPath. generalize "".
    induction segs as [|s segs IH]; [contradiction |]. intro at_. simpl.
    destruct segs as [|s2 segs]; [now left |]. right. now apply IH.
  - apply (createLoop_again fs segs [] dirs' "" (or_introl (conj eq_refl eq_refl))
             eq_refl Hplain (fun p (H : In p []) => match H with end)).
    intros p Hp. apply Hin. now right.
Qed.

Lemma createBuildDir_makes_path_witness :
  exists dirs',
    createBuildDir (joinPath ["zdocs"; "source"; "_static"]) ["zdocs"] [] = Built dirs'
    /\ In (joinPath ["zdocs"; "source"; "_static"]) dirs'
    /\ (forall p, In p dirs' <->
                  In p ["zdocs"] \/ In p (prefixesFrom "" ["zdocs"; "source"; "_static"]))
    /\ createBuildDir (joinPath ["zdocs"; "source"; "_static"]) dirs' [] = Built dirs'.
Proof.
  exact (createBuildDir_makes_path ["zdocs"; "source"; "_static"] ["zdocs"] []
           ltac:(discriminate) eq_refl (fun p _ => eq_refl)).
Defined.

Section Outside.

Lemma ReadFile_cleared_other (dir path : string) (fs : FS) :
  path <> dir -> GoStrings.CutPrefix path (dir ++ "/") = None ->
  Os.ReadFile path (cleared dir fs) = Os.ReadFile path fs.
Proof.
  intros Hne Hout. unfold cleared, Os.below.
  induction fs as [|[p d] fs IH]; [reflexivity |]. cbn [filter fst Os.ReadFile].
  destruct (p =? path) eqn:Ep.
  - apply String.eqb_eq in Ep. subst p. rewrite Hout.
    destruct (path =? dir) eqn:Ed; [apply String.eqb_eq in Ed; contradiction |].
    cbn [orb negb Os.ReadFile]. now rewrite String.eqb_refl.
  - destruct (negb _); [| exact IH]. cbn [Os.ReadFile]. now rewrite Ep.
Qed.

End Outside.

(** [setupBuildDir] keeps its hands off everything that is not the
    build directory or below it: what it returns reads there as what it
    was given. *)
Theorem setupBuildDir_outside :
  forall (w : World) (settings : Settings) (dirs0 dirs : list string)
         (fs0 fs : FS) (path : string),
    setupBuildDir w settings dirs0 fs0 = Ok (dirs, fs) ->
    path <> BuildDir settings ->
    GoStrings.CutPrefix path (BuildDir settings ++ "/") = None ->
    Os.ReadFile path fs = Os.ReadFile path fs0.
Proof.
  intros w settings dirs0 dirs fs0 fs path Hsetup Hne Hout.
  apply setupBuildDir_Ok in Hsetup. destruct Hsetup as [_ [_ [_ ->]]].
  unfold Os.Create, indexPath. rewrite ReadFile_WriteFile_other.
  - now apply ReadFile_cleared_other.
  - intros ->. pose proof (CutPrefix_join (BuildDir settings) "index.html") as C.
    simpl in C. congruence.
Qed.

Lemma setupBuildDir_outside_witness :
  exists (dirs : list string) (fs : FS),
    setupBuildDir crawlWorld (exampleSettings "a/b/c") ["zdocs"]
      [("go.mod", "module a/b/c"); ("zdocs/source/_static/old.html", "")]
    = Ok (dirs, fs)
    /\ Os.ReadFile "zdocs/source/_static/old.html" fs = None
    /\ Os.ReadFile "go.mod" fs
       = Os.ReadFile "go.mod"
           [("go.mod", "module a/b/c"); ("zdocs/source/_static/old.html", "")].
Proof.
  eexists. eexists. split; [reflexivity |]. split; [reflexivity |].
  exact (setupBuildDir_outside crawlWorld (exampleSettings "a/b/c") ["zdocs"] _
           [("go.mod", "module a/b/c"); ("zdocs/source/_static/old.html", "")] _
           "go.mod" eq_refl ltac:(discriminate) eq_refl).
Defined.

(** ** No page is lost *)

Section Pages.

Variable settings : Settings.
Variable entryPoint : string.

Lemma renameLoop_settings (matches : list string) :
  forall i runInfo fs runInfo' fs',
    renameLoop entryPoint i matches runInfo fs = Ok (runInfo', fs') ->
    RunInfo_Settings runInfo' = RunInfo_Settings runInfo.
Proof.
  induction matches as [|old matches IH]; intros i runInfo fs runInfo' fs' H; simpl in H.
  - now injection H as <- _.
  - destruct (old =? entryPoint); [now apply (IH _ _ _ _ _ H) |].
    destruct (Os.Rename old _ fs) as [fs1|]; [| discriminate].
    now rewrite (IH _ _ _ _ _ H).
Qed.

(** The loop moves the content of every page it renames to the
    numbered path of its position, provided no numbered path is among
    the paths still to be renamed. *)
Lemma renameLoop_contents (matches : list string) :
  forall i runInfo fs runInfo' fs',
    RunInfo_Settings runInfo = settings ->
    renameLoop entryPoint i matches runInfo fs = Ok (runInfo', fs') ->
    NoDup matches ->
    (forall k, ~ In (numberedPath settings (i + k)) matches) ->
    (forall k old, nth_error matches k = Some old -> old <> entryPoint ->
                   Os.ReadFile (numberedPath settings (i + k)) fs' = Os.ReadFile old fs)
    /\ (forall old, In old matches -> old <> entryPoint -> Os.ReadFile old fs' = None)
    /\ (forall p, ~ In p matches \/ p = entryPoint ->
                  (forall k, p <> numberedPath settings (i + k)) ->
                  Os.ReadFile p fs' = Os.ReadFile p fs).
Proof.
  induction matches as [|old matches IH];
    intros i runInfo fs runInfo' fs' Hset Hrun Hnd Htargets.
  - simpl in Hrun. injection Hrun as _ <-. repeat split.
    + intros [|k] old H; discriminate.
    + intros old [].
  - apply NoDup_cons_iff in Hnd. destruct Hnd as [Hnin Hnd2].
    assert (Htargets' : forall k, ~ In (numberedPath settings (S i + k)) matches).
    { intros k H. apply (Htargets (S k)). right.
      now replace (i + S k) with (S i + k) by lia. }
    cbn [renameLoop] in Hrun. destruct (old =? entryPoint) eqn:Eold.
    + apply String.eqb_eq in Eold. subst old.
      destruct (IH (S i) runInfo fs runInfo' fs' Hset Hrun Hnd2 Htargets')
        as [Ha [Hb Hc]].
      split; [| split].
      * intros [|k] old H Hne; simpl in H.
        -- injection H as <-. contradiction.
        -- replace (i + S k) with (S i + k) by lia. now apply Ha.
      * intros old [<- | Hin] Hne; [contradiction | now apply Hb].
      * intros p Hp Hk. apply Hc.
        -- destruct Hp as [Hp | Hp]; [left; intro; apply Hp; now right | now right].
        -- intro k. specialize (Hk (S k)).
           now replace (i + S k) with (S i + k) in Hk by lia.
    + apply String.eqb_neq in Eold. rewrite Hset in Hrun.
      destruct (Os.Rename old (numberedPath settings i) fs) as [fs1|] eqn:HR;
        [| discriminate].
      assert (Hnew : old <> numberedPath settings i).
      { intro E. apply (Htargets 0). rewrite Nat.add_0_r, <- E. now left. }
      destruct (IH (S i) (withRenamed runInfo old (numberedPath settings i)) fs1
                  runInfo' fs' Hset Hrun Hnd2 Htargets')
        as [Ha [Hb Hc]].
      split; [| split].
      * intros [|k] old2 H Hne; simpl in H.
        -- injection H as <-. rewrite Nat.add_0_r.
           rewrite Hc.
           ++ apply (Rename_read_new _ _ _ _ HR).
           ++ left. intro H. apply (Htargets 0). rewrite Nat.add_0_r. now right.
           ++ intros k E. apply numberedPath_inj in E. lia.
        -- replace (i + S k) with (S i + k) by lia. rewrite (Ha k old2 H Hne).
           apply (Rename_read_other _ _ _ _ _ HR).
           ++ intros ->. apply Hnin. eapply nth_error_In; eauto.
           ++ intros ->. apply (Htargets 0). rewrite Nat.add_0_r. right.
              eapply nth_error_In; eauto.
      * intros old2 [<- | Hin] Hne.
        -- rewrite Hc.
           ++ apply (Rename_read_old _ _ _ _ HR Hnew).
           ++ now left.
           ++ intros k E. apply (Htargets (S k)). left.
              now replace (i + S k) with (S i + k) by lia.
        -- now apply Hb.
      * intros p Hp Hk. rewrite Hc.
        -- apply (Rename_read_other _ _ _ _ _ HR).
           ++ destruct Hp as [Hp | Hp]; [intros ->; apply Hp; now left | congruence].
           ++ specialize (Hk 0). now rewrite Nat.add_0_r in Hk.
        -- destruct Hp as [Hp | Hp]; [left; intro; apply Hp; now right | now right].
        -- intro k. specialize (Hk (S k)).
           now replace (i + S k) with (S i + k) in Hk by lia.
Qed.

Lemma recordsFrom_nth (olds : list string) :
  forall i info,
    In info (recordsFrom settings i olds) ->
    exists k old,
      nth_error olds k = Some old
      /\ info = NewDocFileInfo old (numberedPath settings (i + k)).
Proof.
  induction olds as [|old olds IH]; intros i info H; [contradiction |].
  destruct H as [<- | H].
  - exists 0, old. now rewrite Nat.add_0_r.
  - destruct (IH (S i) info H) as [k [old2 [Hk ->]]].
    exists (S k), old2. split; [exact Hk |].
    now replace (i + S k) with (S i + k) by lia.
Qed.

Lemma pathsFrom_In (olds : list string) :
  forall i k old,
    nth_error olds k = Some old ->
    In (numberedPath settings (i + k)) (pathsFrom settings i olds).
Proof.
  induction olds as [|old olds IH]; intros i [|k] p H; simpl in H; try discriminate.
  - left. now rewrite Nat.add_0_r.
  - right. replace (i + S k) with (S i + k) by lia. now apply (IH (S i) k p).
Qed.

Lemma pathsFrom_nth (olds : list string) :
  forall i path,
    In path (pathsFrom settings i olds) ->
    exists k old,
      nth_error olds k = Some old /\ path = numberedPath settings (i + k).
Proof.
  induction olds as [|old olds IH]; intros i path H; [contradiction |].
  destruct H as [<- | H].
  - exists 0, old. now rewrite Nat.add_0_r.
  - destruct (IH (S i) path H) as [k [old2 [Hk ->]]].
    exists (S k), old2. split; [exact Hk |].
    now replace (i + S k) with (S i + k) by lia.
Qed.

End Pages.

Section Kept.

Lemma Split_flat (s : string) :
  forall seg, In seg (GoStrings.Split s) -> GoStrings.ContainsSlash seg = false.
Proof.
  induction s as [|c s IH]; simpl; intros seg H.
  - destruct H as [<- | []]. reflexivity.
  - destruct (Ascii.eqb c "/") eqn:E.
    + destruct H as [<- | H]; [reflexivity | now apply IH].
    + destruct (GoStrings.Split s) as [|seg0 segs] eqn:Es.
      * destruct H as [<- | []]. simpl. now rewrite E.
      * destruct H as [<- | H].
        -- simpl. rewrite E. apply IH. now left.
        -- apply IH. now right.
Qed.

Lemma goDocBaseName_flat (settings : Settings) :
  GoStrings.ContainsSlash (goDocBaseName settings) = false.
Proof.
  unfold goDocBaseName. apply (Split_flat (ModName settings)).
  pose proof (Split_nonempty (ModName settings)) as Hne.
  destruct (GoStrings.Split (ModName settings)) as [|s l]; [contradiction |].
  apply (@exists_last _ (s :: l)) in Hne. destruct Hne as [l' [a E]].
  rewrite E, last_last. apply in_or_app. right. now left.
Qed.

Lemma entryOldPath_listed (settings : Settings) (fs : FS) :
  Os.exists_ (entryOldPath settings) fs = true ->
  In (entryOldPath settings) (glob_html (BuildDir settings) fs).
Proof.
  intro Hex. apply glob_html_In.
  exists (goDocBaseName settings ++ ".html"). repeat split.
  - now apply exists_In.
  - now rewrite ContainsSlash_append, goDocBaseName_flat.
  - apply HasSuffix_append.
Qed.

Lemma HasSuffix_nonempty (name suffix : string) :
  suffix <> "" -> GoStrings.HasSuffix name suffix = true -> name <> "".
Proof. intros Hs H ->. simpl in H. destruct suffix; [contradiction | discriminate]. Qed.

Lemma read_In (path : string) (fs : FS) :
  In path (Os.paths fs) <-> Os.ReadFile path fs <> None.
Proof.
  rewrite <- exists_In, ReadFile_exists. split.
  - intros [data ->]. discriminate.
  - destruct (Os.ReadFile path fs) as [data|]; [now exists data | contradiction].
Qed.

End Kept.

(** What the renaming makes of a directory none of whose pages bears a
    name the renaming hands out. *)
Lemma renameOutputFiles_pages :
  forall (settings : Settings) (fs : FS),
    hasMeta (BuildDir settings) = false ->
    cleanPath (BuildDir settings) = true ->
    NoDup (Os.paths fs) ->
    Os.exists_ (entryOldPath settings) fs = true ->
    GoStrings.ContainsSlash (HTMLBaseName settings) = false ->
    entryOldPath settings = entryNewPath settings
      \/ Os.exists_ (entryNewPath settings) fs = false ->
    (forall i, Os.exists_ (numberedPath settings i) fs = false) ->
    exists (runInfo' : RunInfo) (fs' : FS),
      renameOutputFiles (NewRunInfo settings) fs = Ok (runInfo', fs')
      /\ Os.ReadFile (entryNewPath settings) fs'
         = Os.ReadFile (entryOldPath settings) fs
      /\ (forall info,
             In info (RunInfo_DocFileInfo runInfo') ->
             exists data,
               Os.ReadFile (BuildDir settings ++ "/" ++ OldName info) fs = Some data
               /\ Os.ReadFile (BuildDir settings ++ "/" ++ NewName info) fs'
                  = Some data
               /\ In (BuildDir settings ++ "/" ++ NewName info) (HtmlFiles runInfo'))
      /\ (forall path,
             In path (glob_html (BuildDir settings) fs) ->
             path <> entryOldPath settings ->
             exists info,
               In info (RunInfo_DocFileInfo runInfo')
               /\ path = BuildDir settings ++ "/" ++ OldName info)
      /\ (forall path, In path (HtmlFiles runInfo') -> Os.exists_ path fs' = true)
      /\ (forall path data,
             Os.ReadFile path fs = Some data ->
             ~ In path (glob_html (BuildDir settings) fs) ->
             Os.ReadFile path fs' = Some data)
      /\ NoDup (HtmlFiles runInfo')
      /\ In (entryNewPath settings) (HtmlFiles runInfo')
      /\ (forall path,
             In path (HtmlFiles runInfo') ->
             path = entryNewPath settings \/ exists k, path = numberedPath settings k)
      /\ (forall info,
             In info (RunInfo_DocFileInfo runInfo') ->
             Os.ReadFile (BuildDir settings ++ "/" ++ OldName info) fs' = None
             /\ exists k, NewName info = numberedName settings (S k))
      /\ NoDup (map NewName (RunInfo_DocFileInfo runInfo')).
Proof.
  intros settings fs Hmeta Hplain Hnd Hentry Hflat Hroot Hfree.
  destruct (renameOutputFiles_listing (NewRunInfo settings) fs
                                      Hmeta Hplain Hnd Hentry Hflat)
    as [fs1 [fs' [before [after [HR [Hsplit [Hnotin Hrun]]]]]]].
  cbn [NewRunInfo RunInfo_Settings HtmlFiles RunInfo_DocFileInfo] in *.
  set (old := entryOldPath settings) in *.
  set (new := entryNewPath settings) in *.
  set (dir := BuildDir settings) in *.
  set (listing := (before ++ new :: after)%list) in *.
  (* the directory after the entry page was renamed *)
  assert (F1 : forall p, p <> old -> p <> new -> Os.ReadFile p fs1 = Os.ReadFile p fs).
  { intros p Ho Hn. exact (Rename_read_other _ _ _ _ _ HR Ho Hn). }
  assert (F2 : Os.ReadFile new fs1 = Os.ReadFile old fs).
  { exact (Rename_read_new _ _ _ _ HR). }
  assert (F3 : forall p, p = old -> p <> new -> Os.ReadFile p fs1 = None).
  { intros p -> Hn. apply (Rename_read_old _ _ _ _ HR). congruence. }
  assert (Hnew : forall p, Os.ReadFile p fs <> None -> p <> old -> p <> new).
  { intros p Hp Ho ->. destruct Hroot as [E | E]; [congruence |].
    apply Hp. apply read_In in Hp. apply exists_In in Hp. congruence. }
  assert (Hnum : forall p k, Os.ReadFile p fs <> None -> p <> numberedPath settings k).
  { intros p k Hp ->. apply read_In, exists_In in Hp. rewrite Hfree in Hp.
    discriminate. }
  assert (Hback : forall p, In p listing -> p <> new ->
                            p <> old /\ Os.ReadFile p fs1 = Os.ReadFile p fs
                            /\ Os.ReadFile p fs <> None
                            /\ In p (glob_html dir fs)).
  { intros p Hp Hn. rewrite <- Hsplit in Hp.
    apply glob_html_In in Hp. destruct Hp as [name [Hname [Hin [Hslash Hhtml]]]].
    apply read_In in Hin.
    assert (Ho : p <> old) by (intro E; now rewrite (F3 p E Hn) in Hin).
    rewrite (F1 p Ho Hn) in Hin. repeat split; try assumption.
    - now apply F1.
    - apply glob_html_In. exists name. repeat split; try assumption.
      now apply read_In. }
  assert (Htargets : forall k, ~ In (numberedPath settings (0 + k)) listing).
  { intros k Hin. destruct (Hback _ Hin (numberedPath_not_entry settings k))
      as [_ [_ [Hp _]]]. now apply (Hnum _ k Hp). }
  assert (Hlist : NoDup listing).
  { rewrite <- Hsplit. apply glob_html_NoDup.
    exact (Rename_NoDup _ _ _ _ HR Hnd). }
  assert (Hloop : renameLoop new 0 listing (withEntry (NewRunInfo settings) new) fs1
                  = renameOutputFiles (NewRunInfo settings) fs).
  { unfold renameOutputFiles, renameEntryPoint.
    cbn [NewRunInfo RunInfo_Settings]. fold old new. rewrite HR.
    cbn [bind]. fold dir.
    now rewrite (Glob_html_plain _ _ Hmeta Hplain), Hsplit. }
  rewrite Hrun in Hloop.
  destruct (renameLoop_contents settings new listing 0
              (withEntry (NewRunInfo settings) new) fs1 _ fs' eq_refl Hloop
              Hlist Htargets) as [Ha [Hb Hc]].
  (* a page at a place of the listing *)
  assert (Hpage : forall k p,
             nth_error listing k = Some p -> p <> new ->
             exists data,
               Os.ReadFile (dir ++ "/" ++ OldName (NewDocFileInfo p (numberedPath settings k)))
                           fs = Some data
               /\ Os.ReadFile (dir ++ "/" ++ NewName (NewDocFileInfo p (numberedPath settings k)))
                              fs' = Some data
               /\ Os.ReadFile (numberedPath settings k) fs' = Some data
               /\ dir ++ "/" ++ NewName (NewDocFileInfo p (numberedPath settings k))
                  = numberedPath settings k).
  { intros k p Hk Hn.
    destruct (Hback p (nth_error_In _ _ Hk) Hn) as [Ho [H1 [Hp Hg]]].
    apply glob_html_In in Hg. destruct Hg as [name [-> [_ [Hslash Hhtml]]]].
    cbn [NewDocFileInfo OldName NewName].
    rewrite (Base_join dir name
               (HasSuffix_nonempty name ".html" ltac:(discriminate) Hhtml) Hslash).
    assert (Enew : dir ++ "/" ++ Filepath.Base (numberedPath settings k)
                   = numberedPath settings k).
    { rewrite !numberedPath_name. fold dir. do 2 f_equal.
      apply Base_join; now apply numberedName_flat. }
    rewrite Enew.
    destruct (Os.ReadFile (dir ++ "/" ++ name) fs) as [data|] eqn:E; [| contradiction].
    exists data. split; [reflexivity |].
    assert (Hr : Os.ReadFile (numberedPath settings k) fs' = Some data).
    { change k with (0 + k) at 1. rewrite (Ha k _ Hk Hn). exact H1. }
    repeat split; assumption. }
  assert (Hgone : forall k p,
             nth_error listing k = Some p -> p <> new ->
             Os.ReadFile (dir ++ "/" ++ OldName (NewDocFileInfo p (numberedPath settings k)))
                         fs' = None
             /\ NewName (NewDocFileInfo p (numberedPath settings k))
                = numberedName settings (S k)).
  { intros k p Hk Hn.
    destruct (Hback p (nth_error_In _ _ Hk) Hn) as [_ [_ [_ Hg]]].
    apply glob_html_In in Hg. destruct Hg as [name [E [_ [Hslash Hhtml]]]].
    cbn [NewDocFileInfo OldName NewName]. split.
    - rewrite E at 1.
      rewrite (Base_join dir name
                 (HasSuffix_nonempty name ".html" ltac:(discriminate) Hhtml) Hslash).
      rewrite <- E. apply Hb; [exact (nth_error_In _ _ Hk) | exact Hn].
    - rewrite numberedPath_name. apply Base_join; now apply numberedName_flat. }
  assert (Hbefore : forall k p, nth_error before k = Some p ->
                                nth_error listing k = Some p /\ p <> new).
  { intros k p Hk. split.
    - unfold listing. rewrite nth_error_app1; [exact Hk |].
      apply nth_error_Some. congruence.
    - intros ->. apply Hnotin. apply in_or_app. left. eapply nth_error_In; eauto. }
  assert (Hafter : forall k p, nth_error after k = Some p ->
                               nth_error listing (S (List.length before) + k) = Some p
                               /\ p <> new).
  { intros k p Hk. split.
    - unfold listing. rewrite nth_error_app2 by lia.
      replace (S (List.length before) + k - List.length before) with (S k) by lia.
      exact Hk.
    - intros ->. apply Hnotin. apply in_or_app. right. eapply nth_error_In; eauto. }
  eexists. exists fs'. split; [exact Hrun |].
  cbn [RunInfo_DocFileInfo HtmlFiles app].
  split; [| split; [| split; [| split; [| split; [| split; [| split;
    [apply in_eq | split; [| split]]]]]]]].
  - rewrite Hc; [exact F2 | now right |].
    intros k E. symmetry in E. exact (numberedPath_not_entry settings _ E).
  - intros info Hin. apply in_app_or in Hin. destruct Hin as [Hin | Hin].
    + destruct (recordsFrom_nth settings before 0 info Hin) as [k [p [Hk ->]]].
      destruct (Hbefore k p Hk) as [Hl Hn].
      destruct (Hpage k p Hl Hn) as [data [H1 [H2 [_ H4]]]]. exists data.
      split; [exact H1 |]. split; [exact H2 |].
      cbn [Nat.add] in H4 |- *. rewrite H4.
      right. apply in_or_app. left. exact (pathsFrom_In settings before 0 k p Hk).
    + destruct (recordsFrom_nth settings after _ info Hin) as [k [p [Hk ->]]].
      destruct (Hafter k p Hk) as [Hl Hn].
      destruct (Hpage _ p Hl Hn) as [data [H1 [H2 [_ H4]]]]. exists data.
      split; [exact H1 |]. split; [exact H2 |].
      cbn [Nat.add] in H4 |- *. rewrite H4.
      right. apply in_or_app. right.
      exact (pathsFrom_In settings after (S (List.length before)) k p Hk).
  - intros path Hg Ho.
    assert (Hg' := Hg). apply glob_html_In in Hg'.
    destruct Hg' as [name [Hname [Hin [Hslash Hhtml]]]].
    apply read_In in Hin. pose proof (Hnew path Hin Ho) as Hn.
    assert (Hl : In path (before ++ after)).
    { assert (Hl : In path listing).
      { rewrite <- Hsplit. apply glob_html_In. exists name.
        repeat split; try assumption. apply read_In. now rewrite (F1 path Ho Hn). }
      unfold listing in Hl. apply in_app_or in Hl. apply in_or_app.
      destruct Hl as [Hl | [Hl | Hl]]; [now left | congruence | now right]. }
    assert (Hbase : Filepath.Base path = name).
    { rewrite Hname. apply Base_join; [| exact Hslash].
      apply (HasSuffix_nonempty name ".html"); [discriminate | exact Hhtml]. }
    apply in_app_or in Hl. destruct Hl as [Hl | Hl].
    + destruct (recordsFrom_In settings path before 0 Hl) as [j [Hrec _]].
      exists (NewDocFileInfo path (numberedPath settings j)). split.
      * apply in_or_app. now left.
      * cbn [NewDocFileInfo OldName]. now rewrite Hbase.
    + destruct (recordsFrom_In settings path after (S (List.length before)) Hl)
        as [j [Hrec _]].
      exists (NewDocFileInfo path (numberedPath settings j)). split.
      * apply in_or_app. now right.
      * cbn [NewDocFileInfo OldName]. now rewrite Hbase.
  - intros path [<- | Hin].
    + apply ReadFile_exists.
      rewrite Hc; [| now right |].
      * rewrite F2. now apply ReadFile_exists.
      * intros k E. symmetry in E. exact (numberedPath_not_entry settings _ E).
    + apply in_app_or in Hin. destruct Hin as [Hin | Hin].
      * destruct (pathsFrom_nth settings before 0 path Hin) as [k [p [Hk ->]]].
        destruct (Hbefore k p Hk) as [Hl Hn].
        destruct (Hpage k p Hl Hn) as [data [_ [_ [H _]]]].
        apply ReadFile_exists. now exists data.
      * destruct (pathsFrom_nth settings after _ path Hin) as [k [p [Hk ->]]].
        destruct (Hafter k p Hk) as [Hl Hn].
        destruct (Hpage _ p Hl Hn) as [data [_ [_ [H _]]]].
        apply ReadFile_exists. now exists data.
  - intros path data Hread Hg.
    assert (Hp : Os.ReadFile path fs <> None) by congruence.
    assert (Ho : path <> old).
    { intros ->. apply Hg. now apply entryOldPath_listed. }
    pose proof (Hnew path Hp Ho) as Hn.
    rewrite Hc, (F1 path Ho Hn); [exact Hread | | ].
    + left. intro Hl. destruct (Hback path Hl Hn) as [_ [_ [_ H]]]. contradiction.
    + intro k. now apply Hnum.
  - exact (outputFiles_NoDup settings before after).
  - intros path [<- | Hin]; [now left |]. right.
    apply in_app_or in Hin. destruct Hin as [Hin | Hin].
    + destruct (pathsFrom_nth settings before 0 path Hin) as [k [p [_ ->]]].
      now exists (0 + k).
    + destruct (pathsFrom_nth settings after _ path Hin) as [k [p [_ ->]]].
      now exists (S (List.length before) + k).
  - intros info Hin. apply in_app_or in Hin. destruct Hin as [Hin | Hin].
    + destruct (recordsFrom_nth settings before 0 info Hin) as [k [p [Hk ->]]].
      destruct (Hbefore k p Hk) as [Hl Hn].
      destruct (Hgone _ p Hl Hn) as [H1 H2]. split; [exact H1 |].
      eexists. exact H2.
    + destruct (recordsFrom_nth settings after _ info Hin) as [k [p [Hk ->]]].
      destruct (Hafter k p Hk) as [Hl Hn].
      destruct (Hgone _ p Hl Hn) as [H1 H2]. split; [exact H1 |].
      eexists. exact H2.
  - rewrite !map_app, !recordsFrom_NewName, <- map_app by exact Hflat.
    apply Finite.Injective_map_NoDup; [exact (numberedName_inj settings) |].
    pose proof (seq_NoDup (1 + List.length before + 1 + List.length after) 0) as H.
    rewrite !seq_app in H. simpl in H. inversion H as [|? ? _ H']; subst.
    rewrite <- app_assoc in H'. simpl in H'. apply NoDup_remove_1 in H'.
    now rewrite Nat.add_1_r in H'.
Qed.


Lemma pagesA_unnumbered :
  forall i, Os.exists_ (numberedPath (exampleSettings "a/b/c") i) pagesA = false.
Proof. intro i. reflexivity. Qed.


(** Without that condition a page can be lost: [api.html] is renamed
    to [godoc.1.html] over the page of that name, which the loop then
    takes for the page to number 3; [godoc.1.html] is gone when the
    links are rewritten, and the run panics. *)
Example renameOutputFiles_overwrites_page :
  exists (runInfo' : RunInfo) (fs' : FS),
    renameOutputFiles (NewRunInfo (exampleSettings "a/b/c")) pagesNumbered
    = Ok (runInfo', fs')
    /\ map (fun info => (OldName info, NewName info)) (RunInfo_DocFileInfo runInfo')
       = [("api.html", "godoc.1.html"); ("godoc.1.html", "godoc.3.html")]
    /\ Os.ReadFile (staticDir ++ "godoc.3.html") fs' = Some "<html>api</html>"
    /\ Os.ReadFile (staticDir ++ "godoc.1.html") fs' = None
    /\ rewriteHTMLLinks runInfo' fs' = Panic ReadError.
Proof.
  eexists. eexists. split; [vm_compute; reflexivity |].
  repeat split; vm_compute; reflexivity.
Qed.

(** ** What the rewriting touches *)

Section Touched.

Lemma WriteFile_paths (path data : string) (fs : FS) :
  Os.ReadFile path fs <> None ->
  Os.paths (Os.WriteFile path data fs) = Os.paths fs.
Proof.
  unfold Os.paths. induction fs as [|[p d] fs IH]; simpl; [contradiction |].
  destruct (p =? path) eqn:E; simpl.
  - reflexivity.
  - intro H. now rewrite IH.
Qed.

Lemma ReplaceAll_Some (re : Regexp.t) (src repl out : string) :
  Regexp.ReplaceAll re src repl = Some out ->
  asciiLed re = true /\ Regexp.hasDollar repl = false.
Proof.
  unfold Regexp.ReplaceAll, asciiLed. destruct re as [|[c|] re']; try discriminate.
  destruct (Regexp.isASCII c); [| discriminate].
  destruct (Regexp.hasDollar repl); [discriminate | now split].
Qed.

Lemma replaceBoth_Ok (info : DocFileInfo) (data data' : string) :
  replaceBoth info data = Ok data' -> supported info = true.
Proof.
  unfold replaceBoth, supported.
  destruct (HtmlReplaceRegex1 info) as [regex1|]; [| discriminate].
  destruct (HtmlReplaceRegex2 info) as [regex2|]; [| discriminate].
  destruct (Regexp.ReplaceAll regex1 data (HtmlReplaceWith1 info)) as [d1|] eqn:E1;
    [| discriminate].
  destruct (Regexp.ReplaceAll regex2 d1 (HtmlReplaceWith2 info)) as [d2|] eqn:E2;
    [| discriminate].
  intros _. apply ReplaceAll_Some in E1, E2.
  destruct E1 as [-> ->], E2 as [-> ->]. reflexivity.
Qed.

Lemma rewriteFile_Ok (filePath : string) (infos : list DocFileInfo) :
  forall fs fs',
    rewriteFile filePath infos fs = Ok fs' ->
    Forall (fun info => supported info = true) infos
    /\ Os.paths fs' = Os.paths fs
    /\ forall other, other <> filePath -> Os.ReadFile other fs' = Os.ReadFile other fs.
Proof.
  induction infos as [|info infos IH]; intros fs fs' H; cbn [rewriteFile] in H.
  - injection H as <-. repeat split. constructor.
  - destruct (Os.ReadFile filePath fs) as [data|] eqn:Er; [| discriminate].
    destruct (replaceBoth info data) as [data'| |] eqn:Eb; try discriminate.
    cbn [bind] in H. destruct (IH _ _ H) as [Hs [Hp Ho]].
    split; [| split].
    + constructor; [exact (replaceBoth_Ok _ _ _ Eb) | exact Hs].
    + rewrite Hp. apply WriteFile_paths. congruence.
    + intros other Hne. rewrite (Ho other Hne).
      now apply ReadFile_WriteFile_other.
Qed.

Lemma rewriteFiles_Ok (infos : list DocFileInfo) (files : list string) :
  forall fs fs',
    rewriteFiles files infos fs = Ok fs' ->
    (files <> [] -> Forall (fun info => supported info = true) infos)
    /\ Os.paths fs' = Os.paths fs
    /\ forall other, ~ In other files -> Os.ReadFile other fs' = Os.ReadFile other fs.
Proof.
  induction files as [|f files IH]; intros fs fs' H; cbn [rewriteFiles] in H.
  - injection H as <-. repeat split. contradiction.
  - destruct (rewriteFile f infos fs) as [fs1| |] eqn:E; try discriminate.
    cbn [bind] in H. destruct (rewriteFile_Ok _ _ _ _ E) as [Hs [Hp Ho]].
    destruct (IH _ _ H) as [_ [Hp' Ho']].
    split; [intros _; exact Hs |]. split; [congruence |].
    intros other Hnin. rewrite Ho' by (intro; apply Hnin; now right).
    apply Ho. intros ->. apply Hnin. now left.
Qed.

End Touched.

(** The link rewriting writes to the output files and to nothing else:
    it creates no file, removes none, and every file that is not an
    output file holds what it held. *)
Theorem rewriteHTMLLinks_output_files_only :
  forall (runInfo : RunInfo) (fs fs' : FS),
    rewriteHTMLLinks runInfo fs = Ok fs' ->
    Os.paths fs' = Os.paths fs
    /\ forall path,
         ~ In path (HtmlFiles runInfo) ->
         Os.ReadFile path fs' = Os.ReadFile path fs.
Proof.
  intros runInfo fs fs' H. unfold rewriteHTMLLinks in H.
  destruct (rewriteFiles_Ok _ _ _ _ H) as [_ [Hp Ho]]. now split.
Qed.

Lemma rewriteHTMLLinks_output_files_only_witness :
  Os.paths threePagesRelinked = Os.paths threePages
  /\ forall path,
       ~ In path (HtmlFiles runThreePages) ->
       Os.ReadFile path threePagesRelinked = Os.ReadFile path threePages.
Proof.
  exact (rewriteHTMLLinks_output_files_only runThreePages threePages
           threePagesRelinked eq_refl).
Defined.

Section Href.

Lemma Compile_literal (c : ascii) (pattern : string) :
  Ascii.eqb c "." = false ->
  Regexp.special c || negb (Regexp.isASCII c) = false ->
  Regexp.Compile (String c pattern)
  = option_map (cons (Regexp.Lit c)) (Regexp.Compile pattern).
Proof. intros H1 H2. cbn [Regexp.Compile]. now rewrite H1, H2. Qed.

Lemma href_matched (name : string) (re : Regexp.t) (s rest : string) :
  Regexp.Compile ("href=" ++ quote ++ name) = Some re ->
  Regexp.matchPrefix re s = Some rest ->
  GoStrings.CutPrefix s ("href=" ++ quote) <> None.
Proof.
  unfold quote. cbn [append].
  rewrite !Compile_literal by reflexivity.
  destruct (Regexp.Compile name) as [re'|]; [| discriminate].
  cbn [option_map]. intros [= <-].
  repeat (destruct s as [|? s]; [discriminate |];
          cbn [Regexp.matchPrefix GoStrings.CutPrefix];
          match goal with
          | |- (if Ascii.eqb ?a ?b then _ else _) = _ -> _ =>
              destruct (Ascii.eqb_spec a b) as [<- | _]; [| discriminate];
              rewrite Ascii.eqb_refl
          end).
  intros _. discriminate.
Qed.

Lemma free_without_href (name : string) (re : Regexp.t) (data : string) :
  Regexp.Compile ("href=" ++ quote ++ name) = Some re ->
  contains data ("href=" ++ quote) = false ->
  free re data = true.
Proof.
  intros Hre. induction data as [|c data IH]; [reflexivity |].
  cbn [contains free].
  destruct (GoStrings.CutPrefix (String c data) ("href=" ++ quote)) eqn:Ecut;
    [discriminate |].
  intro H.
  destruct (Regexp.matchPrefix re (String c data)) as [rest|] eqn:Em; [| now apply IH].
  exfalso. exact (href_matched name re _ rest Hre Em Ecut).
Qed.

End Href.

(** A text that holds no [href=] with its opening quote comes out of
    the two substitutions of a record as it went in. *)
Theorem replaceBoth_without_href :
  forall (oldPath newPath data : string),
    supported (NewDocFileInfo oldPath newPath) = true ->
    contains data ("href=" ++ quote) = false ->
    replaceBoth (NewDocFileInfo oldPath newPath) data = Ok data.
Proof.
  intros oldPath newPath data Hs Hc.
  rewrite (replaceBoth_supported _ data Hs).
  unfold supported, rewritten in *.
  cbn [NewDocFileInfo HtmlReplaceRegex1 HtmlReplaceRegex2 HtmlReplaceWith1
       HtmlReplaceWith2] in *.
  destruct (Regexp.Compile ("href=" ++ quote ++ Filepath.Base oldPath ++ "#"))
    as [regex1|] eqn:C1; [| discriminate].
  destruct (Regexp.Compile ("href=" ++ quote ++ Filepath.Base oldPath ++ quote))
    as [regex2|] eqn:C2; [| discriminate].
  rewrite (scan_free regex1 _ data (free_without_href _ _ _ C1 Hc)).
  now rewrite (scan_free regex2 _ data (free_without_href _ _ _ C2 Hc)).
Qed.

Lemma replaceBoth_without_href_witness :
  replaceBoth (NewDocFileInfo (staticDir ++ "api.html") (staticDir ++ "godoc.1.html"))
              "<h1 id=api>api</h1><a name=href></a>"
  = Ok "<h1 id=api>api</h1><a name=href></a>".
Proof.
  exact (replaceBoth_without_href (staticDir ++ "api.html")
           (staticDir ++ "godoc.1.html") "<h1 id=api>api</h1><a name=href></a>"
           eq_refl eq_refl).
Defined.

(** A reference to a renamed page that stands in an output file ends
    up, in a successful rewriting, as the same reference to the new
    name of the page, provided the records before that of the page
    leave the old reference alone, the record of the page relinks it
    and the records after it leave the new reference alone. *)
Theorem rewriteHTMLLinks_relinks :
  forall (runInfo : RunInfo) (fs final : FS) (earlier later : list DocFileInfo)
         (oldPath newPath : string) (f : form) (filePath pre post : string),
    rewriteHTMLLinks runInfo fs = Ok final ->
    NoDup (HtmlFiles runInfo) ->
    RunInfo_DocFileInfo runInfo
    = (earlier ++ NewDocFileInfo oldPath newPath :: later)%list ->
    Forall (fun info => leaves info (reference f (Filepath.Base oldPath)) = true)
           earlier ->
    relinks (NewDocFileInfo oldPath newPath) f = true ->
    Forall (fun info => leaves info (reference f (Filepath.Base newPath)) = true)
           later ->
    In filePath (HtmlFiles runInfo) ->
    Os.ReadFile filePath fs
    = Some (pre ++ reference f (Filepath.Base oldPath) ++ post) ->
    Os.ReadFile filePath final
    = Some (rewrittenBy (RunInfo_DocFileInfo runInfo) pre
            ++ reference f (Filepath.Base newPath)
            ++ rewrittenBy (RunInfo_DocFileInfo runInfo) post).
Proof.
  intros runInfo fs final earlier later oldPath newPath f filePath pre post
         Hrun Hnd Hrecs Hearly Hrel Hlate Hfile Hread.
  unfold rewriteHTMLLinks in Hrun.
  destruct (rewriteFiles_Ok _ _ _ _ Hrun) as [Hs _].
  assert (Hsup : Forall (fun info => supported info = true)
                        (RunInfo_DocFileInfo runInfo)).
  { apply Hs. intro E. rewrite E in Hfile. contradiction. }
  rewrite (rewriteFiles_content _ Hsup _ _ _ filePath _ Hnd Hrun Hfile Hread).
  f_equal. rewrite Hrecs in *. now apply rewrittenBy_relinks.
Qed.

Lemma rewriteHTMLLinks_relinks_witness :
  Os.ReadFile (staticDir ++ "godoc.4.html") threePagesRelinked
  = Some (rewrittenBy (RunInfo_DocFileInfo runThreePages) "<a "
          ++ reference Anchored (Filepath.Base (staticDir ++ "godoc.1.html"))
          ++ rewrittenBy (RunInfo_DocFileInfo runThreePages) ("Client" ++ quote ++ ">")).
Proof.
  exact (rewriteHTMLLinks_relinks runThreePages threePages threePagesRelinked
           [] [indexRecord; subRecord]
           (staticDir ++ "api.html") (staticDir ++ "godoc.1.html")
           Anchored (staticDir ++ "godoc.4.html") "<a " ("Client" ++ quote ++ ">")
           eq_refl ltac:(repeat constructor; simpl; intuition discriminate)
           eq_refl ltac:(constructor) eq_refl ltac:(repeat constructor)
           ltac:(simpl; tauto) eq_refl).
Defined.

(** ** The probe and the pipeline, on every run *)

Section Attempts.

Variable w : World.

Lemma chain_times (log : list attempt) :
  forall k now,
    chain w k now log ->
    Forall (fun a => (now <= started a <= finished a)%Z /\ (finished a < deadline)%Z
                     /\ exists j, got a = snd (clientGet (probe w j))) log.
Proof.
  induction log as [|a log IH]; intros k now H; [constructor |].
  destruct H as [Hs [Hf [Hg [Hd Hc]]]].
  pose proof (clientGet_took (probe w k)) as Ht.
  constructor.
  - split; [lia |]. split; [exact Hd | now exists k].
  - specialize (IH _ _ Hc). rewrite Forall_forall in *. intros b Hb.
    destruct (IH b Hb) as [H1 H2]. split; [| exact H2].
    unfold second in *. lia.
Qed.

Lemma chain_length (log : list attempt) :
  forall k now,
    chain w k now log -> log <> [] ->
    (now + Z.of_nat (List.length log - 1) * second < deadline)%Z.
Proof.
  induction log as [|a log IH]; intros k now H Hne; [contradiction |].
  destruct H as [Hs [Hf [Hg [Hd Hc]]]].
  pose proof (clientGet_took (probe w k)) as Ht.
  destruct log as [|b log].
  - simpl. lia.
  - specialize (IH _ _ Hc ltac:(discriminate)).
    replace (List.length (a :: b :: log) - 1)%nat
      with (S (List.length (b :: log) - 1)) by (simpl; lia).
    rewrite Nat2Z.inj_succ. unfold second in *. lia.
Qed.

Lemma notReady_clientGet (answer : Z * GetResult) :
  notReady (snd answer) = true -> notReady (snd (clientGet answer)) = true.
Proof.
  unfold clientGet. destruct answer as [took r]. cbn [snd]. intro H.
  destruct (took <? 0)%Z; [exact H |].
  destruct (1 * second <=? took)%Z; [reflexivity | exact H].
Qed.

End Attempts.

(** The readiness probe sends ten requests at most, and every one of
    them is sent and answered within the ten seconds. *)
Theorem waitForServer_at_most_ten :
  forall w : World,
    (List.length (fst (waitForServer w)) <= 10)%nat
    /\ Forall (fun a => (0 <= started a <= finished a)%Z /\ (finished a < deadline)%Z)
              (fst (waitForServer w)).
Proof.
  intro w. unfold waitForServer.
  destruct (waitLoop_spec w 11 0 0%Z []) as [log [outcome [Hrun [Hchain _]]]];
    [reflexivity | unfold deadline, second; lia |].
  rewrite Hrun. cbn [fst app]. split.
  - destruct log as [|a log]; [simpl; lia |].
    pose proof (chain_length w _ _ _ Hchain ltac:(discriminate)) as H.
    unfold deadline, second in H. simpl List.length in *. lia.
  - pose proof (chain_times w _ _ _ Hchain) as H.
    rewrite Forall_forall in *. intros a Ha.
    destruct (H a Ha) as [H1 [H2 _]]. now split.
Qed.

(** A server that starts and never answers a request with status 200
    makes the probe time out; the program then ends without the
    deferred shutdown: [process.Kill] is not called and the server the
    run started is left alive. *)
Theorem runServerAndScrapeDocs_never_ready :
  forall (w : World) (settings : Settings) (fs : FS),
    startFails w = false ->
    (forall k, notReady (snd (probe w k)) = true) ->
    snd (waitForServer w) = TimedOut
    /\ snd (fst (runServerAndScrapeDocs w settings fs)) = Crashed ServerTimeout
    /\ kills (fst (fst (runServerAndScrapeDocs w settings fs))) = 0
    /\ serverAlive (fst (fst (runServerAndScrapeDocs w settings fs))) = true.
Proof.
  intros w settings fs Hstart Hnever.
  assert (Hwait : snd (waitForServer w) = TimedOut).
  { unfold waitForServer.
    destruct (waitLoop_spec w 11 0 0%Z []) as [log [outcome [Hrun [Hchain Hv]]]];
      [reflexivity | unfold deadline, second; lia |].
    rewrite Hrun. cbn [snd]. destruct outcome as [t| |]; [| reflexivity | contradiction].
    exfalso. destruct Hv as [earlier [a [-> [_ [Hgot _]]]]].
    pose proof (chain_times w _ _ _ Hchain) as H.
    apply Forall_app in H. destruct H as [_ H].
    inversion H as [|? ? [_ [_ [j Hj]]] _]; subst.
    pose proof (notReady_clientGet _ (Hnever j)) as Hn.
    rewrite <- Hj, Hgot in Hn. discriminate. }
  split; [exact Hwait |].
  exact (runServerAndScrapeDocs_timeout w settings fs Hstart Hwait).
Qed.

Lemma runServerAndScrapeDocs_never_ready_witness :
  snd (waitForServer deafWorld) = TimedOut
  /\ snd (fst (runServerAndScrapeDocs deafWorld (exampleSettings "x/y") pagesA))
     = Crashed ServerTimeout
  /\ kills (fst (fst (runServerAndScrapeDocs deafWorld (exampleSettings "x/y") pagesA)))
     = 0
  /\ serverAlive
       (fst (fst (runServerAndScrapeDocs deafWorld (exampleSettings "x/y") pagesA)))
     = true.
Proof.
  exact (runServerAndScrapeDocs_never_ready deafWorld (exampleSettings "x/y") pagesA
           eq_refl (fun _ => eq_refl)).
Defined.

Section Safety.

Variables (w : World) (settings : Settings) (fs : FS).

Lemma In_trace (e : event) (log : list attempt) (tail : list event) :
  In e ([Killall; ServerStarted] ++ map Probed log ++ tail)%list <->
  e = Killall \/ e = ServerStarted \/ (exists a, e = Probed a /\ In a log)
  \/ In e tail.
Proof.
  rewrite !in_app_iff, in_map_iff. simpl. split.
  - intros [[H | [H | []]] | [[a [H Ha]] | H]]; auto.
    right. right. left. now exists a.
  - intros [H | [H | [[a [H Ha]] | H]]]; auto.
    right. left. now exists a.
Qed.

Lemma kills_trace (log : list attempt) (tail : list event) :
  kills ([Killall; ServerStarted] ++ map Probed log ++ tail)%list = kills tail.
Proof. now rewrite !kills_app, kills_probes. Qed.

(** What a run that started its server leaves as its events: the
    start, the attempts of the probe, and one of three ends. *)
Lemma runServerAndScrapeDocs_trace :
  startFails w = false ->
  exists log tail,
    fst (fst (runServerAndScrapeDocs w settings fs))
    = ([Killall; ServerStarted] ++ map Probed log ++ tail)%list
    /\ ((tail = [TimerFired]
         /\ snd (fst (runServerAndScrapeDocs w settings fs)) = Crashed ServerTimeout)
        \/ (exists a, In a log /\ got a = GetStatus 200)
           /\ ((tail = [Crawled; ShutdownRequested; Kill false; ShutdownCompleted]
                /\ snd (fst (runServerAndScrapeDocs w settings fs)) = Crashed KillError)
               \/ (tail = [Crawled; ShutdownRequested; Kill true; ShutdownCompleted;
                           ShutdownObserved]
                   /\ (snd (fst (runServerAndScrapeDocs w settings fs)) = Returned
                       \/ exists why,
                            snd (fst (runServerAndScrapeDocs w settings fs))
                            = Unwound why)))).
Proof.
  intro Hstart.
  unfold runServerAndScrapeDocs, runDocServer_start, killDeferred. rewrite Hstart.
  unfold waitForServer.
  destruct (waitLoop_spec w 11 0 0%Z []) as [log [outcome [Hrun [Hchain Hv]]]];
    [reflexivity | unfold deadline, second; lia |].
  rewrite Hrun. exists log.
  destruct outcome as [t| |]; [| | contradiction].
  - destruct Hv as [earlier [a [Hlog [_ [Hgot _]]]]].
    assert (Ha : exists a, In a log /\ got a = GetStatus 200).
    { exists a. split; [| exact Hgot]. rewrite Hlog. apply in_or_app. right. now left. }
    destruct (killFails w).
    + eexists. split; [cbn [fst app]; rewrite <- !app_assoc; reflexivity |].
      right. split; [exact Ha |]. left. now split.
    + exists [Crawled; ShutdownRequested; Kill true; ShutdownCompleted; ShutdownObserved].
      destruct (scrapeModulePages w settings fs) as [fs'|why|]; cbn [fst snd app];
        (split; [rewrite <- !app_assoc; reflexivity |]);
        right; (split; [exact Ha |]); right; (split; [reflexivity |]).
      * now left.
      * right. now exists why.
      * right. now exists ScrapeError.
  - exists [TimerFired]. split; [reflexivity |]. left. now split.
Qed.

End Safety.

(** On every run of the pipeline [process.Kill] is called once at most,
    and only in a run that crawled and asked for the shutdown; the
    crawl is started only after a request was answered with status 200;
    and the pipeline sees the shutdown complete exactly when it returns
    or unwinds with a panic of its own. *)
Theorem runServerAndScrapeDocs_safety :
  forall (w : World) (settings : Settings) (fs : FS),
    (kills (fst (fst (runServerAndScrapeDocs w settings fs))) <= 1)%nat
    /\ (In Crawled (fst (fst (runServerAndScrapeDocs w settings fs))) ->
        exists a,
          In (Probed a) (fst (fst (runServerAndScrapeDocs w settings fs)))
          /\ got a = GetStatus 200)
    /\ (kills (fst (fst (runServerAndScrapeDocs w settings fs))) = 1 ->
        In Crawled (fst (fst (runServerAndScrapeDocs w settings fs)))
        /\ In ShutdownRequested (fst (fst (runServerAndScrapeDocs w settings fs))))
    /\ (In ShutdownObserved (fst (fst (runServerAndScrapeDocs w settings fs))) <->
        snd (fst (runServerAndScrapeDocs w settings fs)) = Returned
        \/ exists why,
             snd (fst (runServerAndScrapeDocs w settings fs)) = Unwound why)
    /\ (In ServerStarted (fst (fst (runServerAndScrapeDocs w settings fs))) <->
        startFails w = false).
Proof.
  intros w settings fs. destruct (startFails w) eqn:Hstart.
  { unfold runServerAndScrapeDocs, runDocServer_start. rewrite Hstart.
    cbn [fst snd app]. split; [cbv; lia |]. split; [intros [H | []]; discriminate |].
    split; [cbv; discriminate |]. split.
    - split; [intros [H | []]; discriminate | intros [H | [why H]]; discriminate].
    - split; [intros [H | []]; discriminate | discriminate]. }
  destruct (runServerAndScrapeDocs_trace w settings fs Hstart)
    as [log [tail [Hevs Hend]]].
  rewrite Hevs, kills_trace, !In_trace.
  destruct Hend as [[-> Hex] | [[a [Ha Hgot]] [[-> Hex] | [-> Hex]]]]; rewrite ?Hex.
  - split; [cbv; lia |]. split.
    { intros [H | [H | [[b [H _]] | [H | []]]]]; discriminate. }
    split; [cbv; discriminate |]. split.
    + split; [| intros [H | [why H]]; discriminate].
      intros [H | [H | [[b [H _]] | [H | []]]]]; discriminate.
    + split; [reflexivity | auto].
  - split; [cbv; lia |]. split.
    { intros _. exists a. split; [| exact Hgot].
      apply In_trace. right. right. left. now exists a. }
    split.
    { intros _. split; right; right; right; simpl; tauto. }
    split.
    + split; [| intros [H | [why H]]; discriminate].
      intros [H | [H | [[b [H _]] | H]]]; try discriminate.
      simpl in H. intuition discriminate.
    + split; [reflexivity | auto].
  - split; [cbv; lia |]. split.
    { intros _. exists a. split; [| exact Hgot].
      apply In_trace. right. right. left. now exists a. }
    split.
    { intros _. split; right; right; right; simpl; tauto. }
    split.
    + split; [intros _; exact Hex |].
      intros _. right. right. right. simpl. tauto.
    + split; [reflexivity | auto].
Qed.

(** ** The whole run *)


